(** * Multi-broker trading server: broker adapters, tool executor,
      conversation orchestrator and autotrading scheduler.

    A shallow embedding of [multi-broker-trading-server.py] and of the
    adapters under [brokers/].  Python values are the JSON-like type
    [pyval]; code that can raise is written in the monad [M], which
    threads the process state (the outbound calls made so far, the audit
    log, the note file and the message list of the running conversation)
    and returns either a raised exception or a value.  What lies outside
    the repository (the venues, the model backends, HMAC, JSON, the clock)
    is the record [Env].  A float is the rational it holds, and what the
    adapters compute with floats is rounded to the nearest double after
    each operation (module [Float64]); the indicator of module
    [Indicators] is computed on exact values.  Strings are byte strings,
    so [upper] and [lower] act on ASCII letters only. *)

From Stdlib Require Import ZArith QArith Qabs Qminmax Qround Qpower String
  Ascii List Bool Lia Lqa.
From stdpp Require Import gmap strings list pretty sorting.

Open Scope string_scope.
#[local] Set Warnings "-register-all".

(* ===================================================================== *)
(** * Part I: the embedding *)
(* ===================================================================== *)

(** ** Python strings *)

Module PyStr.

(** [s.replace(c, '')] for a one-character [c]. *)
Fixpoint remove_char (c : ascii) (s : string) : string :=
  match s with
  | EmptyString => EmptyString
  | String a s' =>
      if Ascii.eqb a c then remove_char c s' else String a (remove_char c s')
  end.

(** [c in s] for a one-character [c]. *)
Fixpoint contains_char (c : ascii) (s : string) : bool :=
  match s with
  | EmptyString => false
  | String a s' => Ascii.eqb a c || contains_char c s'
  end.

(** [s.endswith(suffix)]. *)
Fixpoint endswith (s suffix : string) : bool :=
  String.eqb s suffix ||
  match s with
  | EmptyString => false
  | String _ s' => endswith s' suffix
  end.

(** [s[:-n]] for [n > 0]: everything but the last [n] characters. *)
Definition drop_last (n : nat) (s : string) : string :=
  substring 0 (String.length s - n) s.

Definition upper_char (a : ascii) : ascii :=
  let n := nat_of_ascii a in
  if (97 <=? n)%nat && (n <=? 122)%nat then ascii_of_nat (n - 32) else a.

(** [s.upper()] on ASCII text. *)
Fixpoint upper (s : string) : string :=
  match s with
  | EmptyString => EmptyString
  | String a s' => String (upper_char a) (upper s')
  end.

Definition lower_char (a : ascii) : ascii :=
  let n := nat_of_ascii a in
  if (65 <=? n)%nat && (n <=? 90)%nat then ascii_of_nat (n + 32) else a.

(** [s.lower()] on ASCII text. *)
Fixpoint lower (s : string) : string :=
  match s with
  | EmptyString => EmptyString
  | String a s' => String (lower_char a) (lower s')
  end.

(** [sep.join(parts)]. *)
Fixpoint join (sep : string) (parts : list string) : string :=
  match parts with
  | [] => ""
  | [p] => p
  | p :: rest => p +:+ sep +:+ join sep rest
  end.

(** [sub in s] for strings: is [sub] a contiguous part of [s]. *)
Fixpoint contains (sub s : string) : bool :=
  String.prefix sub s ||
  match s with
  | EmptyString => false
  | String _ s' => contains sub s'
  end.

End PyStr.

(** ** Symbol normalisation, one function per adapter *)

Module Symbols.
Import PyStr.

Inductive broker_kind := Alpaca | Bybit | Binance.

(** [asset_class in ['crypto', 'crypto_futures']] *)
Definition is_crypto_class (asset_class : string) : bool :=
  String.eqb asset_class "crypto" || String.eqb asset_class "crypto_futures".

(** [BybitBroker.normalize_symbol] *)
Definition bybit_normalize_symbol (symbol asset_class : string) : string :=
  if is_crypto_class asset_class then
    let symbol := remove_char "-" (remove_char "/" symbol) in
    let symbol :=
      if negb (endswith symbol "USDT") && negb (endswith symbol "USD")
      then symbol +:+ "USDT" else symbol in
    let symbol :=
      if endswith symbol "USD" && negb (endswith symbol "USDT")
      then drop_last 3 symbol +:+ "USDT" else symbol in
    symbol
  else symbol.

(** [BinanceBroker.normalize_symbol] *)
Definition binance_normalize_symbol (symbol asset_class : string) : string :=
  if is_crypto_class asset_class then
    let symbol := upper (remove_char "-" (remove_char "/" symbol)) in
    if negb (endswith symbol "USDT") then
      if endswith symbol "USD" then drop_last 3 symbol +:+ "USDT"
      else symbol +:+ "USDT"
    else symbol
  else symbol.

(** [AlpacaBroker.normalize_symbol] *)
Definition alpaca_normalize_symbol (symbol asset_class : string) : string :=
  if String.eqb asset_class "crypto" then
    if negb (contains_char "/" symbol) then
      if endswith symbol "USD" then drop_last 3 symbol +:+ "/USD"
      else if endswith symbol "USDT" then drop_last 4 symbol +:+ "/USD"
      else symbol
    else symbol
  else symbol.

Definition normalize_symbol (b : broker_kind) (symbol asset_class : string)
  : string :=
  match b with
  | Alpaca => alpaca_normalize_symbol symbol asset_class
  | Bybit => bybit_normalize_symbol symbol asset_class
  | Binance => binance_normalize_symbol symbol asset_class
  end.

End Symbols.

(** ** Python values, exceptions and the effect monad *)

Module Py.
Export Symbols.

(** JSON-like Python values: what tool arguments, request parameters and
    tool results are made of. *)
Inductive pyval :=
| VNone
| VBool (b : bool)
| VInt (z : Z)
| VFloat (q : Q)
| VStr (s : string)
| VList (l : list pyval)
| VDict (d : list (string * pyval)).

(** The exception classes the modelled code and its collaborators raise.
    Every one of them derives from [Exception]. *)
Inductive exn_class :=
| KeyError | ValueError | TypeError | AttributeError | ZeroDivisionError
| NotImplementedError | JSONDecodeError | HTTPError | OSError
| OverflowError | OtherException.

(** A raised exception: its class and what [str(e)] returns. *)
Record pyexn := mk_exn { exn_cls : exn_class; exn_str : string }.

Definition is_NotImplementedError (e : pyexn) : bool :=
  match exn_cls e with NotImplementedError => true | _ => false end.

(** Claude content blocks, DeepSeek tool calls and conversation messages. *)
Inductive block :=
| TextBlock (text : string)
| ToolUseBlock (id name : string) (input : gmap string pyval).

Record claude_response :=
  { stop_reason : string; content : list block }.

Record tool_call :=
  { tc_id : string; tc_name : string; tc_arguments : string }.

(** [response.choices[0].message]; an absent [tool_calls] is the empty list. *)
Record ds_message :=
  { dm_content : pyval; dm_tool_calls : list tool_call }.

Record tool_result_block :=
  { tool_use_id : string; tr_content : string }.

Inductive message :=
| MUser (text : string)
| MAssistantText (text : pyval)
| MAssistantBlocks (blocks : list block)
| MToolResults (results : list tool_result_block)
| MAssistantCalls (m : ds_message)
| MTool (tool_call_id : string) (text : string).

(** Everything the process does to the outside world, in order. *)
Inductive event :=
| EHttp (method url : string) (params : list (string * pyval))
| ESdk (op : string) (args : list pyval)
| EOpaque (op : string) (args : list pyval)
| ELlm (backend : string) (history : list message)
| ESleep (seconds : Q).

Record log_entry :=
  { timestamp : string; log_message : string; log_type : string }.

(** Process state: outbound calls so far, the audit log
    ([autotrading_logs]), the note file ([trading_memory.md]) and the
    message list the running conversation appends to. *)
Record world :=
  { events : list event;
    logs : list log_entry;
    memory_file : option string;
    messages : list message }.

Definition with_events (evs : list event) (w : world) : world :=
  {| events := evs; logs := logs w; memory_file := memory_file w;
     messages := messages w |}.

Definition with_logs (l : list log_entry) (w : world) : world :=
  {| events := events w; logs := l; memory_file := memory_file w;
     messages := messages w |}.

Definition with_file (f : option string) (w : world) : world :=
  {| events := events w; logs := logs w; memory_file := f;
     messages := messages w |}.

Definition with_messages (ms : list message) (w : world) : world :=
  {| events := events w; logs := logs w; memory_file := memory_file w;
     messages := ms |}.

Definition Exc (A : Type) : Type := pyexn + A.

Definition M (A : Type) : Type := world → Exc A * world.

Definition ret {A} (a : A) : M A := λ w, (inr a, w).

Definition raise {A} (c : exn_class) (msg : string) : M A :=
  λ w, (inl (mk_exn c msg), w).

Definition bind {A B} (m : M A) (k : A → M B) : M B :=
  λ w, match m w with
       | (inr a, w') => k a w'
       | (inl e, w') => (inl e, w')
       end.

(** [try: body  except Exception as e: handler e] *)
Definition try_except {A} (body : M A) (handler : pyexn → M A) : M A :=
  λ w, match body w with
       | (inl e, w') => handler e w'
       | r => r
       end.

Definition lift_exc {A} (x : Exc A) : M A := λ w, (x, w).

Definition emit (ev : event) : M unit :=
  λ w, (inr tt, with_events (events w ++ [ev])%list w).

Definition get_events : M (list event) := λ w, (inr (events w), w).

Declare Scope py_scope.
Delimit Scope py_scope with py.
Notation "'let!' x ':=' m 'in' k" := (bind m (λ x, k))
  (at level 10, x name, m at level 100, k at level 200) : py_scope.
Notation "'do!' m 'in' k" := (bind m (λ _, k))
  (at level 10, m at level 100, k at level 200) : py_scope.
Open Scope py_scope.

(** *** Python operators on values *)

Definition truthy (v : pyval) : bool :=
  match v with
  | VNone => false
  | VBool b => b
  | VInt z => negb (z =? 0)%Z
  | VFloat q => negb (Qeq_bool q 0)
  | VStr s => negb (String.eqb s "")
  | VList l => match l with [] => false | _ => true end
  | VDict d => match d with [] => false | _ => true end
  end.

Definition as_number (v : pyval) : option Q :=
  match v with
  | VBool b => Some (if b then 1 else 0)%Q
  | VInt z => Some (inject_Z z)
  | VFloat q => Some q
  | _ => None
  end.

Definition type_name (v : pyval) : string :=
  match v with
  | VNone => "NoneType" | VBool _ => "bool" | VInt _ => "int"
  | VFloat _ => "float" | VStr _ => "str" | VList _ => "list"
  | VDict _ => "dict"
  end.

Definition Qlt_bool (x y : Q) : bool := negb (Qle_bool y x).

(** [v > n] for a number [n] of Python type [ty]. *)
Definition py_gt_num (v : pyval) (n : Q) (ty : string) : M bool :=
  match as_number v with
  | Some x => ret (Qlt_bool n x)
  | None =>
      raise TypeError ("'>' not supported between instances of '" +:+
                       type_name v +:+ "' and '" +:+ ty +:+ "'")
  end.

(** [arguments[key]] *)
Definition getitem (arguments : gmap string pyval) (key : string) : M pyval :=
  match arguments !! key with
  | Some v => ret v
  | None => raise KeyError ("'" +:+ key +:+ "'")
  end.

(** [arguments.get(key)] and [arguments.get(key, default)] *)
Definition get (arguments : gmap string pyval) (key : string) : pyval :=
  default VNone (arguments !! key).

Definition get_default (arguments : gmap string pyval) (key : string)
  (dflt : pyval) : pyval :=
  default dflt (arguments !! key).

(** Insertion-ordered dict: [d[k] = v]. *)
Fixpoint dict_set (k : string) (v : pyval) (d : list (string * pyval))
  : list (string * pyval) :=
  match d with
  | [] => [(k, v)]
  | (k', v') :: rest =>
      if String.eqb k' k then (k, v) :: rest
      else (k', v') :: dict_set k v rest
  end.

Fixpoint dict_get (k : string) (d : list (string * pyval)) : option pyval :=
  match d with
  | [] => None
  | (k', v) :: rest => if String.eqb k' k then Some v else dict_get k rest
  end.

End Py.

(** ** Python floats *)

Module Float64.
Export Py.

(** A Python float is an IEEE 754 binary64 number.  A finite one is
    modelled by the rational it holds, and an arithmetic operation returns
    the double nearest to the exact result, a tie going to the even
    significand.  Infinities, NaN and the sign of zero have no
    counterpart here: a result beyond [max_double], which Python turns
    into [inf], is outside the model, and a property that speaks of the
    value of a result assumes that it [is_finite]. *)

(** Round half to even, to an integer. *)
Definition round_half_even (q : Q) : Z :=
  let f := Qfloor q in
  let d := (q - inject_Z f)%Q in
  if Qlt_bool d (1 # 2) then f
  else if Qlt_bool (1 # 2) d then (f + 1)%Z
  else if Z.even f then f else (f + 1)%Z.

(** [2 ** k] *)
Definition pow2 (k : Z) : Q := (2 ^ k)%Q.

(** [floor(log2(q))] for [0 < q]. *)
Definition Qlog2 (q : Q) : Z :=
  let e := (Z.log2 (Qnum q) - Z.log2 (Zpos (Qden q)))%Z in
  if Qle_bool (pow2 e) q then e else (e - 1)%Z.

(** The exponent of the last place of the double nearest to [q]: 53
    significant bits, or the last place of the subnormal numbers. *)
Definition ulp_exponent (q : Q) : Z :=
  Z.max (Qlog2 (Qabs q) - 52) (-1074).

(** The double nearest to [q]. *)
Definition round_double (q : Q) : Q :=
  let q := Qred q in
  if Qeq_bool q 0 then 0%Q
  else
    let k := ulp_exponent q in
    Qred (inject_Z (round_half_even (q / pow2 k)) * pow2 k).

(** [sys.float_info.max] *)
Definition max_double : Q := inject_Z ((2 ^ 53 - 1) * 2 ^ 971).

Definition is_finite (q : Q) : bool := Qle_bool (Qabs q) max_double.

(** [x * y] and [x / y] on floats, for a [y] that is not zero. *)
Definition float_mul (x y : Q) : Q := round_double (x * y).

Definition float_div (x y : Q) : Q := round_double (x / y).

(** An int operand of a float operation, converted to a float. *)
Definition float_of_int (z : Z) : M Q :=
  let x := round_double (inject_Z z) in
  if is_finite x then ret x
  else raise OverflowError "int too large to convert to float".

(** [a / b] on ints, for a [b] that is not zero: the double nearest to
    the quotient. *)
Definition int_true_div (a b : Z) : M Q :=
  let x := round_double (inject_Z a / inject_Z b) in
  if is_finite x then ret x
  else raise OverflowError "integer division result too large for a float".

End Float64.

(** ** The venues and the other collaborators outside the repository *)

Module Venue.
Export Float64.

(** Venue replies, after [response.json()] and the [float(...)] and
    [int(...)] conversions the adapters apply to the fields they read.  A
    field read with [pos.get(key, default)] holds the default when the key
    is absent; the two fields for which absence matters are options. *)
Record bybit_position :=
  { bp_symbol : option string; bp_size : Q; bp_side : string;
    bp_entry_price : Q; bp_liq_price : Q; bp_position_value : option Q;
    bp_unrealised_pnl : Q; bp_leverage : Z }.

Record binance_position :=
  { np_symbol : option string; np_positionAmt : Q; np_entryPrice : Q;
    np_markPrice : Q; np_unRealizedProfit : Q; np_leverage : Z }.

Record alpaca_position :=
  { ap_symbol : string; ap_qty : Q; ap_avg_entry_price : Q;
    ap_current_price : Q; ap_market_value : Q; ap_unrealized_pl : Q;
    ap_unrealized_plpc : Q; ap_asset_class : string; ap_exchange : string }.

Record binance_order_ack :=
  { no_orderId : pyval; no_status : pyval; no_origQty : Q; no_avgPrice : Q }.

(** An alpaca-py order object; an optional field is [None] when the SDK
    field is falsy. *)
Record alpaca_order :=
  { ao_id : string; ao_symbol : string; ao_status : string; ao_side : string;
    ao_qty : option Q; ao_notional : option Q;
    ao_filled_avg_price : option Q }.

(** A ticker: the last price and the remaining fields of the price dict. *)
Record ticker := { tk_price : Q; tk_fields : list (string * pyval) }.

(** What the code needs from outside the repository.  A venue oracle is
    asked with the calls made so far, the current request included; its
    answer covers [raise_for_status], the venue's return code and decoding. *)
Record Env :=
  { (** [hmac.new(key, msg, hashlib.sha256).hexdigest()] *)
    hmac_sha256_hex : string → string → string;
    (** [str(v)] for floats, lists and dicts *)
    py_format : pyval → string;
    (** [int(time.time() * 1000)] *)
    time_ms : list event → Z;
    (** [datetime.now().isoformat()] *)
    now_iso : world → string;
    (** [json.loads] and [json.dumps] *)
    json_loads : string → Exc (gmap string pyval);
    json_dumps : pyval → Exc string;
    (** the venues *)
    bybit_positions_reply : list event → Exc (list bybit_position);
    bybit_order_reply : list event → Exc pyval;
    bybit_leverage_reply : list event → Exc unit;
    bybit_ticker_reply : list event → Exc ticker;
    binance_positions_reply : list event → Exc (list binance_position);
    binance_order_reply : list event → Exc binance_order_ack;
    binance_leverage_reply : list event → Exc unit;
    binance_ticker_reply : list event → Exc ticker;
    alpaca_positions_reply : list event → Exc (list alpaca_position);
    alpaca_order_reply : list event → Exc alpaca_order;
    alpaca_bar_reply : list event → Exc ticker;
    (** adapter methods that are not modelled in detail (account, bars,
        orders, cancellation, market status, Alpaca stock orders and quotes) *)
    opaque_reply : list event → Exc pyval;
    (** indicator computation of [get_technical_indicators] *)
    technical_reply : list event → Exc pyval;
    (** prompt text built from the account and the positions *)
    context_text : pyval → pyval → Exc string;
    (** the two model backends *)
    claude_create : list event → Exc claude_response;
    deepseek_create : list event → Exc ds_message;
    (** the flag [autotrading_active], as read at the top of an iteration *)
    autotrading_active : world → bool;
    (** a fault of the file system when the note file is opened *)
    fs_fault : world → option pyexn }.

Definition py_str (E : Env) (v : pyval) : string :=
  match v with
  | VNone => "None"
  | VBool true => "True"
  | VBool false => "False"
  | VInt z => pretty z
  | VStr s => s
  | _ => py_format E v
  end.

(** Ask an oracle about the calls made so far. *)
Definition ask {A} (oracle : list event → Exc A) : M A :=
  λ w, (oracle (events w), w).

End Venue.

(** ** Request signing and transport of the two signature-based adapters *)

Module Signing.
Export Venue.
Import PyStr.

(** [BaseBroker.__init__]: what every adapter instance holds. *)
Record broker :=
  { kind : broker_kind; api_key : string; api_secret : string;
    paper_mode : bool }.

(** [self.recv_window = 5000] *)
Definition recv_window : Z := 5000.

(** [f"{k}={v}"] *)
Definition kv (E : Env) (item : string * pyval) : string :=
  item.1 +:+ "=" +:+ py_str E item.2.

Definition key_le (x y : string * pyval) : Prop :=
  String.leb x.1 y.1 = true.

#[global] Instance key_le_dec : RelDecision key_le :=
  λ x y, bool_dec (String.leb x.1 y.1) true.

(** [sorted(params.items())]: the keys of a dict are distinct, so the
    order of the pairs is the order of their keys. *)
Definition sorted_items (params : list (string * pyval))
  : list (string * pyval) :=
  merge_sort key_le params.

(** [BybitBroker._generate_signature] *)
Definition bybit_generate_signature (E : Env) (b : broker)
  (params : list (string * pyval)) : string :=
  let param_str := join "&" (map (kv E) (sorted_items params)) in
  hmac_sha256_hex E (api_secret b) param_str.

(** [BinanceBroker._generate_signature] *)
Definition binance_generate_signature (E : Env) (b : broker)
  (params : string) : string :=
  hmac_sha256_hex E (api_secret b) params.

Definition bybit_base_url (b : broker) : string :=
  if paper_mode b then "https://api-testnet.bybit.com"
  else "https://api.bybit.com".

Definition binance_base_url (b : broker) : string :=
  if paper_mode b then "https://testnet.binancefuture.com"
  else "https://fapi.binance.com".

Definition binance_spot_url (b : broker) : string :=
  if paper_mode b then "https://testnet.binance.vision"
  else "https://api.binance.com".

(** The [if signed:] block of [BybitBroker._make_request]. *)
Definition bybit_sign_params (E : Env) (b : broker) (evs : list event)
  (params : list (string * pyval)) : list (string * pyval) :=
  let timestamp := time_ms E evs in
  let params := dict_set "api_key" (VStr (api_key b)) params in
  let params := dict_set "timestamp" (VInt timestamp) params in
  let params := dict_set "recv_window" (VInt recv_window) params in
  dict_set "sign" (VStr (bybit_generate_signature E b params)) params.

(** [BybitBroker._make_request]; [reply] decodes the venue's answer to
    this endpoint. *)
Definition bybit_make_request {A} (E : Env) (b : broker)
  (reply : list event → Exc A) (method endpoint : string)
  (params : list (string * pyval)) (signed : bool) : M A :=
  let url := bybit_base_url b +:+ endpoint in
  let! evs := get_events in
  let params := if signed then bybit_sign_params E b evs params else params in
  do! emit (EHttp (if String.eqb method "GET" then "GET" else "POST")
                  url params) in
  ask reply.

(** The query string the Binance adapter signs: the pairs in the order
    the dict holds them. *)
Definition binance_query_string (E : Env) (params : list (string * pyval))
  : string :=
  join "&" (map (kv E) params).

(** The [if signed:] block of [BinanceBroker._make_request]. *)
Definition binance_sign_params (E : Env) (b : broker) (evs : list event)
  (params : list (string * pyval)) : list (string * pyval) :=
  let params := dict_set "timestamp" (VInt (time_ms E evs)) params in
  let params := dict_set "recvWindow" (VInt recv_window) params in
  let query_string := binance_query_string E params in
  dict_set "signature"
    (VStr (binance_generate_signature E b query_string)) params.

(** [BinanceBroker._make_request] *)
Definition binance_make_request {A} (E : Env) (b : broker)
  (reply : list event → Exc A) (method endpoint : string)
  (params : list (string * pyval)) (signed use_spot : bool) : M A :=
  let base := if use_spot then binance_spot_url b else binance_base_url b in
  let url := base +:+ endpoint in
  let! evs := get_events in
  let params :=
    if signed then binance_sign_params E b evs params else params in
  if String.eqb method "GET" || String.eqb method "POST"
     || String.eqb method "DELETE"
  then do! emit (EHttp method url params) in ask reply
  else raise ValueError ("Unsupported method: " +:+ method).

End Signing.

(** ** The three adapters *)

Module Adapters.
Export Signing.
Import PyStr.

Definition get_broker_name (b : broker) : string :=
  match kind b with
  | Alpaca => "Alpaca" | Bybit => "Bybit" | Binance => "Binance"
  end.

Definition supports_crypto_leverage (b : broker) : bool :=
  match kind b with
  | Alpaca => false | Bybit => true | Binance => true
  end.

Definition get_max_leverage (b : broker) (asset_class : string) : Z :=
  match kind b with
  | Alpaca => if String.eqb asset_class "stock" then 2 else 1
  | Bybit => if is_crypto_class asset_class then 100 else 1
  | Binance => if is_crypto_class asset_class then 125 else 1
  end.

(** One entry of the list [get_positions] returns. *)
Record position :=
  { symbol : string; qty : Q; avg_entry_price : Q; current_price : Q;
    market_value : Q; unrealized_pl : Q; unrealized_pl_percent : pyval;
    side : string; asset_class : string; exchange : string;
    leverage : option Z }.

Definition position_dict (p : position) : pyval :=
  VDict ([("symbol", VStr (symbol p)); ("qty", VFloat (qty p));
          ("avg_entry_price", VFloat (avg_entry_price p));
          ("current_price", VFloat (current_price p));
          ("market_value", VFloat (market_value p));
          ("unrealized_pl", VFloat (unrealized_pl p));
          ("unrealized_pl_percent", unrealized_pl_percent p);
          ("side", VStr (side p)); ("asset_class", VStr (asset_class p));
          ("exchange", VStr (exchange p))]
         ++ match leverage p with
            | Some l => [("leverage", VInt l)]
            | None => []
            end).

(** The loop of [BybitBroker.get_positions] over the venue's list. *)
Fixpoint bybit_build_positions (l : list bybit_position)
  : Exc (list position) :=
  match l with
  | [] => inr []
  | pos :: rest =>
      if Qlt_bool 0 (bp_size pos) then
        let side := if String.eqb (bp_side pos) "Buy" then "long"
                    else "short" in
        let qty := bp_size pos in
        match bp_symbol pos with
        | None => inl (mk_exn KeyError "'symbol'")
        | Some sym =>
            if Qeq_bool (default 1%Q (bp_position_value pos)) 0 then
              inl (mk_exn ZeroDivisionError "float division by zero")
            else
              let p :=
                {| symbol := sym;
                   qty := if String.eqb side "long" then qty else - qty;
                   avg_entry_price := bp_entry_price pos;
                   current_price := bp_liq_price pos;
                   market_value := default 0%Q (bp_position_value pos);
                   unrealized_pl := bp_unrealised_pnl pos;
                   unrealized_pl_percent :=
                     VFloat (float_mul
                               (float_div (bp_unrealised_pnl pos)
                                  (default 1%Q (bp_position_value pos)))
                               100);
                   side := side;
                   asset_class := "crypto_futures";
                   exchange := "bybit";
                   leverage := Some (bp_leverage pos) |} in
              match bybit_build_positions rest with
              | inl e => inl e
              | inr ps => inr (p :: ps)
              end
        end
      else bybit_build_positions rest
  end.

(** The loop of [BinanceBroker.get_positions]. *)
Fixpoint binance_build_positions (l : list binance_position)
  : Exc (list position) :=
  match l with
  | [] => inr []
  | pos :: rest =>
      let pos_amt := np_positionAmt pos in
      if negb (Qeq_bool pos_amt 0) then
        let entry_price := np_entryPrice pos in
        let mark_price := np_markPrice pos in
        let unrealized_pnl := np_unRealizedProfit pos in
        match np_symbol pos with
        | None => inl (mk_exn KeyError "'symbol'")
        | Some sym =>
            let cost := float_mul (Qabs pos_amt) entry_price in
            if negb (Qeq_bool entry_price 0) && Qeq_bool cost 0 then
              inl (mk_exn ZeroDivisionError "float division by zero")
            else
              let p :=
                {| symbol := sym;
                   qty := pos_amt;
                   avg_entry_price := entry_price;
                   current_price := mark_price;
                   market_value := Qabs (float_mul pos_amt mark_price);
                   unrealized_pl := unrealized_pnl;
                   unrealized_pl_percent :=
                     if negb (Qeq_bool entry_price 0)
                     then VFloat (float_mul (float_div unrealized_pnl cost)
                                    100)
                     else VInt 0;
                   side := if Qlt_bool 0 pos_amt then "long" else "short";
                   asset_class := "crypto_futures";
                   exchange := "binance";
                   leverage := Some (np_leverage pos) |} in
              match binance_build_positions rest with
              | inl e => inl e
              | inr ps => inr (p :: ps)
              end
        end
      else binance_build_positions rest
  end.

Definition alpaca_build_position (p : alpaca_position) : position :=
  {| symbol := ap_symbol p;
     qty := ap_qty p;
     avg_entry_price := ap_avg_entry_price p;
     current_price := ap_current_price p;
     market_value := ap_market_value p;
     unrealized_pl := ap_unrealized_pl p;
     unrealized_pl_percent := VFloat (float_mul (ap_unrealized_plpc p) 100);
     side := if Qlt_bool 0 (ap_qty p) then "long" else "short";
     asset_class := ap_asset_class p;
     exchange := ap_exchange p;
     leverage := None |}.

(** [get_positions] of the three adapters. *)
Definition get_positions (E : Env) (b : broker) : M (list position) :=
  match kind b with
  | Bybit =>
      let! futures_pos :=
        bybit_make_request E b (bybit_positions_reply E)
          "GET" "/v2/private/position/list" [] true in
      lift_exc (bybit_build_positions futures_pos)
  | Binance =>
      let! positions_data :=
        binance_make_request E b (binance_positions_reply E)
          "GET" "/fapi/v2/positionRisk" [] true false in
      lift_exc (binance_build_positions positions_data)
  | Alpaca =>
      do! emit (ESdk "get_all_positions" []) in
      let! positions := ask (alpaca_positions_reply E) in
      ret (map alpaca_build_position positions)
  end.

(** [next((p for p in positions if p['symbol'] == symbol), None)] *)
Definition find_position (positions : list position) (sym : pyval)
  : option position :=
  match sym with
  | VStr s => List.find (λ p, String.eqb (symbol p) s) positions
  | _ => None
  end.

(** [percentage / 100]: the true division of an int, the division of a
    float. *)
Definition percent_of (percentage : pyval) : M Q :=
  match percentage with
  | VFloat p => ret (float_div p 100)
  | VInt z => int_true_div z 100
  | VBool b => int_true_div (if b then 1 else 0) 100
  | _ =>
      raise TypeError ("unsupported operand type(s) for /: '" +:+
                       type_name percentage +:+ "' and 'int'")
  end.

(** The quantity to close: the [if percentage: ... elif qty: ... else: ...]
    of the Bybit and Binance adapters. *)
Definition close_quantity (current_qty : Q) (qty percentage : pyval)
  : M pyval :=
  if truthy percentage then
    let! fraction := percent_of percentage in
    ret (VFloat (float_mul current_qty fraction))
  else if truthy qty then
    match as_number qty with
    | Some q => ret (if Qlt_bool current_qty q then VFloat current_qty else qty)
    | None =>
        raise TypeError ("'<' not supported between instances of 'float' and '"
                         +:+ type_name qty +:+ "'")
    end
  else ret (VFloat current_qty).

(** [BybitBroker.close_position] *)
Definition bybit_close_position (E : Env) (b : broker)
  (sym qty percentage : pyval) : M pyval :=
  let! positions := get_positions E b in
  match find_position positions sym with
  | None => raise ValueError ("No position found for " +:+ py_str E sym)
  | Some position =>
      let current_qty := Qabs (Adapters.qty position) in
      let side := side position in
      let! close_qty := close_quantity current_qty qty percentage in
      let close_side := if String.eqb side "long" then "Sell" else "Buy" in
      let params :=
        [("symbol", sym); ("side", VStr close_side);
         ("order_type", VStr "Market"); ("qty", close_qty);
         ("time_in_force", VStr "GoodTillCancel");
         ("reduce_only", VBool true); ("close_on_trigger", VBool false)] in
      let! order_id :=
        bybit_make_request E b (bybit_order_reply E)
          "POST" "/v2/private/order/create" params true in
      ret (VDict [("order_id", order_id); ("symbol", sym);
                  ("status", VStr "submitted"); ("side", VStr close_side);
                  ("qty", close_qty)])
  end.

(** [BinanceBroker.close_position] *)
Definition binance_close_position (E : Env) (b : broker)
  (sym qty percentage : pyval) : M pyval :=
  let! positions := get_positions E b in
  match find_position positions sym with
  | None => raise ValueError ("No position found for " +:+ py_str E sym)
  | Some position =>
      let current_qty := Qabs (Adapters.qty position) in
      let side := side position in
      let! close_qty := close_quantity current_qty qty percentage in
      let close_side := if String.eqb side "long" then "SELL" else "BUY" in
      let params :=
        [("symbol", sym); ("side", VStr close_side);
         ("type", VStr "MARKET"); ("quantity", close_qty);
         ("reduceOnly", VStr "true")] in
      let! result :=
        binance_make_request E b (binance_order_reply E)
          "POST" "/fapi/v1/order" params true false in
      ret (VDict [("order_id", VStr (py_str E (no_orderId result)));
                  ("symbol", sym); ("status", no_status result);
                  ("side", VStr close_side); ("qty", close_qty)])
  end.

Definition float_or_zero (x : option Q) : pyval :=
  match x with Some q => VFloat q | None => VInt 0 end.

(** [AlpacaBroker.close_position] *)
Definition alpaca_close_position (E : Env) (b : broker)
  (sym qty percentage : pyval) : M pyval :=
  let request :=
    if truthy percentage then
      VDict [("qty", VStr (py_str E percentage +:+ "%"))]
    else if truthy qty then VDict [("qty", VStr (py_str E qty))]
    else VNone in
  do! emit (ESdk "close_position" [sym; request]) in
  let! order := ask (alpaca_order_reply E) in
  ret (VDict [("order_id", VStr (ao_id order));
              ("symbol", VStr (ao_symbol order));
              ("status", VStr (ao_status order));
              ("side", VStr (ao_side order));
              ("qty", float_or_zero (ao_qty order))]).

Definition close_position (E : Env) (b : broker)
  (sym qty percentage : pyval) : M pyval :=
  match kind b with
  | Alpaca => alpaca_close_position E b sym qty percentage
  | Bybit => bybit_close_position E b sym qty percentage
  | Binance => binance_close_position E b sym qty percentage
  end.

(** [symbol.replace(...)], [side.lower()], [symbol.endswith(...)]: a
    string method called on a value. *)
Definition as_str (attr : string) (v : pyval) : M string :=
  match v with
  | VStr s => ret s
  | _ => raise AttributeError ("'" +:+ type_name v +:+
                               "' object has no attribute '" +:+ attr +:+ "'")
  end.

(** ['/' in v] *)
Definition py_contains_slash (v : pyval) : M bool :=
  match v with
  | VStr s => ret (contains_char "/" s)
  | VList l =>
      ret (existsb (λ x, match x with
                         | VStr s => String.eqb s "/"
                         | _ => false
                         end) l)
  | VDict d => ret (existsb (λ kv, String.eqb kv.1 "/") d)
  | _ => raise TypeError ("argument of type '" +:+ type_name v +:+
                          "' is not iterable")
  end.

(** [self.normalize_symbol(symbol, 'crypto')] on whatever value the caller
    passed as the symbol. *)
Definition normalize_crypto (b : broker) (sym : pyval) : M pyval :=
  match kind b with
  | Bybit =>
      let! s := as_str "replace" sym in
      ret (VStr (bybit_normalize_symbol s "crypto"))
  | Binance =>
      let! s := as_str "replace" sym in
      ret (VStr (binance_normalize_symbol s "crypto"))
  | Alpaca =>
      let! has_slash := py_contains_slash sym in
      if has_slash then ret sym
      else
        let! s := as_str "endswith" sym in
        ret (VStr (alpaca_normalize_symbol s "crypto"))
  end.

Definition price_dict (sym : pyval) (t : ticker) : pyval :=
  VDict (("symbol", sym) :: ("price", VFloat (tk_price t)) :: tk_fields t).

(** [get_crypto_price], returning the normalised symbol with the ticker
    the price dict is built from. *)
Definition crypto_ticker (E : Env) (b : broker) (sym : pyval)
  : M (pyval * ticker) :=
  let! sym := normalize_crypto b sym in
  match kind b with
  | Bybit =>
      let! t := bybit_make_request E b (bybit_ticker_reply E)
                  "GET" "/v2/public/tickers" [("symbol", sym)] false in
      ret (sym, t)
  | Binance =>
      let! t := binance_make_request E b (binance_ticker_reply E)
                  "GET" "/fapi/v1/ticker/24hr" [("symbol", sym)] false false in
      ret (sym, t)
  | Alpaca =>
      do! emit (ESdk "get_crypto_latest_bar" [sym]) in
      let! t := ask (alpaca_bar_reply E) in
      ret (sym, t)
  end.

Definition get_crypto_price (E : Env) (b : broker) (sym : pyval) : M pyval :=
  let! r := crypto_ticker E b sym in
  ret (price_dict r.1 r.2).

(** [a or b] *)
Definition py_or (a b : pyval) : pyval := if truthy a then a else b.

(** [if leverage and leverage > 1:] *)
Definition wants_leverage (leverage : pyval) : M bool :=
  if truthy leverage then py_gt_num leverage 1 "int" else ret false.

(** The left operand of a division by a float: a float as it is, an int
    converted to the nearest double. *)
Definition dividend (v : pyval) : M Q :=
  match v with
  | VFloat n => ret n
  | VInt z => float_of_int z
  | VBool b => ret (if b then 1 else 0)%Q
  | _ =>
      raise TypeError ("unsupported operand type(s) for /: '" +:+
                       type_name v +:+ "' and 'float'")
  end.

(** [if notional and not qty: qty = notional / price_data['price']] *)
Definition quantity_from_notional (E : Env) (b : broker)
  (sym qty notional : pyval) : M pyval :=
  if truthy notional && negb (truthy qty) then
    let! price_data := crypto_ticker E b sym in
    let! n := dividend notional in
    if Qeq_bool (tk_price price_data.2) 0
    then raise ZeroDivisionError "float division by zero"
    else ret (VFloat (float_div n (tk_price price_data.2)))
  else ret qty.

(** [BybitBroker.place_crypto_order] *)
Definition bybit_place_crypto_order (E : Env) (b : broker)
  (sym side qty notional leverage : pyval) : M pyval :=
  let! sym := normalize_crypto b sym in
  let! lev := wants_leverage leverage in
  do! (if lev then
         bybit_make_request E b (bybit_leverage_reply E)
           "POST" "/v2/private/position/leverage/save"
           [("symbol", sym); ("leverage", leverage)] true
       else ret tt) in
  let! qty := quantity_from_notional E b sym qty notional in
  let! side_s := as_str "lower" side in
  let params :=
    [("symbol", sym);
     ("side", VStr (if String.eqb (lower side_s) "buy" then "Buy" else "Sell"));
     ("order_type", VStr "Market"); ("qty", qty);
     ("time_in_force", VStr "GoodTillCancel");
     ("reduce_only", VBool false); ("close_on_trigger", VBool false)] in
  let! order_id :=
    bybit_make_request E b (bybit_order_reply E)
      "POST" "/v2/private/order/create" params true in
  ret (VDict [("order_id", order_id); ("symbol", sym); ("side", side);
              ("qty", qty); ("notional", py_or notional (VInt 0));
              ("status", VStr "submitted"); ("filled_avg_price", VInt 0);
              ("leverage", py_or leverage (VInt 1))]).

(** [BinanceBroker.place_crypto_order] *)
Definition binance_place_crypto_order (E : Env) (b : broker)
  (sym side qty notional leverage : pyval) : M pyval :=
  let! sym := normalize_crypto b sym in
  let! lev := wants_leverage leverage in
  do! (if lev then
         binance_make_request E b (binance_leverage_reply E)
           "POST" "/fapi/v1/leverage"
           [("symbol", sym); ("leverage", leverage)] true false
       else ret tt) in
  let! qty := quantity_from_notional E b sym qty notional in
  let! side_s := as_str "lower" side in
  let params :=
    [("symbol", sym);
     ("side", VStr (if String.eqb (lower side_s) "buy" then "BUY" else "SELL"));
     ("type", VStr "MARKET"); ("quantity", qty)] in
  let! result :=
    binance_make_request E b (binance_order_reply E)
      "POST" "/fapi/v1/order" params true false in
  ret (VDict [("order_id", VStr (py_str E (no_orderId result)));
              ("symbol", sym); ("side", side);
              ("qty", VFloat (no_origQty result));
              ("notional", py_or notional (VInt 0));
              ("status", no_status result);
              ("filled_avg_price", VFloat (no_avgPrice result));
              ("leverage", py_or leverage (VInt 1))]).

(** [AlpacaBroker.place_crypto_order]; the [leverage] argument is unused. *)
Definition alpaca_place_crypto_order (E : Env) (b : broker)
  (sym side qty notional leverage : pyval) : M pyval :=
  let! sym := normalize_crypto b sym in
  let! side_s := as_str "lower" side in
  let order_side := if String.eqb (lower side_s) "buy" then "buy" else "sell" in
  let request :=
    if truthy notional then
      VDict [("symbol", sym); ("notional", notional);
             ("side", VStr order_side); ("time_in_force", VStr "gtc")]
    else
      VDict [("symbol", sym); ("qty", qty);
             ("side", VStr order_side); ("time_in_force", VStr "gtc")] in
  do! emit (ESdk "submit_order" [request]) in
  let! order := ask (alpaca_order_reply E) in
  ret (VDict [("order_id", VStr (ao_id order));
              ("symbol", VStr (ao_symbol order));
              ("side", VStr (ao_side order));
              ("qty", float_or_zero (ao_qty order));
              ("notional", float_or_zero (ao_notional order));
              ("status", VStr (ao_status order));
              ("filled_avg_price", float_or_zero (ao_filled_avg_price order))]).

Definition place_crypto_order (E : Env) (b : broker)
  (sym side qty notional leverage : pyval) : M pyval :=
  match kind b with
  | Alpaca => alpaca_place_crypto_order E b sym side qty notional leverage
  | Bybit => bybit_place_crypto_order E b sym side qty notional leverage
  | Binance => binance_place_crypto_order E b sym side qty notional leverage
  end.

(** An adapter method that is not modelled in detail: the call is recorded
    and the collaborator decides what it returns or raises. *)
Definition opaque_method (E : Env) (b : broker) (op : string)
  (args : list pyval) : M pyval :=
  do! emit (EOpaque (get_broker_name b +:+ "." +:+ op) args) in
  ask (opaque_reply E).

(** [place_stock_order] *)
Definition place_stock_order (E : Env) (b : broker) (args : list pyval)
  : M pyval :=
  match kind b with
  | Alpaca => opaque_method E b "place_stock_order" args
  | Bybit =>
      raise NotImplementedError
        "Bybit does not support stock trading. Please use crypto symbols."
  | Binance =>
      raise NotImplementedError
        "Binance does not support stock trading. Please use crypto symbols."
  end.

(** [get_stock_quote] *)
Definition get_stock_quote (E : Env) (b : broker) (sym : pyval) : M pyval :=
  match kind b with
  | Alpaca => opaque_method E b "get_stock_quote" [sym]
  | Bybit => raise NotImplementedError "Bybit does not support stock trading"
  | Binance =>
      raise NotImplementedError "Binance does not support stock trading"
  end.

End Adapters.

(** ** The tool executor *)

Module Executor.
Export Adapters.
Import PyStr.

(** [{"error": msg}] *)
Definition error_result (msg : string) : pyval := VDict [("error", VStr msg)].

Definition newline : string := String (ascii_of_nat 10) "".

Definition dquote : string := String (ascii_of_nat 34) "".

(** [content.split("\n")] *)
Fixpoint split_lines (s : string) : list string :=
  match s with
  | EmptyString => [""]
  | String a s' =>
      if Ascii.eqb a (ascii_of_nat 10) then "" :: split_lines s'
      else match split_lines s' with
           | [] => [String a ""]
           | line :: rest => String a line :: rest
           end
  end.

(** [[f"{i+1}: {line}" for i, line in enumerate(lines)]], counting from [i]. *)
Fixpoint number_lines (i : Z) (lines : list string) : list string :=
  match lines with
  | [] => []
  | line :: rest =>
      (pretty (i + 1)%Z +:+ ": " +:+ line) :: number_lines (i + 1) rest
  end.

(** [open("trading_memory.md", mode)] may fail. *)
Definition fs_open (E : Env) : M unit :=
  λ w, match fs_fault E w with
       | Some e => (inl e, w)
       | None => (inr tt, w)
       end.

(** The text stored in the note file, if the file exists. *)
Definition read_file : M (option string) := λ w, (inr (memory_file w), w).

(** Writing in text mode stores the text as it is given, the line
    separator being [\n] as on a POSIX system (the server is a script
    that starts with [#!/usr/bin/env python3]). *)
Definition write_file (text : string) : M unit :=
  λ w, (inr tt, with_file (Some text) w).

(** [f.read()] on a file opened in text mode: the stored text with its
    line ends translated, [\r\n] and a lone [\r] becoming [\n]. *)
Fixpoint universal_newlines (stored : string) : string :=
  match stored with
  | EmptyString => EmptyString
  | String a rest =>
      if Ascii.eqb a (ascii_of_nat 13) then
        match rest with
        | EmptyString => newline
        | String b rest' =>
            if Ascii.eqb b (ascii_of_nat 10)
            then String b (universal_newlines rest')
            else String (ascii_of_nat 10) (universal_newlines rest)
        end
      else String a (universal_newlines rest)
  end.

(** [f.write(v)] on a file whose content so far is [before]. *)
Definition file_write (before : string) (v : pyval) : M unit :=
  match v with
  | VStr s => write_file (before +:+ s)
  | _ => raise TypeError ("write() argument must be str, not " +:+ type_name v)
  end.

(** ["\n" + v] *)
Definition newline_plus (v : pyval) : M pyval :=
  match v with
  | VStr s => ret (VStr (newline +:+ s))
  | _ => raise TypeError ("can only concatenate str (not " +:+ dquote +:+
                          type_name v +:+ dquote +:+ ") to str")
  end.

(** [symbol.endswith(suffix)] on an argument value. *)
Definition py_endswith (v : pyval) (suffix : string) : M bool :=
  let! s := as_str "endswith" v in ret (endswith s suffix).

(** ['/' in symbol or symbol.endswith('USDT') or symbol.endswith('USD')] *)
Definition looks_crypto (sym : pyval) : M bool :=
  let! a := py_contains_slash sym in
  if a then ret true
  else
    let! b := py_endswith sym "USDT" in
    if b then ret true else py_endswith sym "USD".

Definition success_result (msg : string) : pyval :=
  VDict [("success", VBool true); ("message", VStr msg)].

(** The body of the [try:] block of [execute_tool]. *)
Definition dispatch (E : Env) (broker : broker) (tool_name : string)
  (arguments : gmap string pyval) : M pyval :=
  if String.eqb tool_name "get_account" then
    opaque_method E broker "get_account" []
  else if String.eqb tool_name "get_all_positions" then
    let! ps := get_positions E broker in
    ret (VList (map position_dict ps))
  else if String.eqb tool_name "close_position" then
    let! sym := getitem arguments "symbol" in
    close_position E broker sym (get arguments "qty")
      (get arguments "percentage")
  else if String.eqb tool_name "get_crypto_latest_bar" then
    let! sym := getitem arguments "symbol" in
    get_crypto_price E broker sym
  else if String.eqb tool_name "place_crypto_order" then
    let leverage := get_default arguments "leverage" (VInt 1) in
    let! above_one := py_gt_num leverage 1 "int" in
    if above_one && negb (supports_crypto_leverage broker) then
      ret (error_result
             (get_broker_name broker +:+ " doesn't support leverage trading. "
              +:+ "Switch to Bybit or Binance for leverage trading."))
    else
      let max_lev := get_max_leverage broker "crypto" in
      let! above_max := py_gt_num leverage (inject_Z max_lev) "int" in
      if above_max then
        ret (error_result
               (get_broker_name broker +:+ " max leverage is " +:+
                pretty max_lev +:+ "x, " +:+ "you requested " +:+
                py_str E leverage +:+ "x"))
      else
        let! sym := getitem arguments "symbol" in
        let! side := getitem arguments "side" in
        place_crypto_order E broker sym side (get arguments "qty")
          (get arguments "notional") leverage
  else if String.eqb tool_name "place_stock_order" then
    let! sym := getitem arguments "symbol" in
    let! side := getitem arguments "side" in
    place_stock_order E broker
      [sym; side; get arguments "qty"; get arguments "notional";
       get_default arguments "order_type" (VStr "market");
       get arguments "limit_price"; get arguments "stop_price";
       get_default arguments "time_in_force" (VStr "day")]
  else if String.eqb tool_name "get_stock_quote" then
    let! sym := getitem arguments "symbol" in
    get_stock_quote E broker sym
  else if String.eqb tool_name "get_stock_bars" then
    let! sym := getitem arguments "symbol" in
    let! timeframe := getitem arguments "timeframe" in
    opaque_method E broker "get_stock_bars"
      [sym; timeframe; get_default arguments "limit" (VInt 100)]
  else if String.eqb tool_name "get_technical_indicators" then
    let! sym := getitem arguments "symbol" in
    let timeframe := get_default arguments "timeframe" (VStr "1d") in
    let! is_crypto := looks_crypto sym in
    try_except
      (do! emit (EOpaque "technical_indicators"
                   [sym; timeframe; VBool is_crypto]) in
       ask (technical_reply E))
      (λ e, ret (error_result ("Technical analysis failed: " +:+ exn_str e)))
  else if String.eqb tool_name "get_orders" then
    opaque_method E broker "get_orders"
      [get_default arguments "status" (VStr "all")]
  else if String.eqb tool_name "cancel_order" then
    let! order_id := getitem arguments "order_id" in
    opaque_method E broker "cancel_order" [order_id]
  else if String.eqb tool_name "cancel_all_orders" then
    opaque_method E broker "cancel_all_orders" []
  else if String.eqb tool_name "get_market_clock" then
    opaque_method E broker "get_market_status" []
  else if String.eqb tool_name "read_trading_memory" then
    let! file := read_file in
    match file with
    | Some stored =>
        do! fs_open E in
        let content := universal_newlines stored in
        let lines := split_lines content in
        let numbered := join newline (number_lines 0 lines) in
        ret (VDict [("content", VStr numbered);
                    ("line_count", VInt (Z.of_nat (List.length lines)))])
    | None => ret (VDict [("content", VStr ""); ("line_count", VInt 0)])
    end
  else if String.eqb tool_name "write_trading_memory" then
    do! fs_open E in
    do! write_file "" in
    let! text := getitem arguments "content" in
    do! file_write "" text in
    ret (success_result "Memory updated")
  else if String.eqb tool_name "append_trading_memory" then
    do! fs_open E in
    let! file := read_file in
    let before := default "" file in
    do! write_file before in
    let! text := getitem arguments "content" in
    let! text := newline_plus text in
    do! file_write before text in
    ret (success_result "Content appended")
  else if String.eqb tool_name "clear_trading_memory" then
    do! fs_open E in
    do! write_file "" in
    ret (VDict [("success", VBool true); ("message", VStr "Memory cleared")])
  else
    ret (error_result ("Unknown tool: " +:+ tool_name)).

(** [execute_tool]: the global [broker] is [None] until initialisation. *)
Definition execute_tool (E : Env) (broker : option broker)
  (tool_name : string) (arguments : gmap string pyval) : M pyval :=
  match broker with
  | None =>
      ret (error_result
             "Broker not initialized. Please configure broker credentials in Settings.")
  | Some broker =>
      try_except (dispatch E broker tool_name arguments)
        (λ e,
           if is_NotImplementedError e then
             ret (error_result (get_broker_name broker +:+
                                " doesn't support this feature: " +:+ exn_str e))
           else ret (error_result (exn_str e)))
  end.

(** The names [execute_tool] dispatches on. *)
Definition tool_names : list string :=
  ["get_account"; "get_all_positions"; "close_position";
   "get_crypto_latest_bar"; "place_crypto_order"; "place_stock_order";
   "get_stock_quote"; "get_stock_bars"; "get_technical_indicators";
   "get_orders"; "cancel_order"; "cancel_all_orders"; "get_market_clock";
   "read_trading_memory"; "write_trading_memory"; "append_trading_memory";
   "clear_trading_memory"].

End Executor.

(** ** The conversation orchestrator *)

Module Orchestrator.
Export Executor.

(** The process-wide settings: the globals [broker], [ai_model],
    [anthropic_client], [openai_client] and [autotrading_config]. *)
Record server :=
  { srv_broker : option broker;
    ai_model : string;
    anthropic_client : bool;
    openai_client : bool;
    autotrading_config : pyval }.

Definition get_messages : M (list message) := λ w, (inr (messages w), w).

(** [messages.append(m)] *)
Definition append_message (m : message) : M unit :=
  λ w, (inr tt, with_messages (messages w ++ [m])%list w).

(** [next((block.text for block in response.content
          if hasattr(block, "text")), "")] *)
Fixpoint first_text (blocks : list block) : string :=
  match blocks with
  | [] => ""
  | TextBlock text :: _ => text
  | ToolUseBlock _ _ _ :: rest => first_text rest
  end.

(** The [for block in response.content:] loop of the Claude backend. *)
Fixpoint claude_run_tools (E : Env) (broker : option broker)
  (blocks : list block) : M (list tool_result_block) :=
  match blocks with
  | [] => ret []
  | TextBlock _ :: rest => claude_run_tools E broker rest
  | ToolUseBlock id name input :: rest =>
      let! result := execute_tool E broker name input in
      let! text := lift_exc (json_dumps E result) in
      let! results := claude_run_tools E broker rest in
      ret ({| tool_use_id := id; tr_content := text |} :: results)
  end.

(** The [if response.stop_reason == "tool_use":] block: record the
    assistant turn, run its tool calls, record their results. *)
Definition claude_tool_turn (E : Env) (broker : option broker)
  (response : claude_response) : M unit :=
  do! append_message (MAssistantBlocks (content response)) in
  let! tool_results := claude_run_tools E broker (content response) in
  append_message (MToolResults tool_results).

(** [for turn in range(max_turns):] of [_call_claude_with_tools]. *)
Fixpoint claude_turns (E : Env) (broker : option broker) (turns : nat)
  : M pyval :=
  match turns with
  | O => ret (VStr "Max turns reached.")
  | S turns =>
      let! history := get_messages in
      do! emit (ELlm "claude" history) in
      let! response := ask (claude_create E) in
      if String.eqb (stop_reason response) "end_turn" then
        ret (VStr (first_text (content response)))
      else if String.eqb (stop_reason response) "tool_use" then
        do! claude_tool_turn E broker response in
        claude_turns E broker turns
      else claude_turns E broker turns
  end.

(** [_call_claude_with_tools] *)
Definition _call_claude_with_tools (E : Env) (broker : option broker)
  (max_turns : Z) : M pyval :=
  claude_turns E broker (Z.to_nat max_turns).

(** The [for tool_call in message.tool_calls:] loop of the DeepSeek backend. *)
Fixpoint deepseek_run_tools (E : Env) (broker : option broker)
  (calls : list tool_call) : M unit :=
  match calls with
  | [] => ret tt
  | call :: rest =>
      let! tool_args := lift_exc (json_loads E (tc_arguments call)) in
      let! result := execute_tool E broker (tc_name call) tool_args in
      let! text := lift_exc (json_dumps E result) in
      do! append_message (MTool (tc_id call) text) in
      deepseek_run_tools E broker rest
  end.

(** What follows [if not message.tool_calls: return]: record the
    assistant message, then answer its tool calls one by one. *)
Definition deepseek_tool_turn (E : Env) (broker : option broker)
  (message : ds_message) : M unit :=
  do! append_message (MAssistantCalls message) in
  deepseek_run_tools E broker (dm_tool_calls message).

(** [for turn in range(max_turns):] of [_call_deepseek_with_tools]. *)
Fixpoint deepseek_turns (E : Env) (broker : option broker) (turns : nat)
  : M pyval :=
  match turns with
  | O => ret (VStr "Max turns reached.")
  | S turns =>
      let! history := get_messages in
      do! emit (ELlm "deepseek" history) in
      let! message := ask (deepseek_create E) in
      match dm_tool_calls message with
      | [] => ret (dm_content message)
      | _ :: _ =>
          do! deepseek_tool_turn E broker message in
          deepseek_turns E broker turns
      end
  end.

(** [_call_deepseek_with_tools] *)
Definition _call_deepseek_with_tools (E : Env) (broker : option broker)
  (max_turns : Z) : M pyval :=
  deepseek_turns E broker (Z.to_nat max_turns).

(** [call_ai_with_tools]; the message list is the one held in the state. *)
Definition call_ai_with_tools (E : Env) (srv : server) (max_turns : Z)
  : M pyval :=
  if String.eqb (ai_model srv) "claude" && anthropic_client srv then
    _call_claude_with_tools E (srv_broker srv) max_turns
  else if String.eqb (ai_model srv) "deepseek" && openai_client srv then
    _call_deepseek_with_tools E (srv_broker srv) max_turns
  else
    ret (VStr "AI client not initialized. Please configure API keys in Settings.").

(** The model round-trips among a list of events. *)
Definition is_llm (ev : event) : bool :=
  match ev with ELlm _ _ => true | _ => false end.

Definition llm_calls (evs : list event) : nat :=
  List.length (filter (λ ev, is_llm ev = true) evs).

End Orchestrator.

(** ** The autotrading scheduler and its audit log *)

Module Scheduler.
Export Orchestrator.

(** [l[-n:]] for [n > 0] *)
Definition keep_last {A} (n : nat) (l : list A) : list A :=
  skipn (List.length l - n) l.

(** The list [add_autotrading_log] leaves in [autotrading_logs]. *)
Definition append_log (entry : log_entry) (autotrading_logs : list log_entry)
  : list log_entry :=
  let autotrading_logs := (autotrading_logs ++ [entry])%list in
  if (500 <? List.length autotrading_logs)%nat
  then keep_last 500 autotrading_logs
  else autotrading_logs.

(** [add_autotrading_log] *)
Definition add_autotrading_log (E : Env) (message log_type : string)
  : M unit :=
  λ w,
    let log_entry :=
      {| timestamp := now_iso E w; log_message := message;
         log_type := log_type |} in
    (inr tt, with_logs (append_log log_entry (logs w)) w).

(** The length in nanoseconds as [time.sleep] computes it: an int is
    multiplied by [10 ** 9] exactly, a float by [1e9] as a float. *)
Definition nanoseconds (v : pyval) (q : Q) : Q :=
  match v with
  | VFloat _ => float_mul q (inject_Z (10 ^ 9))
  | _ => (q * inject_Z (10 ^ 9))%Q
  end.

(** The number of seconds from which [time.sleep] cannot hold the length
    in its signed 64-bit count of nanoseconds. *)
Definition sleep_limit : Q := pow2 63 / inject_Z (10 ^ 9).

(** [time.sleep(v)] *)
Definition py_sleep (v : pyval) : M unit :=
  match as_number v with
  | Some q =>
      if Qle_bool (pow2 63) (Qabs (nanoseconds v q)) then
        raise OverflowError "timestamp too large to convert to C _PyTime_t"
      else if Qlt_bool q 0 then
        raise ValueError "sleep length must be non-negative"
      else emit (ESleep q)
  | None =>
      raise TypeError ("'" +:+ type_name v +:+
                       "' object cannot be interpreted as an integer")
  end.

(** [response[:200]] *)
Definition first_200 (response : pyval) : M string :=
  match response with
  | VStr s => ret (substring 0 200 s)
  | _ => raise TypeError ("'" +:+ type_name response +:+
                          "' object is not subscriptable")
  end.

(** [autotrading_config.get('interval', 60)] *)
Definition config_interval (config : pyval) : M pyval :=
  match config with
  | VDict d => ret (default (VInt 60) (dict_get "interval" d))
  | _ => raise AttributeError ("'" +:+ type_name config +:+
                               "' object has no attribute 'get'")
  end.

(** A method call on the global [broker]. *)
Definition the_broker (srv : server) (attr : string) : M broker :=
  match srv_broker srv with
  | Some b => ret b
  | None => raise AttributeError
              ("'NoneType' object has no attribute '" +:+ attr +:+ "'")
  end.

(** The [try:] block of one iteration of [autotrading_loop]. *)
Definition iteration_body (E : Env) (srv : server) : M unit :=
  let! b := the_broker srv "get_account" in
  let! account := opaque_method E b "get_account" [] in
  let! positions := get_positions E b in
  let! context :=
    lift_exc (context_text E account (VList (map position_dict positions))) in
  do! add_autotrading_log E "Analyzing markets..." "info" in
  do! (λ w, (inr tt,
             with_messages [MUser "You are an automated trading system.";
                            MUser context] w)) in
  let! response := call_ai_with_tools E srv 5 in
  let! head := first_200 response in
  do! add_autotrading_log E ("AI Response: " +:+ head +:+ "...") "info" in
  let! interval := config_interval (autotrading_config srv) in
  py_sleep interval.

(** One iteration: the [try:] block with its [except Exception] handler. *)
Definition iteration (E : Env) (srv : server) : M unit :=
  try_except (iteration_body E srv)
    (λ e,
       do! add_autotrading_log E ("Auto-trading error: " +:+ exn_str e)
             "error" in
       py_sleep (VInt 60)).

(** How a pass through the loop leaves the worker: still looping, out of
    the loop, or killed by an exception that escaped the iteration. *)
Inductive loop_status :=
| Running
| Ended
| Died (e : pyexn).

(** One pass through [while autotrading_active:]: test the flag, then run
    an iteration, or leave the loop and log its end. *)
Definition loop_step (E : Env) (srv : server) (w : world)
  : loop_status * world :=
  if autotrading_active E w then
    match iteration E srv w with
    | (inr _, w') => (Running, w')
    | (inl e, w') => (Died e, w')
    end
  else
    (Ended, (add_autotrading_log E "Auto-trading loop ended" "info" w).2).

(** The loop, cut after [fuel] passes. *)
Fixpoint loop_run (E : Env) (srv : server) (fuel : nat) (w : world)
  : loop_status * world :=
  match fuel with
  | O => (Running, w)
  | S fuel =>
      match loop_step E srv w with
      | (Running, w') => loop_run E srv fuel w'
      | r => r
      end
  end.

(** [autotrading_loop]: the opening log line, then the loop. *)
Definition autotrading_loop (E : Env) (srv : server) (fuel : nat) (w : world)
  : loop_status * world :=
  match (let! b := the_broker srv "get_broker_name" in
         add_autotrading_log E
           ("Auto-trading loop started with " +:+ get_broker_name b) "info") w
  with
  | (inr _, w') => loop_run E srv fuel w'
  | (inl e, w') => (Died e, w')
  end.

End Scheduler.

(** ** Concrete collaborators, used to run the code on examples *)

Module Demo.
Export Scheduler.

Definition demo_hmac (key msg : string) : string :=
  "hmac(" +:+ key +:+ "," +:+ msg +:+ ")".

Definition btc_on_bybit : bybit_position :=
  {| bp_symbol := Some "BTCUSDT"; bp_size := 7 # 2; bp_side := "Buy";
     bp_entry_price := 100; bp_liq_price := 50;
     bp_position_value := Some 350%Q;
     bp_unrealised_pnl := 7; bp_leverage := 10 |}.

Definition btc_on_binance : binance_position :=
  {| np_symbol := Some "BTCUSDT"; np_positionAmt := 7 # 2;
     np_entryPrice := 100;
     np_markPrice := 102; np_unRealizedProfit := 7; np_leverage := 10 |}.

Definition btc_on_alpaca : alpaca_position :=
  {| ap_symbol := "BTC/USD"; ap_qty := 7 # 2; ap_avg_entry_price := 100;
     ap_current_price := 102; ap_market_value := 357; ap_unrealized_pl := 7;
     ap_unrealized_plpc := 2 # 100; ap_asset_class := "crypto";
     ap_exchange := "CRYPTO" |}.

Definition demo_alpaca_order : alpaca_order :=
  {| ao_id := "a-1"; ao_symbol := "BTC/USD"; ao_status := "accepted";
     ao_side := "sell"; ao_qty := Some (7 # 2); ao_notional := None;
     ao_filled_avg_price := None |}.

Definition demo_binance_ack : binance_order_ack :=
  {| no_orderId := VInt 42; no_status := VStr "NEW"; no_origQty := 7 # 2;
     no_avgPrice := 0 |}.

Definition demo_ticker : ticker := {| tk_price := 100; tk_fields := [] |}.

Definition demo_json_dumps (v : pyval) : Exc string :=
  inr match v with
      | VDict (("error", VStr m) :: _) => "error: " +:+ m
      | VList _ => "[...]"
      | _ => "{...}"
      end.

Definition demo_json_loads (s : string) : Exc (gmap string pyval) :=
  if String.eqb s "{}" then inr ∅
  else inl (mk_exn JSONDecodeError
              "Expecting value: line 1 column 1 (char 0)").

(** An environment whose venues answer every request; the model backends,
    the opaque adapter methods and the stop flag are left to the caller. *)
Definition demo_env (claude : list event → Exc claude_response)
  (deepseek : list event → Exc ds_message)
  (opaque : list event → Exc pyval) (active : world → bool) : Env :=
  {| hmac_sha256_hex := demo_hmac;
     py_format := λ _, "<repr>";
     time_ms := λ _, 1700000000000%Z;
     now_iso := λ _, "2025-01-01T00:00:00";
     json_loads := demo_json_loads;
     json_dumps := demo_json_dumps;
     bybit_positions_reply := λ _, inr [btc_on_bybit];
     bybit_order_reply := λ _, inr (VStr "order-1");
     bybit_leverage_reply := λ _, inr tt;
     bybit_ticker_reply := λ _, inr demo_ticker;
     binance_positions_reply := λ _, inr [btc_on_binance];
     binance_order_reply := λ _, inr demo_binance_ack;
     binance_leverage_reply := λ _, inr tt;
     binance_ticker_reply := λ _, inr demo_ticker;
     alpaca_positions_reply := λ _, inr [btc_on_alpaca];
     alpaca_order_reply := λ _, inr demo_alpaca_order;
     alpaca_bar_reply := λ _, inr demo_ticker;
     opaque_reply := opaque;
     technical_reply := λ _, inr (VDict [("rsi", VInt 50)]);
     context_text := λ _ _, inr "Current Account: ...";
     claude_create := claude;
     deepseek_create := deepseek;
     autotrading_active := active;
     fs_fault := λ _, None |}.

(** A Claude backend that answers with a final text at once. *)
Definition claude_final : list event → Exc claude_response :=
  λ _, inr {| stop_reason := "end_turn"; content := [TextBlock "Hold."] |}.

(** A Claude backend that asks for the same two tools on every turn. *)
Definition claude_two_tools : list event → Exc claude_response :=
  λ _, inr {| stop_reason := "tool_use";
              content := [TextBlock "Checking.";
                          ToolUseBlock "toolu_1" "get_all_positions" ∅;
                          ToolUseBlock "toolu_2" "no_such_tool" ∅] |}.

Definition two_calls : list tool_call :=
  [{| tc_id := "call_1"; tc_name := "get_all_positions";
      tc_arguments := "{}" |};
   {| tc_id := "call_2"; tc_name := "no_such_tool"; tc_arguments := "{}" |}].

(** A DeepSeek backend that asks for the same two tools on every turn. *)
Definition deepseek_two_tools : list event → Exc ds_message :=
  λ _, inr {| dm_content := VNone; dm_tool_calls := two_calls |}.

Definition deepseek_final : list event → Exc ds_message :=
  λ _, inr {| dm_content := VStr "Hold."; dm_tool_calls := [] |}.

Definition opaque_ok : list event → Exc pyval :=
  λ _, inr (VDict [("cash", VFloat 1000); ("equity", VFloat 1000)]).

Definition opaque_down : list event → Exc pyval :=
  λ _, inl (mk_exn HTTPError "503 Server Error: Service Unavailable").

Definition env_tools : Env :=
  demo_env claude_two_tools deepseek_two_tools opaque_ok (λ _, true).

Definition env_down : Env :=
  demo_env claude_final deepseek_final opaque_down (λ _, true).

Definition demo_broker (k : broker_kind) : broker :=
  {| kind := k; api_key := "key"; api_secret := "secret";
     paper_mode := true |}.

Definition demo_server (k : broker_kind) (model : string) : server :=
  {| srv_broker := Some (demo_broker k); ai_model := model;
     anthropic_client := true; openai_client := true;
     autotrading_config := VDict [("interval", VInt 120)] |}.

(** The positions the Binance adapter reports for [btc_on_binance]. *)
Definition btc_positions : list position :=
  match binance_build_positions [btc_on_binance] with
  | inr ps => ps
  | inl _ => []
  end.

Definition btc_position : position :=
  nth 0 btc_positions (alpaca_build_position btc_on_alpaca).

(** The arguments of a leveraged market buy. *)
Definition order_args (L : Z) : gmap string pyval :=
  <["leverage" := VInt L]> (<["symbol" := VStr "BTC/USD"]>
    (<["side" := VStr "buy"]> ∅)).

Definition w0 : world :=
  {| events := []; logs := []; memory_file := None; messages := [] |}.

(** The environment [E] with another [json.dumps]. *)
Definition with_json_dumps (dumps : pyval → Exc string) (E : Env) : Env :=
  {| hmac_sha256_hex := hmac_sha256_hex E;
     py_format := py_format E;
     time_ms := time_ms E;
     now_iso := now_iso E;
     json_loads := json_loads E;
     json_dumps := dumps;
     bybit_positions_reply := bybit_positions_reply E;
     bybit_order_reply := bybit_order_reply E;
     bybit_leverage_reply := bybit_leverage_reply E;
     bybit_ticker_reply := bybit_ticker_reply E;
     binance_positions_reply := binance_positions_reply E;
     binance_order_reply := binance_order_reply E;
     binance_leverage_reply := binance_leverage_reply E;
     binance_ticker_reply := binance_ticker_reply E;
     alpaca_positions_reply := alpaca_positions_reply E;
     alpaca_order_reply := alpaca_order_reply E;
     alpaca_bar_reply := alpaca_bar_reply E;
     opaque_reply := opaque_reply E;
     technical_reply := technical_reply E;
     context_text := context_text E;
     claude_create := claude_create E;
     deepseek_create := deepseek_create E;
     autotrading_active := autotrading_active E;
     fs_fault := fs_fault E |}.

(** What [BinanceBroker.get_market_status] returns.  Its [next_open],
    [next_close] and [timestamp] are [datetime] objects, which the
    JSON-like [pyval] does not hold: they are left out here, and
    [clock_json_dumps] raises on the dict as [json.dumps] does on them. *)
Definition binance_market_status : pyval := VDict [("is_open", VBool true)].

Definition not_serializable : pyexn :=
  mk_exn TypeError "Object of type datetime is not JSON serializable".

Definition clock_json_dumps (v : pyval) : Exc string :=
  match v with
  | VDict (("is_open", _) :: _) => inl not_serializable
  | _ => demo_json_dumps v
  end.

(** A turn with three tool calls, the second one for the market clock,
    as a Claude answer and as a DeepSeek message. *)
Definition clock_blocks : list block :=
  [ToolUseBlock "toolu_1" "get_all_positions" ∅;
   ToolUseBlock "toolu_2" "get_market_clock" ∅;
   ToolUseBlock "toolu_3" "get_account" ∅].

Definition clock_response : claude_response :=
  {| stop_reason := "tool_use"; content := clock_blocks |}.

Definition clock_calls : list tool_call :=
  [{| tc_id := "call_1"; tc_name := "get_all_positions";
      tc_arguments := "{}" |};
   {| tc_id := "call_2"; tc_name := "get_market_clock";
      tc_arguments := "{}" |};
   {| tc_id := "call_3"; tc_name := "get_account"; tc_arguments := "{}" |}].

Definition clock_message : ds_message :=
  {| dm_content := VNone; dm_tool_calls := clock_calls |}.

(** The Binance venue with a model that asks for the market clock. *)
Definition env_clock : Env :=
  with_json_dumps clock_json_dumps
    (demo_env (λ _, inr clock_response) (λ _, inr clock_message)
       (λ _, inr binance_market_status) (λ _, true)).

End Demo.

(** ** Vocabulary of the properties *)

Module Predicates.
Export Demo.
Import PyStr.

(** Shape of a canonical derivatives symbol: [USDT] suffix, no separators. *)
Definition canonical_usdt (s : string) : Prop :=
  (∃ p, s = p +:+ "USDT") ∧
  contains_char "/" s = false ∧ contains_char "-" s = false.

(** A computation that only adds outbound calls other than model
    round-trips, and leaves the message list and the audit log alone:
    what every adapter method and the tool executor do. *)
Definition tool_frame {A} (m : M A) : Prop :=
  ∀ w, ∃ new,
    events (m w).2 = (events w ++ new)%list ∧
    Forall (λ ev, is_llm ev = false) new ∧
    messages (m w).2 = messages w ∧
    logs (m w).2 = logs w.



(** The parameters of a close order that carry the quantity and the
    reduce-only flag, per venue. *)
Definition close_qty_key (k : broker_kind) : string :=
  match k with Binance => "quantity" | _ => "qty" end.

Definition reduce_only_param (k : broker_kind) : string * pyval :=
  match k with
  | Binance => ("reduceOnly", VStr "true")
  | _ => ("reduce_only", VBool true)
  end.

(** A computation that makes no model round-trip. *)
Definition quiet {A} (m : M A) : Prop :=
  ∀ w, llm_calls (events (m w).2) = llm_calls (events w).

(** A computation that makes at most [k] model round-trips. *)
Definition at_most (k : nat) {A} (m : M A) : Prop :=
  ∀ w, (llm_calls (events (m w).2) ≤ llm_calls (events w) + k)%nat.

(** Protocol A: the tool-result blocks that answer the tool-use blocks of
    an assistant turn, each one made by running the executor on the
    block's name and input, in the order of the blocks, the state of one
    call being the state the previous one left. *)
Inductive claude_answers (E : Env) (broker : option broker)
  : world → list block → list tool_result_block → world → Prop :=
| ca_nil w : claude_answers E broker w [] [] w
| ca_text w text rest outs w' :
    claude_answers E broker w rest outs w' →
    claude_answers E broker w (TextBlock text :: rest) outs w'
| ca_tool w id name input rest result w1 text outs w2 :
    execute_tool E broker name input w = (inr result, w1) →
    json_dumps E result = inr text →
    claude_answers E broker w1 rest outs w2 →
    claude_answers E broker w (ToolUseBlock id name input :: rest)
      ({| tool_use_id := id; tr_content := text |} :: outs) w2.

(** Protocol B: the [role: tool] messages that answer the tool calls of an
    assistant message, each one appended to the message list right after
    its call was decoded and run. *)
Inductive deepseek_answers (E : Env) (broker : option broker)
  : world → list tool_call → list message → world → Prop :=
| da_nil w : deepseek_answers E broker w [] [] w
| da_call w call rest args result w1 text outs w2 :
    json_loads E (tc_arguments call) = inr args →
    execute_tool E broker (tc_name call) args w = (inr result, w1) →
    json_dumps E result = inr text →
    deepseek_answers E broker
      (with_messages (messages w1 ++ [MTool (tc_id call) text])%list w1)
      rest outs w2 →
    deepseek_answers E broker w (call :: rest)
      (MTool (tc_id call) text :: outs) w2.

(** The ids of the tool-use blocks of an assistant turn, in order. *)
Fixpoint tool_use_ids (blocks : list block) : list string :=
  match blocks with
  | [] => []
  | TextBlock _ :: rest => tool_use_ids rest
  | ToolUseBlock id _ _ :: rest => id :: tool_use_ids rest
  end.

(** A computation that returns without raising, whatever the state. *)
Definition never_raises {A} (m : M A) : Prop :=
  ∀ w, ∃ a, (m w).1 = inr a.

End Predicates.

(** ** Requests of the signature-based adapters, by venue *)

Module Requests.
Export Predicates.

(** The sign of the quantity and the side of a position say the same. *)
Definition side_agrees (p : position) : Prop :=
  (side p = "long" ∧ (0 < qty p)%Q) ∨ (side p = "short" ∧ (qty p < 0)%Q).

(** The endpoints, the side words and the oracles of the two
    signature-based adapters, by venue. *)
Definition venue_url (b : broker) (endpoint : string) : string :=
  match kind b with
  | Binance => binance_base_url b +:+ endpoint
  | _ => bybit_base_url b +:+ endpoint
  end.

Definition positions_endpoint (k : broker_kind) : string :=
  match k with
  | Binance => "/fapi/v2/positionRisk"
  | _ => "/v2/private/position/list"
  end.

Definition order_endpoint (k : broker_kind) : string :=
  match k with
  | Binance => "/fapi/v1/order"
  | _ => "/v2/private/order/create"
  end.

Definition leverage_endpoint (k : broker_kind) : string :=
  match k with
  | Binance => "/fapi/v1/leverage"
  | _ => "/v2/private/position/leverage/save"
  end.


Definition side_word (k : broker_kind) (buy : bool) : string :=
  match k with
  | Binance => if buy then "BUY" else "SELL"
  | _ => if buy then "Buy" else "Sell"
  end.

Definition leverage_reply (E : Env) (k : broker_kind)
  : list event → Exc unit :=
  match k with
  | Binance => binance_leverage_reply E
  | _ => bybit_leverage_reply E
  end.


(** The [if signed:] block of the adapter of [b]. *)
Definition sign_params (E : Env) (b : broker) (evs : list event)
  (params : list (string * pyval)) : list (string * pyval) :=
  match kind b with
  | Binance => binance_sign_params E b evs params
  | _ => bybit_sign_params E b evs params
  end.

(** The leverage request of [place_crypto_order], for a normalised symbol. *)
Definition set_leverage (E : Env) (b : broker) (sym leverage : pyval)
  : M unit :=
  match kind b with
  | Binance =>
      binance_make_request E b (binance_leverage_reply E) "POST"
        "/fapi/v1/leverage" [("symbol", sym); ("leverage", leverage)]
        true false
  | _ =>
      bybit_make_request E b (bybit_leverage_reply E) "POST"
        "/v2/private/position/leverage/save"
        [("symbol", sym); ("leverage", leverage)] true
  end.

(** The environment [E] with both venues refusing every leverage setting. *)
Definition refuse_leverage (e : pyexn) (E : Env) : Env :=
  {| hmac_sha256_hex := hmac_sha256_hex E;
     py_format := py_format E;
     time_ms := time_ms E;
     now_iso := now_iso E;
     json_loads := json_loads E;
     json_dumps := json_dumps E;
     bybit_positions_reply := bybit_positions_reply E;
     bybit_order_reply := bybit_order_reply E;
     bybit_leverage_reply := λ _, inl e;
     bybit_ticker_reply := bybit_ticker_reply E;
     binance_positions_reply := binance_positions_reply E;
     binance_order_reply := binance_order_reply E;
     binance_leverage_reply := λ _, inl e;
     binance_ticker_reply := binance_ticker_reply E;
     alpaca_positions_reply := alpaca_positions_reply E;
     alpaca_order_reply := alpaca_order_reply E;
     alpaca_bar_reply := alpaca_bar_reply E;
     opaque_reply := opaque_reply E;
     technical_reply := technical_reply E;
     context_text := context_text E;
     claude_create := claude_create E;
     deepseek_create := deepseek_create E;
     autotrading_active := autotrading_active E;
     fs_fault := fs_fault E |}.

End Requests.

(** ** The tool catalogue *)

Module Catalogue.
Export Requests.

(** [v[key]] on a value. *)
Definition py_getitem (v : pyval) (key : string) : Exc pyval :=
  match v with
  | VDict d =>
      match dict_get key d with
      | Some x => inr x
      | None => inl (mk_exn KeyError ("'" +:+ key +:+ "'"))
      end
  | _ => inl (mk_exn TypeError
                ("'" +:+ type_name v +:+ "' object is not subscriptable"))
  end.

(** [{"type": "object", "properties": {}, "required": []}] *)
Definition no_input : pyval :=
  VDict [("type", VStr "object"); ("properties", VDict []);
         ("required", VList [])].

(** [{"type": ty, "description": description}] *)
Definition described (ty description : string) : pyval :=
  VDict [("type", VStr ty); ("description", VStr description)].

(** [TOOLS] *)
Definition TOOLS : list pyval :=
  [ VDict [("name", VStr "get_account");
           ("description",
            VStr "Get account information (balance, equity, buying power, etc.)");
           ("input_schema", no_input)];
    VDict [("name", VStr "get_all_positions");
           ("description", VStr "Get all current positions");
           ("input_schema", no_input)];
    VDict [("name", VStr "close_position");
           ("description", VStr "Close a position (full or partial)");
           ("input_schema",
            VDict [("type", VStr "object");
                   ("properties",
                    VDict [("symbol", described "string" "Symbol to close");
                           ("qty", described "number"
                                     "Quantity to close (optional)");
                           ("percentage",
                            described "number"
                              "Percentage to close (optional, e.g., 50 for 50%)")]);
                   ("required", VList [VStr "symbol"])])];
    VDict [("name", VStr "get_crypto_latest_bar");
           ("description", VStr "Get latest crypto price data");
           ("input_schema",
            VDict [("type", VStr "object");
                   ("properties",
                    VDict [("symbol",
                            described "string"
                              "Crypto symbol (e.g., BTC/USD, BTCUSDT)")]);
                   ("required", VList [VStr "symbol"])])];
    VDict [("name", VStr "place_crypto_order");
           ("description",
            VStr "Place crypto order. Supports LEVERAGE on Bybit/Binance (up to 100x/125x)!");
           ("input_schema",
            VDict [("type", VStr "object");
                   ("properties",
                    VDict [("symbol", described "string" "Crypto symbol");
                           ("side",
                            VDict [("type", VStr "string");
                                   ("enum", VList [VStr "buy"; VStr "sell"]);
                                   ("description", VStr "Order side")]);
                           ("qty", described "number"
                                     "Quantity (optional if notional provided)");
                           ("notional",
                            described "number"
                              "Dollar amount (optional if qty provided)");
                           ("leverage",
                            described "integer"
                              "Leverage multiplier (1-100 for Bybit, 1-125 for Binance, 1 for Alpaca). Example: 10 for 10x leverage")]);
                   ("required", VList [VStr "symbol"; VStr "side"])])];
    VDict [("name", VStr "place_stock_order");
           ("description",
            VStr "Place stock order (Alpaca only, not supported on Bybit/Binance)");
           ("input_schema",
            VDict [("type", VStr "object");
                   ("properties",
                    VDict [("symbol", described "string" "Stock symbol");
                           ("side",
                            VDict [("type", VStr "string");
                                   ("enum", VList [VStr "buy"; VStr "sell"])]);
                           ("qty", described "number" "Quantity");
                           ("notional",
                            described "number" "Dollar amount (optional)");
                           ("order_type",
                            VDict [("type", VStr "string");
                                   ("enum", VList [VStr "market"; VStr "limit";
                                                   VStr "stop";
                                                   VStr "stop_limit"]);
                                   ("description", VStr "Order type")]);
                           ("limit_price",
                            described "number"
                              "Limit price (for limit orders)");
                           ("stop_price",
                            described "number" "Stop price (for stop orders)");
                           ("time_in_force",
                            VDict [("type", VStr "string");
                                   ("enum", VList [VStr "day"; VStr "gtc";
                                                   VStr "ioc"; VStr "fok"]);
                                   ("description", VStr "Time in force")])]);
                   ("required", VList [VStr "symbol"; VStr "side"])])];
    VDict [("name", VStr "get_stock_quote");
           ("description", VStr "Get stock quote (Alpaca only)");
           ("input_schema",
            VDict [("type", VStr "object");
                   ("properties",
                    VDict [("symbol", described "string" "Stock symbol")]);
                   ("required", VList [VStr "symbol"])])];
    VDict [("name", VStr "get_stock_bars");
           ("description", VStr "Get historical stock/crypto bars");
           ("input_schema",
            VDict [("type", VStr "object");
                   ("properties",
                    VDict [("symbol", VDict [("type", VStr "string")]);
                           ("timeframe",
                            VDict [("type", VStr "string");
                                   ("enum", VList [VStr "1Min"; VStr "5Min";
                                                   VStr "15Min"; VStr "1Hour";
                                                   VStr "1Day"])]);
                           ("limit",
                            described "integer"
                              "Number of bars (default 100)")]);
                   ("required", VList [VStr "symbol"; VStr "timeframe"])])];
    VDict [("name", VStr "get_technical_indicators");
           ("description",
            VStr "Get comprehensive technical analysis (RSI, MACD, Bollinger Bands, Moving Averages)");
           ("input_schema",
            VDict [("type", VStr "object");
                   ("properties",
                    VDict [("symbol", described "string" "Symbol to analyze");
                           ("timeframe",
                            VDict [("type", VStr "string");
                                   ("enum", VList [VStr "1d"; VStr "1h";
                                                   VStr "15m"]);
                                   ("description",
                                    VStr "Timeframe for analysis")])]);
                   ("required", VList [VStr "symbol"])])];
    VDict [("name", VStr "get_orders");
           ("description", VStr "Get orders (open, closed, or all)");
           ("input_schema",
            VDict [("type", VStr "object");
                   ("properties",
                    VDict [("status",
                            VDict [("type", VStr "string");
                                   ("enum", VList [VStr "open"; VStr "closed";
                                                   VStr "all"]);
                                   ("description",
                                    VStr "Order status filter")])]);
                   ("required", VList [])])];
    VDict [("name", VStr "cancel_order");
           ("description", VStr "Cancel a specific order");
           ("input_schema",
            VDict [("type", VStr "object");
                   ("properties",
                    VDict [("order_id",
                            described "string" "Order ID to cancel")]);
                   ("required", VList [VStr "order_id"])])];
    VDict [("name", VStr "cancel_all_orders");
           ("description", VStr "Cancel all pending orders");
           ("input_schema", no_input)];
    VDict [("name", VStr "get_market_clock");
           ("description",
            VStr "Check if market is open (for stocks) or get market status");
           ("input_schema", no_input)];
    VDict [("name", VStr "read_trading_memory");
           ("description", VStr "Read trading memory with line numbers");
           ("input_schema", no_input)];
    VDict [("name", VStr "write_trading_memory");
           ("description", VStr "Write/update trading memory");
           ("input_schema",
            VDict [("type", VStr "object");
                   ("properties",
                    VDict [("content",
                            described "string" "Content to write")]);
                   ("required", VList [VStr "content"])])];
    VDict [("name", VStr "append_trading_memory");
           ("description", VStr "Append to trading memory");
           ("input_schema",
            VDict [("type", VStr "object");
                   ("properties",
                    VDict [("content",
                            described "string" "Content to append")]);
                   ("required", VList [VStr "content"])])];
    VDict [("name", VStr "clear_trading_memory");
           ("description", VStr "Clear all trading memory");
           ("input_schema", no_input)] ].

(** One round of the loop of [convert_tools_to_openai_format]. *)
Definition convert_tool (tool : pyval) : Exc pyval :=
  match py_getitem tool "name" with
  | inl e => inl e
  | inr name =>
      match py_getitem tool "description" with
      | inl e => inl e
      | inr description =>
          match py_getitem tool "input_schema" with
          | inl e => inl e
          | inr input_schema =>
              inr (VDict [("type", VStr "function");
                          ("function",
                           VDict [("name", name);
                                  ("description", description);
                                  ("parameters", input_schema)])])
          end
      end
  end.

(** The loop of [convert_tools_to_openai_format] over a tool list. *)
Fixpoint convert_tools (tools : list pyval) : Exc (list pyval) :=
  match tools with
  | [] => inr []
  | tool :: rest =>
      match convert_tool tool with
      | inl e => inl e
      | inr t =>
          match convert_tools rest with
          | inl e => inl e
          | inr ts => inr (t :: ts)
          end
      end
  end.

(** [convert_tools_to_openai_format] *)
Definition convert_tools_to_openai_format : Exc (list pyval) :=
  convert_tools TOOLS.

(** The name of a catalogue entry and the keys its schema requires. *)
Definition tool_name_of (tool : pyval) : option string :=
  match py_getitem tool "name" with
  | inr (VStr name) => Some name
  | _ => None
  end.

Definition required_keys (tool : pyval) : list string :=
  match py_getitem tool "input_schema" with
  | inr schema =>
      match py_getitem schema "required" with
      | inr (VList keys) =>
          omap (λ k, match k with VStr s => Some s | _ => None end) keys
      | _ => []
      end
  | inl _ => []
  end.

(** The name under which the DeepSeek backend is offered a tool. *)
Definition openai_name_of (tool : pyval) : option string :=
  match py_getitem tool "function" with
  | inr f => tool_name_of f
  | inl _ => None
  end.

End Catalogue.

(** ** Vocabulary of the invariants *)

Module Invariants.
Export Catalogue.

(** How many times a character occurs in a string. *)
Fixpoint count_char (c : ascii) (s : string) : nat :=
  match s with
  | EmptyString => O
  | String a s' => (if Ascii.eqb a c then 1 else 0) + count_char c s'
  end.

(** A computation every run of which takes the state to one related to
    it by [R]. *)
Definition steps {A} (R : relation world) (m : M A) : Prop :=
  ∀ w, R w (m w).2.

(** The message list only grows at its end. *)
Definition history_extends (w w' : world) : Prop :=
  ∃ added, messages w' = (messages w ++ added)%list.

(** The audit log stays within its capacity. *)
Definition log_within_capacity (w w' : world) : Prop :=
  (List.length (logs w) ≤ 500)%nat → (List.length (logs w') ≤ 500)%nat.

(** The note file is left as it was. *)
Definition note_file_kept (w w' : world) : Prop :=
  memory_file w' = memory_file w.

(** The tools that write the note file, and all that use it. *)
Definition note_writers : list string :=
  ["write_trading_memory"; "append_trading_memory"; "clear_trading_memory"].

Definition note_tools : list string := "read_trading_memory" :: note_writers.

End Invariants.

(** ** The broker factory and the HTTP endpoints *)

Module Endpoints.
Export Invariants.
Import PyStr.

(** ASCII white space: what [isspace()] holds of among the characters
    below 128, and so what [str.strip()] removes there. *)
Definition is_space (a : ascii) : bool :=
  let n := nat_of_ascii a in
  ((9 <=? n)%nat && (n <=? 13)%nat) || ((28 <=? n)%nat && (n <=? 32)%nat).

Fixpoint lstrip (s : string) : string :=
  match s with
  | EmptyString => EmptyString
  | String a s' => if is_space a then lstrip s' else s
  end.

Fixpoint rstrip (s : string) : string :=
  match s with
  | EmptyString => EmptyString
  | String a s' =>
      match rstrip s' with
      | EmptyString => if is_space a then EmptyString else String a EmptyString
      | r => String a r
      end
  end.

(** [s.strip()] *)
Definition strip (s : string) : string := rstrip (lstrip s).

(** [BrokerFactory.SUPPORTED_BROKERS], a class standing for its kind. *)
Definition SUPPORTED_BROKERS : list (string * broker_kind) :=
  [("alpaca", Alpaca); ("bybit", Bybit); ("binance", Binance)].

Fixpoint supported_broker (broker_type : string)
  (table : list (string * broker_kind)) : option broker_kind :=
  match table with
  | [] => None
  | (name, k) :: rest =>
      if String.eqb name broker_type then Some k
      else supported_broker broker_type rest
  end.

(** The constructors outside the repository that building a broker or a
    model client runs: the three alpaca-py clients, [Anthropic(...)] and
    [OpenAI(...)]. *)
Record Sdk :=
  { alpaca_clients : string → string → bool → Exc unit;
    anthropic_init : string → Exc unit;
    openai_init : string → Exc unit }.

(** [broker_class(api_key=..., api_secret=..., paper_mode=...)] *)
Definition new_broker (S : Sdk) (k : broker_kind)
  (api_key api_secret : string) (paper_mode : bool) : Exc broker :=
  let b := {| kind := k; api_key := api_key; api_secret := api_secret;
              paper_mode := paper_mode |} in
  match k with
  | Alpaca =>
      match alpaca_clients S api_key api_secret paper_mode with
      | inl e => inl e
      | inr _ => inr b
      end
  | _ => inr b
  end.

(** [BrokerFactory.create_broker] *)
Definition create_broker (S : Sdk) (broker_type api_key api_secret : string)
  (paper_mode : bool) : Exc broker :=
  let broker_type := strip (lower broker_type) in
  match supported_broker broker_type SUPPORTED_BROKERS with
  | None =>
      let supported := join ", " (map fst SUPPORTED_BROKERS) in
      inl (mk_exn ValueError
             ("Unsupported broker type: " +:+ broker_type +:+ ". " +:+
              "Supported brokers: " +:+ supported))
  | Some k => new_broker S k api_key api_secret paper_mode
  end.

(** [BrokerFactory.get_supported_brokers] *)
Definition get_supported_brokers : list string := map fst SUPPORTED_BROKERS.

(** [BrokerFactory.get_broker_info] *)
Definition get_broker_info : pyval :=
  VDict
    [ ("alpaca", VDict
      [ ("name", VStr "Alpaca");
        ("description",
         VStr "US-based broker supporting stocks, crypto, and options");
        ("supports_stocks", VBool true);
        ("supports_crypto", VBool true);
        ("supports_options", VBool true);
        ("supports_leverage", VBool true);
        ("max_crypto_leverage", VInt 1);
        ("max_stock_leverage", VInt 2);
        ("paper_trading", VBool true);
        ("website", VStr "https://alpaca.markets") ]);
      ("bybit", VDict
      [ ("name", VStr "Bybit");
        ("description",
         VStr "Crypto exchange with perpetual futures and up to 100x leverage");
        ("supports_stocks", VBool false);
        ("supports_crypto", VBool true);
        ("supports_options", VBool false);
        ("supports_leverage", VBool true);
        ("max_crypto_leverage", VInt 100);
        ("max_stock_leverage", VInt 0);
        ("paper_trading", VBool true);
        ("website", VStr "https://www.bybit.com") ]);
      ("binance", VDict
      [ ("name", VStr "Binance");
        ("description",
         VStr "Largest crypto exchange with spot and futures trading (up to 125x leverage)");
        ("supports_stocks", VBool false);
        ("supports_crypto", VBool true);
        ("supports_options", VBool false);
        ("supports_leverage", VBool true);
        ("max_crypto_leverage", VInt 125);
        ("max_stock_leverage", VInt 0);
        ("paper_trading", VBool true);
        ("website", VStr "https://www.binance.com") ]) ].

(** A Flask response: the JSON body and the status code. *)
Definition response : Type := pyval * Z.

(** The body of an [/api/initialize] request, with the types the front
    end sends; [None] is an absent key. *)
Record init_request :=
  { rq_broker : option string;
    rq_alpaca_key : option string; rq_alpaca_secret : option string;
    rq_bybit_key : option string; rq_bybit_secret : option string;
    rq_binance_key : option string; rq_binance_secret : option string;
    rq_claude_key : option string; rq_deepseek_key : option string;
    rq_ai_model : option string; rq_paper_mode : option bool }.

(** [not key] for an optional string. *)
Definition missing (key : option string) : bool :=
  match key with
  | Some s => String.eqb s ""
  | None => true
  end.

Definition with_broker (b : broker) (model : string) (srv : server) : server :=
  {| srv_broker := Some b; ai_model := model;
     anthropic_client := anthropic_client srv;
     openai_client := openai_client srv;
     autotrading_config := autotrading_config srv |}.

Definition with_anthropic (srv : server) : server :=
  {| srv_broker := srv_broker srv; ai_model := ai_model srv;
     anthropic_client := true; openai_client := openai_client srv;
     autotrading_config := autotrading_config srv |}.

Definition with_openai (srv : server) : server :=
  {| srv_broker := srv_broker srv; ai_model := ai_model srv;
     anthropic_client := anthropic_client srv; openai_client := true;
     autotrading_config := autotrading_config srv |}.

(** The credentials [initialize] picks for a broker type. *)
Definition broker_credentials (rq : init_request) (broker_type : string)
  : option (option string * option string) :=
  if String.eqb broker_type "alpaca" then
    Some (rq_alpaca_key rq, rq_alpaca_secret rq)
  else if String.eqb broker_type "bybit" then
    Some (rq_bybit_key rq, rq_bybit_secret rq)
  else if String.eqb broker_type "binance" then
    Some (rq_binance_key rq, rq_binance_secret rq)
  else None.

(** [initialize]: the response, and the globals and the conversation
    history it leaves. *)
Definition initialize (S : Sdk) (rq : init_request) (srv : server)
  (w : world) : response * server * world :=
  let broker_type := default "alpaca" (rq_broker rq) in
  match broker_credentials rq broker_type with
  | None =>
      ((error_result ("Unsupported broker: " +:+ broker_type), 400%Z), srv, w)
  | Some (broker_key, broker_secret) =>
      if missing broker_key || missing broker_secret then
        ((error_result ("Missing API keys for " +:+ broker_type), 400%Z),
         srv, w)
      else
        let claude_key := rq_claude_key rq in
        let deepseek_key := rq_deepseek_key rq in
        let selected_model := default "claude" (rq_ai_model rq) in
        let paper_mode := default true (rq_paper_mode rq) in
        match create_broker S broker_type (default "" broker_key)
                (default "" broker_secret) paper_mode with
        | inl e => ((error_result (exn_str e), 500%Z), srv, w)
        | inr b =>
            let srv := with_broker b selected_model srv in
            let clients : Exc server :=
              if String.eqb selected_model "claude" && negb (missing claude_key)
              then match anthropic_init S (default "" claude_key) with
                   | inl e => inl e
                   | inr _ => inr (with_anthropic srv)
                   end
              else if String.eqb selected_model "deepseek"
                      && negb (missing deepseek_key)
              then match openai_init S (default "" deepseek_key) with
                   | inl e => inl e
                   | inr _ => inr (with_openai srv)
                   end
              else inr srv in
            match clients with
            | inl e => ((error_result (exn_str e), 500%Z), srv, w)
            | inr srv =>
                let broker_name := get_broker_name b in
                let max_leverage := get_max_leverage b "crypto" in
                let supports_leverage := supports_crypto_leverage b in
                ((VDict [("success", VBool true);
                         ("message",
                          VStr ("Initialized with " +:+ broker_name));
                         ("broker", VStr broker_name);
                         ("paper_mode", VBool paper_mode);
                         ("ai_model", VStr selected_model);
                         ("supports_leverage", VBool supports_leverage);
                         ("max_crypto_leverage", VInt max_leverage)],
                  200%Z),
                 srv, with_messages [] w)
            end
        end
  end.

(** [str(b)] for a boolean. *)
Definition bool_str (b : bool) : string := if b then "True" else "False".

(** The system message [chat] opens a conversation with. *)
Definition system_message (b : broker) : string :=
  let broker_name := get_broker_name b in
  let max_leverage := get_max_leverage b "crypto" in
  let supports_leverage := supports_crypto_leverage b in
  join newline
    [ "You are an AI trading assistant using " +:+ broker_name +:+ " broker.";
      "";
      "Broker Capabilities:";
      "- Max Crypto Leverage: " +:+ pretty max_leverage +:+ "x";
      "- Supports Leverage: " +:+ bool_str supports_leverage;
      "- Supports Stocks: " +:+
        bool_str (negb supports_leverage || String.eqb broker_name "Alpaca");
      "";
      "When user requests leverage trading:";
      "1. Check if broker supports it";
      "2. Don't exceed max leverage";
      "3. For Alpaca: No leverage on crypto (spot only)";
      "4. For Bybit/Binance: Use leverage parameter in place_crypto_order";
      "";
      "Always provide helpful trading advice and execute requested trades." ].

(** [[conversation_history[0]] + conversation_history[-19:]] when the
    history holds more than 20 messages. *)
Definition trim_history (history : list message) : list message :=
  if (20 <? List.length history)%nat then
    match history with
    | first :: _ => first :: keep_last 19 history
    | [] => []
    end
  else history.

(** The [try:] block of [chat]; [conversation_history] is the message
    list of the state, which the orchestrator appends to in place. *)
Definition chat_body (E : Env) (srv : server) (b : broker)
  (user_message : string) : M pyval :=
  let! history := get_messages in
  do! (match history with
       | [] => append_message (MUser (system_message b))
       | _ :: _ => ret tt
       end) in
  do! append_message (MUser user_message) in
  let! response_text := call_ai_with_tools E srv 10 in
  do! append_message (MAssistantText response_text) in
  let! history := get_messages in
  do! (λ w, (inr tt, with_messages (trim_history history) w)) in
  ret response_text.

(** [chat], for a request whose body carries the string [user_message]
    (the empty string when the key is absent). *)
Definition chat (E : Env) (srv : server) (user_message : string)
  (w : world) : response * world :=
  match srv_broker srv with
  | None => ((error_result "Broker not initialized", 400%Z), w)
  | Some b =>
      if String.eqb user_message "" then
        ((error_result "No message provided", 400%Z), w)
      else
        match chat_body E srv b user_message w with
        | (inr response_text, w') =>
            ((VDict [("response", response_text)], 200%Z), w')
        | (inl e, w') => ((error_result (exn_str e), 500%Z), w')
        end
  end.

(** Constructors that never fail, and a request that sets up Bybit. *)
Definition sdk_ok : Sdk :=
  {| alpaca_clients := λ _ _ _, inr tt;
     anthropic_init := λ _, inr tt;
     openai_init := λ _, inr tt |}.

Definition bybit_request : init_request :=
  {| rq_broker := Some "bybit";
     rq_alpaca_key := Some "alpaca-key"; rq_alpaca_secret := Some "alpaca-secret";
     rq_bybit_key := Some "bybit-key"; rq_bybit_secret := Some "bybit-secret";
     rq_binance_key := None; rq_binance_secret := None;
     rq_claude_key := Some "claude-key"; rq_deepseek_key := None;
     rq_ai_model := None; rq_paper_mode := None |}.

Definition no_server : server :=
  {| srv_broker := None; ai_model := "claude"; anthropic_client := false;
     openai_client := false; autotrading_config := VNone |}.

(** The Anthropic constructor failing. *)
Definition sdk_no_anthropic : Sdk :=
  {| alpaca_clients := λ _ _ _, inr tt;
     anthropic_init :=
       λ _, inl (mk_exn OtherException "Connection error.");
     openai_init := λ _, inr tt |}.

(** A Claude backend that is overloaded. *)
Definition env_overloaded : Env :=
  demo_env (λ _, inl (mk_exn OtherException "Overloaded"))
    deepseek_final opaque_ok (λ _, true).

(** What [chat] appends before the user's message: the system message
    when the conversation is empty. *)
Definition opening (b : broker) (history : list message) : list message :=
  match history with
  | [] => [MUser (system_message b)]
  | _ :: _ => []
  end.

End Endpoints.

(** ** Technical indicators *)

Module Indicators.
Export Endpoints.

(** [[prices[i] - prices[i-1] for i in range(1, len(prices))]] *)
Fixpoint deltas (prices : list Q) : list Q :=
  match prices with
  | [] => []
  | a :: rest =>
      match rest with
      | [] => []
      | b :: _ => (b - a)%Q :: deltas rest
      end
  end.

(** [d if d > 0 else 0] and [-d if d < 0 else 0] *)
Definition gain (d : Q) : Q := if Qlt_bool 0 d then d else 0%Q.

Definition loss (d : Q) : Q := if Qlt_bool d 0 then (- d)%Q else 0%Q.

(** [sum(l)] *)
Definition py_sum (l : list Q) : Q := fold_left Qplus l 0%Q.

(** One round of the smoothing loop:
    [avg = (avg * (period - 1) + x) / period]. *)
Definition smooth (period : nat) (avg x : Q) : Q :=
  ((avg * (inject_Z (Z.of_nat period) - 1) + x)
   / inject_Z (Z.of_nat period))%Q.

(** [round(q, 2)] on an exact value. *)
Definition round2 (q : Q) : Q :=
  (inject_Z (round_half_even (q * 100)) / 100)%Q.

(** [calculate_rsi(prices, period)], for a period that is not negative. *)
Definition calculate_rsi (prices : list Q) (period : nat) : Exc pyval :=
  if (List.length prices <? period + 1)%nat then inr VNone
  else
    let deltas := deltas prices in
    let gains := map gain deltas in
    let losses := map loss deltas in
    match period with
    | O => inl (mk_exn ZeroDivisionError "division by zero")
    | S _ =>
        let p := inject_Z (Z.of_nat period) in
        let avg_gain := (py_sum (firstn period gains) / p)%Q in
        let avg_loss := (py_sum (firstn period losses) / p)%Q in
        let avg_gain := fold_left (smooth period) (skipn period gains)
                          avg_gain in
        let avg_loss := fold_left (smooth period) (skipn period losses)
                          avg_loss in
        if Qeq_bool avg_loss 0 then inr (VInt 100)
        else
          let rs := (avg_gain / avg_loss)%Q in
          let rsi := (100 - 100 / (1 + rs))%Q in
          inr (VFloat (round2 rsi))
    end.

End Indicators.

(* ===================================================================== *)
(** * Part II: properties *)
(* ===================================================================== *)

(** ** The code at work on small inputs *)

Module Examples.
Import Demo.

Example normalize_bybit :
  normalize_symbol Bybit "BTC/USD" "crypto" = "BTCUSDT".
Proof. reflexivity. Qed.

Example normalize_binance :
  normalize_symbol Binance "eth-usd" "crypto_futures" = "ETHUSDT".
Proof. reflexivity. Qed.

Example normalize_alpaca :
  normalize_symbol Alpaca "BTCUSDT" "crypto" = "BTC/USD" ∧
  normalize_symbol Alpaca "BTC/USD" "crypto" = "BTC/USD" ∧
  normalize_symbol Alpaca "AAPL" "stock" = "AAPL".
Proof. repeat split. Qed.

Example bybit_signed_string :
  bybit_generate_signature env_tools (demo_broker Bybit)
    [("symbol", VStr "BTCUSDT"); ("api_key", VStr "key");
     ("timestamp", VInt 17); ("recv_window", VInt 5000)] =
  "hmac(secret,api_key=key&recv_window=5000&symbol=BTCUSDT&timestamp=17)".
Proof. vm_compute. reflexivity. Qed.

Example close_half_on_bybit :
  (close_position env_tools (demo_broker Bybit) (VStr "BTCUSDT") VNone
     (VInt 50) w0).1 =
  inr (VDict [("order_id", VStr "order-1"); ("symbol", VStr "BTCUSDT");
              ("status", VStr "submitted"); ("side", VStr "Sell");
              ("qty", VFloat (7 # 4))]).
Proof. vm_compute. reflexivity. Qed.

Example close_unknown_symbol :
  (execute_tool env_tools (Some (demo_broker Binance)) "close_position"
     (<["symbol" := VStr "DOGEUSDT"]> ∅) w0).1 =
  inr (error_result "No position found for DOGEUSDT").
Proof. vm_compute. reflexivity. Qed.

Example no_broker :
  execute_tool env_tools None "get_account" ∅ w0 =
  (inr (error_result
          "Broker not initialized. Please configure broker credentials in Settings."),
   w0).
Proof. reflexivity. Qed.

Example final_answer_at_once :
  (call_ai_with_tools env_down (demo_server Bybit "deepseek") 10 w0).1 =
  inr (VStr "Hold.").
Proof. vm_compute. reflexivity. Qed.

End Examples.

Module PyStrFacts.
Import PyStr.

Lemma eqb_length_ne (a b : string) :
  String.length a ≠ String.length b → String.eqb a b = false.
Proof.
  intros H. destruct (String.eqb_spec a b) as [->|]; [lia | done].
Qed.

Lemma length_app (a b : string) :
  String.length (a +:+ b) = String.length a + String.length b.
Proof. induction a as [|c a IH]; simpl; [done | by rewrite IH]. Qed.

Lemma endswith_unfold (s suffix : string) :
  endswith s suffix =
  String.eqb s suffix ||
  match s with
  | EmptyString => false
  | String _ s' => endswith s' suffix
  end.
Proof. by destruct s. Qed.

Lemma app_String (c : ascii) (p s : string) :
  String c p +:+ s = String c (p +:+ s).
Proof. reflexivity. Qed.

Lemma endswith_app (p suffix : string) : endswith (p +:+ suffix) suffix = true.
Proof.
  induction p as [|c p IH]; rewrite endswith_unfold, ?app_String.
  - change ("" +:+ suffix) with suffix. by rewrite String.eqb_refl.
  - rewrite IH. apply orb_true_r.
Qed.

Lemma endswith_inv (s suffix : string) :
  endswith s suffix = true → ∃ p, s = p +:+ suffix.
Proof.
  induction s as [|c s IH]; rewrite endswith_unfold.
  - rewrite orb_false_r. intros H%String.eqb_eq. subst. by exists "".
  - intros [H%String.eqb_eq | H]%orb_true_iff.
    + exists "". by rewrite <- H.
    + destruct (IH H) as [p ->]. by exists (String c p).
Qed.

Lemma drop_last_app (n : nat) (p suffix : string) :
  n = String.length suffix → drop_last n (p +:+ suffix) = p.
Proof.
  intros ->. unfold drop_last. rewrite length_app.
  replace (String.length p + String.length suffix - String.length suffix)
    with (String.length p) by lia.
  induction p as [|c p IH]; simpl.
  - by destruct suffix.
  - by rewrite IH.
Qed.

Lemma contains_char_app (c : ascii) (a b : string) :
  contains_char c (a +:+ b) = contains_char c a || contains_char c b.
Proof.
  induction a as [|x a IH]; simpl; [done |].
  by rewrite IH, orb_assoc.
Qed.

Lemma remove_char_absent (c : ascii) (s : string) :
  contains_char c s = false → remove_char c s = s.
Proof.
  induction s as [|a s IH]; simpl; [done |].
  intros [Ha Hs]%orb_false_iff. rewrite Ha. by rewrite IH.
Qed.

Lemma contains_char_remove_same (c : ascii) (s : string) :
  contains_char c (remove_char c s) = false.
Proof.
  induction s as [|a s IH]; simpl; [done |].
  destruct (Ascii.eqb a c) eqn:E; simpl; [done |]. by rewrite E.
Qed.

Lemma contains_char_remove_other (c d : ascii) (s : string) :
  contains_char c s = false → contains_char c (remove_char d s) = false.
Proof.
  induction s as [|a s IH]; simpl; [done |].
  intros [Ha Hs]%orb_false_iff.
  destruct (Ascii.eqb a d); simpl; [auto |]. rewrite Ha. auto.
Qed.

Lemma upper_char_idem (a : ascii) : upper_char (upper_char a) = upper_char a.
Proof. destruct a as [[] [] [] [] [] [] [] []]; reflexivity. Qed.

Lemma upper_idem (s : string) : upper (upper s) = upper s.
Proof.
  induction s as [|a s IH]; simpl; [done |].
  by rewrite upper_char_idem, IH.
Qed.

Lemma upper_app (a b : string) : upper (a +:+ b) = upper a +:+ upper b.
Proof. induction a as [|c a IH]; simpl; [done | by rewrite IH]. Qed.

Lemma app_inv_tail (a b c : string) : a +:+ c = b +:+ c → a = b.
Proof.
  revert b. induction a as [|x a IH]; intros [|y b] H.
  - done.
  - exfalso. apply (f_equal String.length) in H.
    rewrite !length_app in H. simpl in H. lia.
  - exfalso. apply (f_equal String.length) in H.
    rewrite !length_app in H. simpl in H. lia.
  - rewrite !app_String in H. injection H as -> H. f_equal. by apply IH.
Qed.

(** The characters upper-casing can produce are never [/] or [-]. *)
Lemma contains_char_upper (c : ascii) (s : string) :
  upper_char c = c → (∀ a, upper_char a = c → a = c) →
  contains_char c s = false → contains_char c (upper s) = false.
Proof.
  intros Hc Hinj. induction s as [|a s IH]; simpl; [done |].
  intros [Ha Hs]%orb_false_iff. rewrite (IH Hs), orb_false_r.
  destruct (Ascii.eqb_spec (upper_char a) c) as [E|]; [| done].
  apply Hinj in E. subst a. by rewrite Ascii.eqb_refl in Ha.
Qed.

(** A string that ends with [USDT] does not end with [USD]. *)
Lemma endswith_USDT_not_USD (p : string) : endswith (p +:+ "USDT") "USD" = false.
Proof.
  induction p as [|c p IH]; [reflexivity |].
  rewrite endswith_unfold, !app_String, IH, orb_false_r.
  apply eqb_length_ne. simpl. rewrite length_app. simpl. lia.
Qed.

End PyStrFacts.

Module SymbolsFacts.
Import PyStr Symbols PyStrFacts Predicates.

Lemma strip_separators_clean (s : string) :
  let t := remove_char "-" (remove_char "/" s) in
  contains_char "/" t = false ∧ contains_char "-" t = false.
Proof.
  split.
  - apply contains_char_remove_other, contains_char_remove_same.
  - apply contains_char_remove_same.
Qed.

Lemma contains_char_prefix (c : ascii) (p q : string) :
  contains_char c (p +:+ q) = false → contains_char c p = false.
Proof. rewrite contains_char_app. by intros [? ?]%orb_false_iff. Qed.

Lemma bybit_normalize_canonical (s : string) :
  canonical_usdt (bybit_normalize_symbol s "crypto") ∧
  canonical_usdt (bybit_normalize_symbol s "crypto_futures").
Proof.
  assert (∀ t, contains_char "/" t = false → contains_char "-" t = false →
    canonical_usdt
      (let symbol :=
         if negb (endswith t "USDT") && negb (endswith t "USD")
         then t +:+ "USDT" else t in
       if endswith symbol "USD" && negb (endswith symbol "USDT")
       then drop_last 3 symbol +:+ "USDT" else symbol)) as Hgen.
  { intros t H1 H2. cbv zeta.
    destruct (endswith t "USDT") eqn:E4; simpl.
    - rewrite E4, andb_false_r. destruct (endswith_inv _ _ E4) as [p ->].
      split; [by exists p | done].
    - destruct (endswith t "USD") eqn:E3; simpl.
      + rewrite E3, E4. simpl. destruct (endswith_inv _ _ E3) as [p ->].
        rewrite (drop_last_app 3 p "USD") by done.
        split; [by exists p |].
        apply contains_char_prefix in H1, H2.
        rewrite !contains_char_app, H1, H2. done.
      + rewrite endswith_USDT_not_USD. simpl.
        split; [by exists t |].
        rewrite !contains_char_app, H1, H2. done. }
  destruct (strip_separators_clean s) as [H1 H2].
  split; apply (Hgen _ H1 H2).
Qed.

Lemma bybit_normalize_fixed (s asset_class : string) :
  canonical_usdt s → bybit_normalize_symbol s asset_class = s.
Proof.
  intros [[p Hp] [H1 H2]]. unfold bybit_normalize_symbol.
  destruct (is_crypto_class asset_class); [| done].
  rewrite (remove_char_absent "/" s H1), (remove_char_absent "-" s H2).
  subst s. rewrite endswith_app. simpl negb. cbv zeta.
  rewrite andb_false_l, endswith_app, andb_false_r. done.
Qed.

Lemma binance_normalize_canonical (s : string) :
  let r := binance_normalize_symbol s "crypto" in
  r = binance_normalize_symbol s "crypto_futures" ∧
  canonical_usdt r ∧ upper r = r.
Proof.
  cbv zeta. split; [reflexivity |].
  unfold binance_normalize_symbol. simpl is_crypto_class. cbv iota zeta.
  set (t := upper (remove_char "-" (remove_char "/" s))).
  assert (contains_char "/" t = false ∧ contains_char "-" t = false) as [H1 H2].
  { destruct (strip_separators_clean s) as [H1 H2]. unfold t. split.
    - apply contains_char_upper; [done | | done].
      intros [[] [] [] [] [] [] [] []]; cbv; congruence.
    - apply contains_char_upper; [done | | done].
      intros [[] [] [] [] [] [] [] []]; cbv; congruence. }
  assert (upper t = t) as Hu by apply upper_idem.
  destruct (endswith t "USDT") eqn:E4; simpl.
  - destruct (endswith_inv _ _ E4) as [p Hp].
    split; [split; [by exists p | done] | done].
  - destruct (endswith t "USD") eqn:E3.
    + destruct (endswith_inv _ _ E3) as [p Hp]. rewrite Hp.
      rewrite (drop_last_app 3 p "USD") by done. rewrite Hp in H1, H2, Hu.
      assert (upper p = p) as Hup.
      { rewrite upper_app in Hu. by apply app_inv_tail in Hu. }
      apply contains_char_prefix in H1, H2.
      split; [split; [by exists p |] |].
      * rewrite !contains_char_app, H1, H2. done.
      * rewrite upper_app, Hup. done.
    + split; [split; [by exists t |] |].
      * rewrite !contains_char_app, H1, H2. done.
      * rewrite upper_app, Hu. done.
Qed.

Lemma binance_normalize_fixed (s asset_class : string) :
  canonical_usdt s → upper s = s → binance_normalize_symbol s asset_class = s.
Proof.
  intros [[p Hp] [H1 H2]] Hu. unfold binance_normalize_symbol.
  destruct (is_crypto_class asset_class); [| done].
  rewrite (remove_char_absent "/" s H1), (remove_char_absent "-" s H2), Hu.
  subst s. by rewrite endswith_app.
Qed.

Lemma alpaca_normalize_cases (s asset_class : string) :
  alpaca_normalize_symbol s asset_class = s ∨
  (asset_class = "crypto" ∧
   ∃ p, alpaca_normalize_symbol s asset_class = p +:+ "/USD").
Proof.
  unfold alpaca_normalize_symbol.
  destruct (String.eqb_spec asset_class "crypto") as [->|]; [| by left].
  destruct (contains_char "/" s); simpl; [by left |].
  destruct (endswith s "USD"); [right; eauto |].
  destruct (endswith s "USDT"); [right; eauto | by left].
Qed.

Lemma alpaca_normalize_idem (s asset_class : string) :
  alpaca_normalize_symbol (alpaca_normalize_symbol s asset_class) asset_class
  = alpaca_normalize_symbol s asset_class.
Proof.
  destruct (alpaca_normalize_cases s asset_class) as [H | [-> [p H]]].
  - by rewrite !H.
  - rewrite H. unfold alpaca_normalize_symbol.
    rewrite String.eqb_refl, contains_char_app. simpl.
    by rewrite orb_true_r.
Qed.

(** C4. On each of the three adapters (Alpaca, Bybit, Binance), for every
    symbol string and every asset-class tag, normalising a symbol twice
    gives the same result as normalising it once. *)
Theorem normalize_symbol_idempotent (b : broker_kind) (s asset_class : string) :
  normalize_symbol b (normalize_symbol b s asset_class) asset_class
  = normalize_symbol b s asset_class.
Proof.
  destruct b; simpl.
  - apply alpaca_normalize_idem.
  - destruct (is_crypto_class asset_class) eqn:Ec.
    + apply bybit_normalize_fixed.
      unfold is_crypto_class in Ec. apply orb_true_iff in Ec.
      destruct Ec as [->%String.eqb_eq | ->%String.eqb_eq];
        apply bybit_normalize_canonical.
    + unfold bybit_normalize_symbol. by rewrite Ec.
  - destruct (is_crypto_class asset_class) eqn:Ec.
    + unfold is_crypto_class in Ec. apply orb_true_iff in Ec.
      destruct (binance_normalize_canonical s) as [Heq [Hc Hu]].
      destruct Ec as [->%String.eqb_eq | ->%String.eqb_eq].
      * by apply binance_normalize_fixed.
      * rewrite <- Heq. by apply binance_normalize_fixed.
    + unfold binance_normalize_symbol. by rewrite Ec.
Qed.

End SymbolsFacts.

(** ** The audit log *)

Module AuditLogFacts.
Import Scheduler.
#[local] Open Scope nat_scope.
#[local] Open Scope list_scope.

Lemma keep_last_length {A} (n : nat) (l : list A) :
  (n ≤ List.length l)%nat → List.length (keep_last n l) = n.
Proof. intros H. unfold keep_last. rewrite length_skipn. lia. Qed.

Lemma keep_last_split {A} (n : nat) (l : list A) :
  l = (firstn (List.length l - n) l ++ keep_last n l)%list.
Proof. unfold keep_last. by rewrite firstn_skipn. Qed.

Lemma append_log_spec (entry : log_entry) (l : list log_entry) :
  ∃ evicted,
    (l ++ [entry] = evicted ++ append_log entry l)%list ∧
    List.length evicted = List.length l + 1 - 500 ∧
    List.length (append_log entry l) = Nat.min 500 (List.length l + 1).
Proof.
  unfold append_log.
  assert (List.length (l ++ [entry])%list = List.length l + 1) as Hlen
    by (rewrite length_app; simpl; lia).
  destruct (500 <? List.length (l ++ [entry])%list) eqn:E.
  - apply Nat.ltb_lt in E.
    exists (firstn (List.length (l ++ [entry])%list - 500) (l ++ [entry])%list).
    split; [apply keep_last_split |]. split.
    + rewrite length_firstn. lia.
    + rewrite keep_last_length; lia.
  - apply Nat.ltb_ge in E. exists []. split; [done |]. split; [simpl; lia | lia].
Qed.

(** C8. After every append the audit log holds at most 500 entries; the
    entries that leave are the oldest ones (a prefix of the old log), as
    many as the capacity is exceeded by, and the entries that stay keep
    their order, with the new entry after them. *)
Theorem audit_log_bounded_oldest_first (E : Env) (message log_type : string)
  (w : world) :
  let entry := {| timestamp := now_iso E w; log_message := message;
                  log_type := log_type |} in
  let w' := (add_autotrading_log E message log_type w).2 in
  (List.length (logs w') ≤ 500)%nat ∧
  ∃ evicted kept,
    logs w = (evicted ++ kept)%list ∧
    logs w' = (kept ++ [entry])%list ∧
    List.length evicted = List.length (logs w) + 1 - 500.
Proof.
  cbv zeta. unfold add_autotrading_log. simpl.
  set (entry := Build_log_entry _ _ _).
  destruct (append_log_spec entry (logs w)) as (evicted & Hsplit & Hev & Hlen).
  split; [lia |].
  assert (List.length evicted ≤ List.length (logs w))%nat as Hle by lia.
  exists evicted, (skipn (List.length evicted) (logs w)).
  assert (logs w = (evicted ++ skipn (List.length evicted) (logs w))%list)
    as Hl.
  { rewrite <- (firstn_skipn (List.length evicted) (logs w)) at 1.
    f_equal.
    apply (f_equal (firstn (List.length evicted))) in Hsplit.
    rewrite firstn_app in Hsplit.
    replace (List.length evicted - List.length (logs w)) with 0 in Hsplit
      by lia.
    rewrite firstn_O, app_nil_r in Hsplit.
    rewrite Hsplit, firstn_app, Nat.sub_diag, firstn_O, app_nil_r.
    by rewrite firstn_all. }
  split; [exact Hl |]. split; [| exact Hev].
  rewrite Hl in Hsplit at 1. rewrite <- app_assoc in Hsplit.
  by apply app_inv_head in Hsplit.
Qed.

End AuditLogFacts.

(** ** The effect monad and the frame of tool execution *)

Module FrameFacts.
Import Predicates.
#[local] Open Scope list_scope.

Lemma frame_ret {A} (a : A) : tool_frame (ret a).
Proof. intros w. exists []. by rewrite app_nil_r. Qed.

Lemma frame_raise {A} (c : exn_class) (msg : string) :
  tool_frame (@raise A c msg).
Proof. intros w. exists []. by rewrite app_nil_r. Qed.

Lemma frame_lift_exc {A} (x : Exc A) : tool_frame (lift_exc x).
Proof. intros w. exists []. by rewrite app_nil_r. Qed.

Lemma frame_ask {A} (oracle : list event → Exc A) : tool_frame (ask oracle).
Proof. intros w. exists []. by rewrite app_nil_r. Qed.

Lemma frame_get_events : tool_frame get_events.
Proof. intros w. exists []. by rewrite app_nil_r. Qed.

Lemma frame_emit (ev : event) : is_llm ev = false → tool_frame (emit ev).
Proof. intros H w. exists [ev]. simpl. repeat split; by constructor. Qed.

Lemma frame_bind {A B} (m : M A) (k : A → M B) :
  tool_frame m → (∀ a, tool_frame (k a)) → tool_frame (bind m k).
Proof.
  intros Hm Hk w. unfold bind.
  destruct (Hm w) as (new1 & He1 & Hl1 & Hm1 & Hg1).
  destruct (m w) as [[e|a] w1]; simpl in *.
  - by exists new1.
  - destruct (Hk a w1) as (new2 & He2 & Hl2 & Hm2 & Hg2).
    exists (new1 ++ new2). rewrite He2, He1, Hm2, Hg2, app_assoc.
    repeat split; try done. by apply Forall_app.
Qed.

Lemma frame_try_except {A} (body : M A) (handler : pyexn → M A) :
  tool_frame body → (∀ e, tool_frame (handler e)) →
  tool_frame (try_except body handler).
Proof.
  intros Hm Hk w. unfold try_except.
  destruct (Hm w) as (new1 & He1 & Hl1 & Hm1 & Hg1).
  destruct (body w) as [[e|a] w1]; simpl in *.
  - destruct (Hk e w1) as (new2 & He2 & Hl2 & Hm2 & Hg2).
    exists (new1 ++ new2). rewrite He2, He1, Hm2, Hg2, app_assoc.
    repeat split; try done. by apply Forall_app.
  - by exists new1.
Qed.

Lemma frame_read_file : tool_frame Executor.read_file.
Proof. intros w. exists []. by rewrite app_nil_r. Qed.

Lemma frame_write_file (text : string) : tool_frame (write_file text).
Proof. intros w. exists []. by rewrite app_nil_r. Qed.

Lemma frame_fs_open (E : Env) : tool_frame (fs_open E).
Proof.
  intros w. exists []. unfold fs_open.
  destruct (fs_fault E w); by rewrite app_nil_r.
Qed.

Create HintDb frame.

#[export] Hint Resolve frame_ret frame_raise frame_lift_exc frame_ask
  frame_get_events frame_read_file frame_write_file frame_fs_open : frame.

(** Decompose a computation along its binds, branches and matches. *)
Ltac frame_step :=
  first
    [ apply frame_bind; [| intros ?]
    | apply frame_try_except; [| intros ?]
    | apply frame_emit; reflexivity
    | solve [auto with frame]
    | match goal with
      | |- tool_frame (if ?c then _ else _) => destruct c
      | |- tool_frame (match ?x with _ => _ end) => destruct x
      | |- tool_frame (let _ := _ in _) => cbv zeta
      end ].

Ltac frame := repeat frame_step.

Lemma frame_py_gt_num v n ty : tool_frame (py_gt_num v n ty).
Proof. unfold py_gt_num. frame. Qed.

Lemma frame_getitem arguments key : tool_frame (getitem arguments key).
Proof. unfold getitem. frame. Qed.

Lemma frame_as_str attr v : tool_frame (as_str attr v).
Proof. unfold as_str. frame. Qed.

Lemma frame_py_contains_slash v : tool_frame (py_contains_slash v).
Proof. unfold py_contains_slash. frame. Qed.

#[export] Hint Resolve frame_py_gt_num frame_getitem frame_as_str
  frame_py_contains_slash : frame.

Lemma frame_bybit_make_request {A} E b (reply : list event → Exc A)
  method endpoint params signed :
  tool_frame (bybit_make_request E b reply method endpoint params signed).
Proof. unfold bybit_make_request. frame. Qed.

Lemma frame_binance_make_request {A} E b (reply : list event → Exc A)
  method endpoint params signed use_spot :
  tool_frame
    (binance_make_request E b reply method endpoint params signed use_spot).
Proof. unfold binance_make_request. frame. Qed.

#[export] Hint Resolve frame_bybit_make_request frame_binance_make_request
  : frame.

Lemma frame_get_positions E b : tool_frame (get_positions E b).
Proof. unfold get_positions. frame. Qed.

Lemma frame_float_of_int z : tool_frame (float_of_int z).
Proof. unfold float_of_int. frame. Qed.

Lemma frame_int_true_div a b : tool_frame (int_true_div a b).
Proof. unfold int_true_div. frame. Qed.

#[export] Hint Resolve frame_float_of_int frame_int_true_div : frame.

Lemma frame_percent_of percentage : tool_frame (percent_of percentage).
Proof. unfold percent_of. frame. Qed.

Lemma frame_dividend v : tool_frame (dividend v).
Proof. unfold dividend. frame. Qed.

#[export] Hint Resolve frame_percent_of frame_dividend : frame.

Lemma frame_close_quantity cur qty percentage :
  tool_frame (close_quantity cur qty percentage).
Proof. unfold close_quantity. frame. Qed.

#[export] Hint Resolve frame_get_positions frame_close_quantity : frame.

Lemma frame_close_position E b sym qty percentage :
  tool_frame (close_position E b sym qty percentage).
Proof.
  unfold close_position, bybit_close_position, binance_close_position,
    alpaca_close_position.
  frame.
Qed.

Lemma frame_normalize_crypto b sym : tool_frame (normalize_crypto b sym).
Proof. unfold normalize_crypto. frame. Qed.

#[export] Hint Resolve frame_close_position frame_normalize_crypto : frame.

Lemma frame_crypto_ticker E b sym : tool_frame (crypto_ticker E b sym).
Proof. unfold crypto_ticker. frame. Qed.

#[export] Hint Resolve frame_crypto_ticker : frame.

Lemma frame_wants_leverage leverage : tool_frame (wants_leverage leverage).
Proof. unfold wants_leverage. frame. Qed.

Lemma frame_quantity_from_notional E b sym qty notional :
  tool_frame (quantity_from_notional E b sym qty notional).
Proof. unfold quantity_from_notional. frame. Qed.

#[export] Hint Resolve frame_wants_leverage frame_quantity_from_notional
  : frame.

Lemma frame_place_crypto_order E b sym side qty notional leverage :
  tool_frame (place_crypto_order E b sym side qty notional leverage).
Proof.
  unfold place_crypto_order, bybit_place_crypto_order,
    binance_place_crypto_order, alpaca_place_crypto_order.
  frame.
Qed.

Lemma frame_opaque_method E b op args : tool_frame (opaque_method E b op args).
Proof. unfold opaque_method. frame. Qed.

#[export] Hint Resolve frame_place_crypto_order frame_opaque_method : frame.

Lemma frame_dispatch E b tool_name arguments :
  tool_frame (dispatch E b tool_name arguments).
Proof.
  unfold dispatch, get_crypto_price, place_stock_order, get_stock_quote,
    looks_crypto, py_endswith, file_write, newline_plus.
  frame.
Qed.

#[export] Hint Resolve frame_dispatch : frame.

Lemma frame_execute_tool E broker tool_name arguments :
  tool_frame (execute_tool E broker tool_name arguments).
Proof. unfold execute_tool. frame. Qed.

End FrameFacts.

(** ** The tool executor *)

Module ExecutorFacts.
Import Predicates FrameFacts.
#[local] Open Scope list_scope.

(** What [execute_tool] makes of an exception the dispatch raised. *)
Lemma execute_tool_raised E b tool_name arguments w e w' :
  dispatch E b tool_name arguments w = (inl e, w') →
  execute_tool E (Some b) tool_name arguments w =
  (inr (error_result
          (if is_NotImplementedError e
           then get_broker_name b +:+ " doesn't support this feature: " +:+
                exn_str e
           else exn_str e)), w').
Proof.
  intros H. unfold execute_tool, try_except. rewrite H.
  by destruct (is_NotImplementedError e).
Qed.

Lemma execute_tool_returned E b tool_name arguments w r w' :
  dispatch E b tool_name arguments w = (inr r, w') →
  execute_tool E (Some b) tool_name arguments w = (inr r, w').
Proof. intros H. unfold execute_tool, try_except. by rewrite H. Qed.

Lemma execute_tool_total E broker tool_name arguments :
  never_raises (execute_tool E broker tool_name arguments).
Proof.
  intros w. destruct broker as [b|]; [| by eexists].
  destruct (dispatch E b tool_name arguments w) as [[e|r] w'] eqn:H.
  - rewrite (execute_tool_raised _ _ _ _ _ _ _ H). by eexists.
  - rewrite (execute_tool_returned _ _ _ _ _ _ _ H). by eexists.
Qed.

Lemma dispatch_unknown E b tool_name arguments :
  tool_name ∉ tool_names →
  dispatch E b tool_name arguments =
  ret (error_result ("Unknown tool: " +:+ tool_name)).
Proof.
  intros H. unfold tool_names in H. unfold dispatch.
  repeat (apply not_elem_of_cons in H as [Hn H];
          apply String.eqb_neq in Hn; rewrite Hn; clear Hn).
  reflexivity.
Qed.

(** C1. For every tool name and argument map [execute_tool] returns a
    result and never raises.  With a broker initialised, an exception
    raised by the dispatch becomes the dictionary [{'error': str(e)}], a
    [NotImplementedError] becomes the error
    [<broker> doesn't support this feature: <str(e)>], and a tool name
    outside the catalogue gives the error [Unknown tool: <name>]; without
    a broker the result is the fixed error [Broker not initialized ...]. *)
Theorem execute_tool_never_raises (E : Env) (broker : option broker)
  (tool_name : string) (arguments : gmap string pyval) (w : world) :
  (∃ result, (execute_tool E broker tool_name arguments w).1 = inr result) ∧
  (∀ b, broker = Some b →
     (∀ e w', dispatch E b tool_name arguments w = (inl e, w') →
        execute_tool E broker tool_name arguments w =
        (inr (error_result
                (if is_NotImplementedError e
                 then get_broker_name b +:+
                      " doesn't support this feature: " +:+ exn_str e
                 else exn_str e)), w')) ∧
     (tool_name ∉ tool_names →
        execute_tool E broker tool_name arguments w =
        (inr (error_result ("Unknown tool: " +:+ tool_name)), w))) ∧
  (broker = None →
     execute_tool E broker tool_name arguments w =
     (inr (error_result
             "Broker not initialized. Please configure broker credentials in Settings."),
      w)).
Proof.
  split; [apply execute_tool_total |]. split.
  - intros b ->. split.
    + intros e w'. apply execute_tool_raised.
    + intros H. apply execute_tool_returned.
      by rewrite dispatch_unknown.
  - by intros ->.
Qed.

(** The theorem at work on the Bybit adapter: a stock order
    ([NotImplementedError]), a close without a symbol ([KeyError]) and a
    tool that does not exist. *)
Lemma execute_tool_never_raises_witness :
  execute_tool env_tools (Some (demo_broker Bybit)) "place_stock_order"
    (<["symbol" := VStr "AAPL"]> (<["side" := VStr "buy"]> ∅)) w0 =
  (inr (error_result
          "Bybit doesn't support this feature: Bybit does not support stock trading. Please use crypto symbols."),
   w0) ∧
  execute_tool env_tools (Some (demo_broker Bybit)) "close_position" ∅ w0 =
  (inr (error_result "'symbol'"), w0) ∧
  execute_tool env_tools (Some (demo_broker Bybit)) "no_such_tool" ∅ w0 =
  (inr (error_result "Unknown tool: no_such_tool"), w0).
Proof.
  split; [| split].
  - destruct (execute_tool_never_raises env_tools (Some (demo_broker Bybit))
                "place_stock_order"
                (<["symbol" := VStr "AAPL"]> (<["side" := VStr "buy"]> ∅)) w0)
      as (_ & H & _).
    destruct (H _ eq_refl) as [H1 _].
    apply (H1 (mk_exn NotImplementedError
                 "Bybit does not support stock trading. Please use crypto symbols.")).
    vm_compute. reflexivity.
  - destruct (execute_tool_never_raises env_tools (Some (demo_broker Bybit))
                "close_position" ∅ w0) as (_ & H & _).
    destruct (H _ eq_refl) as [H1 _].
    apply (H1 (mk_exn KeyError "'symbol'")).
    vm_compute. reflexivity.
  - destruct (execute_tool_never_raises env_tools (Some (demo_broker Bybit))
                "no_such_tool" ∅ w0) as (_ & H & _).
    destruct (H _ eq_refl) as [_ H2]. apply H2.
    vm_compute. intros Hin.
    repeat (apply elem_of_cons in Hin as [Hin | Hin]; [discriminate |]).
    by apply elem_of_nil in Hin.
Defined.

End ExecutorFacts.

(** ** The leverage gate of [place_crypto_order] *)

Module LeverageFacts.
Import Predicates FrameFacts ExecutorFacts.
#[local] Open Scope list_scope.

Lemma Qlt_bool_inject_Z (a b : Z) :
  Qlt_bool (inject_Z a) (inject_Z b) = (a <? b)%Z.
Proof.
  unfold Qlt_bool, Qle_bool. simpl. rewrite !Z.mul_1_r.
  by rewrite Z.ltb_antisym.
Qed.

Lemma py_gt_num_int (L n : Z) (ty : string) :
  py_gt_num (VInt L) (inject_Z n) ty = ret (n <? L)%Z.
Proof. unfold py_gt_num. simpl. by rewrite Qlt_bool_inject_Z. Qed.

Lemma max_leverage_crypto_pos (b : broker) :
  (1 ≤ get_max_leverage b "crypto")%Z.
Proof. unfold get_max_leverage. by destruct (kind b). Qed.

Lemma max_leverage_unsupported (b : broker) :
  supports_crypto_leverage b = false → get_max_leverage b "crypto" = 1%Z.
Proof. unfold supports_crypto_leverage, get_max_leverage. by destruct (kind b). Qed.

(** The [place_crypto_order] branch of the dispatch, once the requested
    leverage is known to be the integer [L]. *)
Lemma dispatch_place_crypto_order E b arguments L :
  get_default arguments "leverage" (VInt 1) = VInt L →
  dispatch E b "place_crypto_order" arguments =
  if (1 <? L)%Z && negb (supports_crypto_leverage b) then
    ret (error_result
           (get_broker_name b +:+
            " doesn't support leverage trading. Switch to Bybit or Binance for leverage trading."))
  else if (get_max_leverage b "crypto" <? L)%Z then
    ret (error_result
           (get_broker_name b +:+ " max leverage is " +:+
            pretty (get_max_leverage b "crypto") +:+ "x, you requested " +:+
            pretty L +:+ "x"))
  else
    let! sym := getitem arguments "symbol" in
    let! side := getitem arguments "side" in
    place_crypto_order E b sym side (get arguments "qty")
      (get arguments "notional") (VInt L).
Proof.
  intros HL. unfold dispatch.
  cbv beta iota delta [String.eqb Ascii.eqb Bool.eqb].
  cbv zeta. rewrite HL.
  change 1%Q with (inject_Z 1). rewrite !py_gt_num_int.
  change (bind (ret ?x) ?k) with (k x). cbv beta.
  destruct ((1 <? L)%Z && negb (supports_crypto_leverage b)); [done |].
  change (bind (ret ?x) ?k) with (k x). cbv beta.
  by destruct (get_max_leverage b "crypto" <? L)%Z.
Qed.

(** C2, as the code has it.  For a [place_crypto_order] call whose
    requested leverage is the integer [L] (1 when absent), with [C] the
    active broker's [get_max_leverage('crypto')]: if [L > C] the executor
    returns an error result and leaves the state untouched, so no adapter
    method runs and no request leaves; the error names the maximum [C]
    when the broker supports crypto leverage and is the fixed
    [doesn't support leverage trading] message when it does not.  If
    [L ≤ C], the call is the adapter's [place_crypto_order] with the
    leverage [L] unchanged. *)
Theorem leverage_gate (E : Env) (b : broker) (arguments : gmap string pyval)
  (L : Z) (w : world) :
  get_default arguments "leverage" (VInt 1) = VInt L →
  let C := get_max_leverage b "crypto" in
  ((C < L)%Z →
     execute_tool E (Some b) "place_crypto_order" arguments w =
     (inr (error_result
             (if supports_crypto_leverage b
              then get_broker_name b +:+ " max leverage is " +:+ pretty C +:+
                   "x, you requested " +:+ pretty L +:+ "x"
              else get_broker_name b +:+
                   " doesn't support leverage trading. Switch to Bybit or Binance for leverage trading.")),
      w)) ∧
  ((L ≤ C)%Z →
     ∀ sym side,
       arguments !! "symbol" = Some sym → arguments !! "side" = Some side →
       dispatch E b "place_crypto_order" arguments w =
       place_crypto_order E b sym side (get arguments "qty")
         (get arguments "notional") (VInt L) w).
Proof.
  intros HL C. pose proof (max_leverage_crypto_pos b) as Hpos. split.
  - intros Hgt. apply execute_tool_returned.
    rewrite (dispatch_place_crypto_order _ _ _ _ HL).
    destruct (supports_crypto_leverage b) eqn:Hs.
    + rewrite andb_false_r.
      fold C. by rewrite (proj2 (Z.ltb_lt C L) Hgt).
    + rewrite (proj2 (Z.ltb_lt 1 L)) by (fold C in Hpos; lia). done.
  - intros Hle sym side Hsym Hside.
    rewrite (dispatch_place_crypto_order _ _ _ _ HL).
    assert ((1 <? L)%Z && negb (supports_crypto_leverage b) = false) as ->.
    { destruct (supports_crypto_leverage b) eqn:Hs; [apply andb_false_r |].
      apply max_leverage_unsupported in Hs. fold C in Hs.
      rewrite (proj2 (Z.ltb_ge 1 L)) by lia. done. }
    fold C. rewrite (proj2 (Z.ltb_ge C L) Hle).
    unfold getitem. rewrite Hsym, Hside. reflexivity.
Qed.

(** The gate on Bybit (ceiling 100): 101x is refused with the ceiling in
    the message and nothing is sent; 10x reaches the adapter as 10. *)
Lemma leverage_gate_witness :
  execute_tool env_tools (Some (demo_broker Bybit)) "place_crypto_order"
    (order_args 101) w0 =
  (inr (error_result "Bybit max leverage is 100x, you requested 101x"), w0) ∧
  dispatch env_tools (demo_broker Bybit) "place_crypto_order"
    (order_args 10) w0 =
  place_crypto_order env_tools (demo_broker Bybit) (VStr "BTC/USD")
    (VStr "buy") VNone VNone (VInt 10) w0.
Proof.
  split.
  - destruct (leverage_gate env_tools (demo_broker Bybit) (order_args 101)
                101 w0) as [H _]; [vm_compute; reflexivity |].
    apply H. vm_compute. reflexivity.
  - destruct (leverage_gate env_tools (demo_broker Bybit) (order_args 10)
                10 w0) as [_ H]; [vm_compute; reflexivity |].
    apply (H ltac:(vm_compute; congruence) (VStr "BTC/USD") (VStr "buy"));
      vm_compute; reflexivity.
Defined.

(** C2 as stated fails on Alpaca: 10x exceeds the ceiling 1, and the error
    returned is the [doesn't support leverage] one, which does not name
    the maximum. *)
Lemma leverage_error_without_maximum_counterexample :
  let C := get_max_leverage (demo_broker Alpaca) "crypto" in
  (C < 10)%Z ∧
  ∃ msg,
    execute_tool env_tools (Some (demo_broker Alpaca)) "place_crypto_order"
      (order_args 10) w0 = (inr (error_result msg), w0) ∧
    msg = "Alpaca doesn't support leverage trading. Switch to Bybit or Binance for leverage trading." ∧
    PyStr.contains (pretty C) msg = false.
Proof.
  cbv zeta. split; [done |]. eexists. split; [vm_compute; reflexivity |].
  split; [reflexivity | vm_compute; reflexivity].
Qed.

End LeverageFacts.

(** ** Insertion-ordered dicts *)

Module DictFacts.
Import Predicates.
#[local] Open Scope list_scope.

Lemma dict_get_set_eq k v d : dict_get k (dict_set k v d) = Some v.
Proof.
  induction d as [|[k' v'] d IH]; simpl.
  - by rewrite String.eqb_refl.
  - destruct (String.eqb k' k) eqn:E; simpl; rewrite ?E, ?String.eqb_refl; done.
Qed.

Lemma dict_get_set_ne k k' v d :
  k ≠ k' → dict_get k (dict_set k' v d) = dict_get k d.
Proof.
  intros Hne. induction d as [|[k0 v0] d IH]; simpl.
  - by rewrite (proj2 (String.eqb_neq k' k)).
  - destruct (String.eqb k0 k') eqn:E; simpl.
    + apply String.eqb_eq in E. subst k0.
      by rewrite !(proj2 (String.eqb_neq k' k)).
    + by rewrite IH.
Qed.

Lemma elem_of_dict_set_ne k v k' v' d :
  (k, v) ∈ d → k ≠ k' → (k, v) ∈ dict_set k' v' d.
Proof.
  intros Hin Hne. induction d as [|[k0 v0] d IH]; [by apply elem_of_nil in Hin |].
  simpl. apply elem_of_cons in Hin as [Heq | Hin].
  - injection Heq as <- <-.
    rewrite (proj2 (String.eqb_neq k k')) by done. by left.
  - destruct (String.eqb k0 k'); [by right | right; auto].
Qed.

(** Setting a key keeps the other pairs in place and puts a key that is
    new at the end. *)
Lemma dict_set_fresh k v d :
  dict_get k d = None → dict_set k v d = d ++ [(k, v)].
Proof.
  induction d as [|[k0 v0] d IH]; simpl; [done |].
  destruct (String.eqb k0 k); [done |]. intros H. by rewrite IH.
Qed.

End DictFacts.

(** ** Float arithmetic *)

Module FloatFacts.
Import Predicates.
#[local] Open Scope Q_scope.

Lemma pow2_pos k : 0 < pow2 k.
Proof. apply Qpower_0_lt. reflexivity. Qed.

Lemma pow2_plus a b : pow2 (a + b) == pow2 a * pow2 b.
Proof. apply Qpower_plus. discriminate. Qed.

Lemma pow2_le a b : (a <= b)%Z → pow2 a <= pow2 b.
Proof. intros H. apply Qpower_le_compat_l; [exact H | discriminate]. Qed.

Lemma pow2_lt_inv a b : pow2 a < pow2 b → (a < b)%Z.
Proof. intros H. apply (Qpower_lt_compat_l_inv 2); [exact H | reflexivity]. Qed.

Lemma pow2_inject (n : Z) : (0 <= n)%Z → pow2 n == inject_Z (2 ^ n).
Proof. intros H. unfold pow2. rewrite Zpower_Qpower by exact H. reflexivity. Qed.

Lemma pow2_cancel c : pow2 c * pow2 (- c) == 1.
Proof. rewrite <- pow2_plus, Z.add_opp_diag_r. reflexivity. Qed.


(** What [Qlog2] computes. *)
Lemma Qlog2_spec q :
  0 < q → pow2 (Qlog2 q) <= q ∧ q < pow2 (Qlog2 q + 1).
Proof.
  intros Hq. destruct q as [n d].
  assert (0 < n)%Z as Hn.
  { unfold Qlt in Hq. simpl in Hq. lia. }
  unfold Qlog2. cbn [Qnum Qden].
  set (a := Z.log2 n). set (b := Z.log2 (Z.pos d)).
  destruct (Z.log2_spec n Hn) as [Ha1 Ha2]. fold a in Ha1, Ha2.
  destruct (Z.log2_spec (Z.pos d) eq_refl) as [Hb1 Hb2]. fold b in Hb1, Hb2.
  assert (0 <= a)%Z as Ha0 by apply Z.log2_nonneg.
  assert (0 <= b)%Z as Hb0 by apply Z.log2_nonneg.
  assert (n # d == inject_Z n / inject_Z (Z.pos d)) as Hnd
    by apply Qmake_Qdiv.
  assert (0 < inject_Z (Z.pos d)) as Hd by reflexivity.
  assert ((n # d) * inject_Z (Z.pos d) == inject_Z n) as Hmul.
  { rewrite Hnd. field. discriminate. }
  assert (pow2 a <= inject_Z n) as HA1.
  { rewrite pow2_inject by done. rewrite <- Zle_Qle. exact Ha1. }
  assert (inject_Z n < pow2 (a + 1)) as HA2.
  { rewrite pow2_inject by lia. rewrite <- Zlt_Qlt. exact Ha2. }
  assert (pow2 b <= inject_Z (Z.pos d)) as HB1.
  { rewrite pow2_inject by done. rewrite <- Zle_Qle. exact Hb1. }
  assert (inject_Z (Z.pos d) < pow2 (b + 1)) as HB2.
  { rewrite pow2_inject by lia. rewrite <- Zlt_Qlt. exact Hb2. }
  pose proof (pow2_pos b) as Pb. pose proof (pow2_pos (- b)) as Pnb.
  pose proof (pow2_pos (b + 1)) as Pb1.
  pose proof (pow2_pos (- (b + 1))) as Pnb1.
  pose proof (pow2_cancel b) as Cb. pose proof (pow2_cancel (b + 1)) as Cb1.
  assert ((n # d) < pow2 (a - b + 1)) as Hupper.
  { replace (a - b + 1)%Z with ((a + 1) + (- b))%Z by lia.
    rewrite pow2_plus.
    assert ((n # d) * pow2 b < pow2 (a + 1)) as H by nra.
    nra. }
  assert (pow2 (a - b - 1) <= (n # d)) as Hlower.
  { replace (a - b - 1)%Z with (a + (- (b + 1)))%Z by lia.
    rewrite pow2_plus.
    assert (pow2 a <= (n # d) * pow2 (b + 1)) as H by nra.
    nra. }
  destruct (Qle_bool (pow2 (a - b)) (n # d)) eqn:Hle.
  - apply Qle_bool_iff in Hle. by split.
  - split; [exact Hlower |].
    replace (a - b - 1 + 1)%Z with (a - b)%Z by lia.
    apply Qnot_le_lt. intros H%Qle_bool_iff. congruence.
Qed.


Lemma Qlt_bool_iff x y : Qlt_bool x y = true <-> x < y.
Proof.
  unfold Qlt_bool. rewrite negb_true_iff. split.
  - intros H. apply Qnot_le_lt. intros H'%Qle_bool_iff. congruence.
  - intros H. apply not_true_is_false. intros H'%Qle_bool_iff.
    by apply Qlt_not_le in H.
Qed.

(** Rounding to an integer moves a number by at most one half. *)
Lemma round_half_even_error y :
  Qabs (inject_Z (round_half_even y) - y) <= 1 # 2.
Proof.
  unfold round_half_even. cbv zeta.
  pose proof (Qfloor_le y) as Hl. pose proof (Qlt_floor y) as Hu.
  rewrite inject_Z_plus in Hu. change (inject_Z 1) with 1 in Hu.
  destruct (Qlt_bool (y - inject_Z (Qfloor y)) (1 # 2)) eqn:H1.
  { apply Qlt_bool_iff in H1. apply Qabs_case; intros; lra. }
  assert (1 # 2 <= y - inject_Z (Qfloor y)) as H1'.
  { apply Qnot_lt_le. intros H%Qlt_bool_iff. congruence. }
  assert (Qabs (inject_Z (Qfloor y + 1) - y) <= 1 # 2) as Hup.
  { rewrite inject_Z_plus. change (inject_Z 1) with 1.
    apply Qabs_case; intros; lra. }
  destruct (Qlt_bool (1 # 2) (y - inject_Z (Qfloor y))) eqn:H2; [exact Hup |].
  assert (y - inject_Z (Qfloor y) <= 1 # 2) as H2'.
  { apply Qnot_lt_le. intros H%Qlt_bool_iff. congruence. }
  destruct (Z.even (Qfloor y)); [| exact Hup].
  apply Qabs_case; intros; lra.
Qed.

(** The double nearest to a number in the normal range is within half a
    unit in the last place: a relative error of at most [2 ** -53]. *)
Lemma round_double_error x :
  pow2 (-1022) <= Qabs x ->
  Qabs (round_double x - x) <= Qabs x * pow2 (-53).
Proof.
  intros Hx. unfold round_double. cbv zeta.
  pose proof (Qred_correct x) as Hred.
  set (x' := Qred x) in *.
  assert (0 < Qabs x') as Hpos.
  { rewrite Hred. pose proof (pow2_pos (-1022)). lra. }
  destruct (Qeq_bool x' 0) eqn:Hz.
  { apply Qeq_bool_iff in Hz. rewrite Hz in Hpos. by apply Qlt_irrefl in Hpos. }
  rewrite Qred_correct.
  destruct (Qlog2_spec _ Hpos) as [Hlo Hhi].
  set (e := Qlog2 (Qabs x')) in *.
  assert (-1022 <= e)%Z as He.
  { assert (pow2 (-1022) < pow2 (e + 1)) as H by (rewrite <- Hred in Hx; lra).
    apply pow2_lt_inv in H. lia. }
  unfold ulp_exponent. fold e. rewrite Z.max_l by lia.
  set (k := (e - 52)%Z).
  pose proof (round_half_even_error (x' / pow2 k)) as Herr.
  set (m := inject_Z (round_half_even (x' / pow2 k))) in *.
  pose proof (pow2_pos k) as Pk.
  assert (m * pow2 k - x == (m - x' / pow2 k) * pow2 k) as ->.
  { rewrite <- Hred. field. lra. }
  rewrite Qabs_Qmult, (Qabs_pos (pow2 k)) by lra.
  assert (pow2 k * (1 # 2) <= Qabs x * pow2 (-53)) as Hk.
  { rewrite <- Hred.
    assert (pow2 k * (1 # 2) == pow2 e * pow2 (-53)) as ->.
    { unfold k. replace (e - 52)%Z with (e + (-53) + 1)%Z by lia.
      rewrite !pow2_plus. change (pow2 1) with 2. ring. }
    pose proof (pow2_pos (-53)). nra. }
  pose proof (Qabs_nonneg (m - x' / pow2 k)). nra.
Qed.



(** [percentage / 100] for a number whose hundredth is a finite double. *)
Lemma percent_of_number percentage p w :
  as_number percentage = Some p → is_finite (float_div p 100) = true →
  percent_of percentage w = (inr (float_div p 100), w).
Proof.
  destruct percentage as [|[]|z|x| | |]; simpl; try done; intros [= <-] Hfin;
    unfold int_true_div, float_div in *; cbv zeta;
    change (inject_Z 100) with 100; change (inject_Z 1) with 1;
    change (inject_Z 0) with 0; by rewrite ?Hfin.
Qed.


(** The two roundings of [cur * (p / 100)] keep the result within a
    relative error of [2 ** -51] of the exact product. *)
Lemma percentage_error cur p :
  pow2 (-1022) <= Qabs (p / 100) →
  pow2 (-1022) <= Qabs (cur * float_div p 100) →
  Qabs (float_mul cur (float_div p 100) - cur * p / 100)
  <= Qabs (cur * p / 100) * pow2 (-51).
Proof.
  intros Ha Hx. unfold float_mul.
  pose proof (round_double_error _ Ha) as E1.
  pose proof (round_double_error _ Hx) as E2.
  fold (float_div p 100) in E1.
  set (fa := float_div p 100) in *. set (r := round_double (cur * fa)) in *.
  assert (Qabs (cur * p / 100) == Qabs cur * Qabs (p / 100)) as ->.
  { rewrite <- Qabs_Qmult. apply Qabs_wd. unfold Qdiv. ring. }
  assert (r - cur * p / 100 == (r - cur * fa) + cur * (fa - p / 100)) as ->.
  { unfold Qdiv. ring. }
  pose proof (Qabs_triangle (r - cur * fa) (cur * (fa - p / 100))) as T1.
  rewrite (Qabs_Qmult cur (fa - p / 100)) in T1.
  rewrite (Qabs_Qmult cur fa) in E2.
  assert (Qabs fa <= Qabs (p / 100) + Qabs (fa - p / 100)) as T2.
  { assert (fa == p / 100 + (fa - p / 100)) as Hfa by ring.
    rewrite Hfa at 1. apply Qabs_triangle. }
  assert (pow2 (-51) == 4 * pow2 (-53)) as ->.
  { replace (-51)%Z with (2 + -53)%Z by done. by rewrite pow2_plus. }
  assert (0 < pow2 (-53) ∧ pow2 (-53) <= 1) as [U0 U1].
  { split; [apply pow2_pos | by apply (pow2_le (-53) 0)]. }
  pose proof (Qabs_nonneg cur) as C0.
  pose proof (Qabs_nonneg (p / 100)) as A0.
  pose proof (Qabs_nonneg (fa - p / 100)) as D0.
  set (C := Qabs cur) in *. set (A := Qabs (p / 100)) in *.
  set (D1 := Qabs (fa - p / 100)) in *. set (F := Qabs fa) in *.
  set (D2 := Qabs (r - cur * fa)) in *. set (u := pow2 (-53)) in *.
  assert (C * D1 <= C * (A * u)) as H1 by nra.
  assert (C * F <= C * (A + A * u)) as H2 by nra.
  assert (C * F * u <= C * (A + A * u) * u) as H3 by nra.
  assert (0 <= C * A) as H4 by nra.
  assert (0 <= C * A * u) as H5 by nra.
  assert (C * A * u * u <= C * A * u) as H6.
  { set (K := C * A * u) in *. nra. }
  nra.
Qed.

Lemma Qabs_inject_Z (m : Z) : Qabs (inject_Z m) == inject_Z (Z.abs m).
Proof. symmetry. apply (Zabs_Qabs m 1). Qed.

(** Rounding does not take a number below a power of two it has reached. *)
Lemma round_double_reaches x n :
  (-1022 <= n)%Z → pow2 n <= Qabs x → pow2 n <= Qabs (round_double x).
Proof.
  intros Hn Hx. unfold round_double. cbv zeta.
  pose proof (Qred_correct x) as Hred.
  set (x' := Qred x) in *.
  pose proof (pow2_pos n) as Pn.
  assert (0 < Qabs x') as Hpos by (rewrite Hred; lra).
  destruct (Qeq_bool x' 0) eqn:Hz.
  { apply Qeq_bool_iff in Hz. rewrite Hz in Hpos. by apply Qlt_irrefl in Hpos. }
  rewrite Qred_correct.
  destruct (Qlog2_spec _ Hpos) as [Hlo Hhi].
  set (e := Qlog2 (Qabs x')) in *.
  assert (n <= e)%Z as He.
  { assert (pow2 n < pow2 (e + 1)) as H by (rewrite <- Hred in Hx; lra).
    apply pow2_lt_inv in H. lia. }
  unfold ulp_exponent. fold e. rewrite Z.max_l by lia.
  set (k := (e - 52)%Z).
  pose proof (round_half_even_error (x' / pow2 k)) as Herr.
  set (m := round_half_even (x' / pow2 k)) in *.
  pose proof (pow2_pos k) as Pk.
  assert (pow2 52 <= Qabs (x' / pow2 k)) as Hy.
  { unfold Qdiv. rewrite Qabs_Qmult, (Qabs_pos (/ pow2 k)).
    - apply Qle_shift_div_l; [exact Pk |].
      rewrite <- pow2_plus. replace (52 + k)%Z with e by (unfold k; lia).
      exact Hlo.
    - apply Qlt_le_weak, Qinv_lt_0_compat, Pk. }
  assert (pow2 52 <= Qabs (inject_Z m)) as Hm.
  { assert (pow2 52 - 1 < Qabs (inject_Z m)) as Hlt.
    { pose proof (Qabs_triangle_reverse (x' / pow2 k) (x' / pow2 k - inject_Z m)).
      assert (Qabs (x' / pow2 k - inject_Z m) <= 1 # 2) as Herr'.
      { rewrite <- Qabs_opp.
        assert (- (x' / pow2 k - inject_Z m) == inject_Z m - x' / pow2 k)
          as -> by ring.
        exact Herr. }
      assert (x' / pow2 k - (x' / pow2 k - inject_Z m) == inject_Z m) as Hrw
        by ring.
      rewrite Hrw in H. lra. }
    rewrite Qabs_inject_Z in Hlt |- *.
    rewrite pow2_inject in Hlt |- * by lia.
    assert (inject_Z (2 ^ 52) - 1 == inject_Z (2 ^ 52 - 1)) as Hone
      by reflexivity.
    rewrite Hone in Hlt.
    rewrite <- Zlt_Qlt in Hlt. rewrite <- Zle_Qle. lia. }
  rewrite Qabs_Qmult, (Qabs_pos (pow2 k)) by lra.
  assert (pow2 n <= pow2 52 * pow2 k) as Hnk.
  { rewrite <- pow2_plus. apply pow2_le. unfold k. lia. }
  nra.
Qed.


End FloatFacts.

(** ** Closing a position *)

Module CloseFacts.
Import Predicates FrameFacts DictFacts.
#[local] Open Scope list_scope.




Lemma truthy_number v q :
  as_number v = Some q → truthy v = negb (Qeq_bool q 0).
Proof.
  destruct v as [|[]|z|x| | |]; simpl; try done; intros [= <-]; try done.
  f_equal. destruct (Z.eqb_spec z 0) as [->|Hz]; [done |].
  symmetry. apply not_true_is_false. intros H%Qeq_bool_iff.
  unfold Qeq in H. simpl in H. lia.
Qed.






End CloseFacts.

(** ** The quantity of a close order *)

Module CloseQuantityFacts.
Import Predicates FrameFacts DictFacts FloatFacts CloseFacts.
#[local] Open Scope list_scope.

Lemma bybit_sign_params_get E b evs params k :
  k ≠ "api_key" → k ≠ "timestamp" → k ≠ "recv_window" → k ≠ "sign" →
  dict_get k (bybit_sign_params E b evs params) = dict_get k params.
Proof.
  intros. unfold bybit_sign_params. cbv zeta.
  by rewrite !dict_get_set_ne.
Qed.

Lemma bybit_sign_params_elem E b evs params k v :
  (k, v) ∈ params →
  k ≠ "api_key" → k ≠ "timestamp" → k ≠ "recv_window" → k ≠ "sign" →
  (k, v) ∈ bybit_sign_params E b evs params.
Proof.
  intros. unfold bybit_sign_params. cbv zeta.
  by repeat apply elem_of_dict_set_ne.
Qed.

Lemma binance_sign_params_get E b evs params k :
  k ≠ "timestamp" → k ≠ "recvWindow" → k ≠ "signature" →
  dict_get k (binance_sign_params E b evs params) = dict_get k params.
Proof.
  intros. unfold binance_sign_params. cbv zeta.
  by rewrite !dict_get_set_ne.
Qed.

Lemma binance_sign_params_elem E b evs params k v :
  (k, v) ∈ params →
  k ≠ "timestamp" → k ≠ "recvWindow" → k ≠ "signature" →
  (k, v) ∈ binance_sign_params E b evs params.
Proof.
  intros. unfold binance_sign_params. cbv zeta.
  by repeat apply elem_of_dict_set_ne.
Qed.

(** The last request of a close on Bybit or Binance, once the position
    is found and the quantity computed. *)
Lemma close_order_request E b sym qty percentage w positions w1 position v :
  kind b ≠ Alpaca →
  get_positions E b w = (inr positions, w1) →
  find_position positions sym = Some position →
  close_quantity (Qabs (Adapters.qty position)) qty percentage w1
  = (inr v, w1) →
  ∃ url params,
    events (close_position E b sym qty percentage w).2 =
    events w1 ++ [EHttp "POST" url params] ∧
    dict_get (close_qty_key (kind b)) params = Some v ∧
    reduce_only_param (kind b) ∈ params.
Proof.
  intros Hk Hpos Hfind Hq. unfold close_position.
  destruct (kind b) eqn:K; [done | |].
  - unfold bybit_close_position, bind at 1. rewrite Hpos, Hfind.
    unfold bind at 1. rewrite Hq.
    unfold bybit_make_request, bind, get_events, emit, ask. simpl.
    eexists _, _. split; [| split].
    + by destruct (bybit_order_reply E _).
    + rewrite bybit_sign_params_get by done. reflexivity.
    + apply bybit_sign_params_elem; try done.
      apply list_elem_of_In. simpl. tauto.
  - unfold binance_close_position, bind at 1. rewrite Hpos, Hfind.
    unfold bind at 1. rewrite Hq.
    unfold binance_make_request, bind, get_events, emit, ask. simpl.
    eexists _, _. split; [| split].
    + by destruct (binance_order_reply E _).
    + rewrite binance_sign_params_get by done. reflexivity.
    + apply binance_sign_params_elem; try done.
      apply list_elem_of_In. simpl. tauto.
Qed.

Lemma close_quantity_qty cur qty percentage q w :
  truthy percentage = false → as_number qty = Some q → ¬ (q == 0)%Q →
  ∃ v c, close_quantity cur qty percentage w = (inr v, w) ∧
         as_number v = Some c ∧ (c == Qmin q cur)%Q ∧ (c <= cur)%Q.
Proof.
  intros Hp Hq Hnz. unfold close_quantity.
  rewrite Hp, (truthy_number _ _ Hq), Hq.
  assert (Qeq_bool q 0 = false) as ->.
  { apply not_true_is_false. by intros H%Qeq_bool_iff. }
  simpl negb. cbv iota. unfold Qlt_bool.
  destruct (Qle_bool q cur) eqn:Hle; simpl.
  - apply Qle_bool_iff in Hle. exists qty, q.
    repeat split; [done | | done]. symmetry. by apply Q.min_l.
  - assert (cur < q)%Q as Hlt.
    { apply Qnot_le_lt. intros H%Qle_bool_iff. congruence. }
    exists (VFloat cur), cur.
    repeat split; [| apply Qle_refl]. symmetry.
    apply Q.min_r. by apply Qlt_le_weak.
Qed.

Lemma close_quantity_percentage cur qty percentage p w :
  as_number percentage = Some p → ¬ (p == 0)%Q →
  is_finite (float_div p 100) = true →
  close_quantity cur qty percentage w
  = (inr (VFloat (float_mul cur (float_div p 100))), w).
Proof.
  intros Hp Hnz Hfin. unfold close_quantity.
  rewrite (truthy_number _ _ Hp).
  assert (Qeq_bool p 0 = false) as ->.
  { apply not_true_is_false. by intros H%Qeq_bool_iff. }
  change (negb false) with true. cbv iota. unfold bind.
  by rewrite (percent_of_number _ _ _ Hp Hfin).
Qed.

(** C10, as the code has it.  On the Bybit and Binance adapters, once the
    position for the symbol is found, with [cur = |position.qty|]: a
    non-zero [qty] given without a (non-zero) percentage is clamped, the
    reduce-only order carrying [min(qty, cur)], which never exceeds [cur];
    a non-zero [percentage] gives the quantity [cur * (percentage / 100)]
    in float arithmetic, the quotient and the product each rounded to the
    nearest double.  Barring underflow that quantity is within a relative
    error of [2 ** -51] of [cur * percentage / 100]; it need not be equal
    to it. *)
Theorem close_order_quantity (E : Env) (b : broker)
  (sym qty percentage : pyval) (w w1 : world) (positions : list position)
  (position : position) :
  kind b ≠ Alpaca →
  get_positions E b w = (inr positions, w1) →
  find_position positions sym = Some position →
  let cur := Qabs (Adapters.qty position) in
  let after := (close_position E b sym qty percentage w).2 in
  (∀ q, truthy percentage = false → as_number qty = Some q → ¬ (q == 0)%Q →
     ∃ url params v c,
       events after = events w1 ++ [EHttp "POST" url params] ∧
       dict_get (close_qty_key (kind b)) params = Some v ∧
       reduce_only_param (kind b) ∈ params ∧
       as_number v = Some c ∧ (c == Qmin q cur)%Q ∧ (c <= cur)%Q) ∧
  (∀ p, as_number percentage = Some p → ¬ (p == 0)%Q →
     is_finite (float_div p 100) = true →
     is_finite (float_mul cur (float_div p 100)) = true →
     ∃ url params,
       events after = events w1 ++ [EHttp "POST" url params] ∧
       dict_get (close_qty_key (kind b)) params
       = Some (VFloat (float_mul cur (float_div p 100))) ∧
       reduce_only_param (kind b) ∈ params ∧
       ((pow2 (-1022) <= Qabs (p / 100))%Q →
        (pow2 (-1022) <= Qabs (cur * float_div p 100))%Q →
        (Qabs (float_mul cur (float_div p 100) - cur * p / 100)
         <= Qabs (cur * p / 100) * pow2 (-51))%Q)).
Proof.
  intros Hk Hpos Hfind cur after. split.
  - intros q Hp Hq Hnz.
    destruct (close_quantity_qty cur qty percentage q w1 Hp Hq Hnz)
      as (v & c & Hcq & Hv & Hmin & Hle).
    destruct (close_order_request E b sym qty percentage w positions w1
                position v Hk Hpos Hfind Hcq) as (url & params & H1 & H2 & H3).
    by exists url, params, v, c.
  - intros p Hp Hnz Hfin _.
    pose proof (close_quantity_percentage cur qty percentage p w1 Hp Hnz Hfin)
      as Hcq.
    destruct (close_order_request E b sym qty percentage w positions w1
                position _ Hk Hpos Hfind Hcq) as (url & params & H1 & H2 & H3).
    exists url, params. repeat split; try done.
    apply percentage_error.
Qed.

(** On Binance with a position of 3.5: asking to close 5 sends 3.5, and
    asking to close 50 percent sends 1.75. *)
Lemma close_order_quantity_witness :
  (∃ url params v c,
     events (close_position env_tools (demo_broker Binance) (VStr "BTCUSDT")
               (VInt 5) VNone w0).2 =
     events (get_positions env_tools (demo_broker Binance) w0).2
     ++ [EHttp "POST" url params] ∧
     dict_get "quantity" params = Some v ∧
     ("reduceOnly", VStr "true") ∈ params ∧
     as_number v = Some c ∧ (c == Qmin (inject_Z 5) (7 # 2))%Q ∧
     (c <= 7 # 2)%Q) ∧
  (∃ url params,
     events (close_position env_tools (demo_broker Binance) (VStr "BTCUSDT")
               VNone (VInt 50) w0).2 =
     events (get_positions env_tools (demo_broker Binance) w0).2
     ++ [EHttp "POST" url params] ∧
     dict_get "quantity" params
     = Some (VFloat (float_mul (7 # 2) (float_div (inject_Z 50) 100))) ∧
     ("reduceOnly", VStr "true") ∈ params ∧
     (Qabs (float_mul (7 # 2) (float_div (inject_Z 50) 100)
            - (7 # 2) * inject_Z 50 / 100)
      <= Qabs ((7 # 2) * inject_Z 50 / 100) * pow2 (-51))%Q) ∧
  float_mul (7 # 2) (float_div (inject_Z 50) 100) = (7 # 4)%Q.
Proof.
  split; [| split; [| vm_compute; reflexivity]].
  - destruct (close_order_quantity env_tools (demo_broker Binance)
                (VStr "BTCUSDT") (VInt 5) VNone w0
                (get_positions env_tools (demo_broker Binance) w0).2
                btc_positions btc_position)
      as [H _]; [done | vm_compute; reflexivity | vm_compute; reflexivity |].
    destruct (H (inject_Z 5)) as (url & params & v & c & H');
      [reflexivity | reflexivity | by intros [=] |].
    by exists url, params, v, c.
  - destruct (close_order_quantity env_tools (demo_broker Binance)
                (VStr "BTCUSDT") VNone (VInt 50) w0
                (get_positions env_tools (demo_broker Binance) w0).2
                btc_positions btc_position)
      as [_ H]; [done | vm_compute; reflexivity | vm_compute; reflexivity |].
    destruct (H (inject_Z 50)) as (url & params & H1 & H2 & H3 & H4);
      [reflexivity | by intros [=] | vm_compute; reflexivity
      | vm_compute; reflexivity |].
    exists url, params.
    split; [exact H1 |]. split; [exact H2 |]. split; [exact H3 |].
    apply H4; vm_compute; by intros [=].
Defined.

(** C10 as stated fails in two ways.  At zero: the adapter takes a zero
    [qty] or a zero [percentage] for an absent one, and the order closes
    the whole position of 3.5, not [min(0, 3.5) = 0] or
    [3.5 * 0 / 100 = 0].  In the last place: 7 percent of 3.5 is sent as
    0.24500000000000002, which is neither [3.5 * 7 / 100] nor the double
    nearest to it. *)
Lemma close_zero_quantity_counterexample :
  close_quantity (7 # 2) (VInt 0) VNone w0 = (inr (VFloat (7 # 2)), w0) ∧
  ¬ (7 # 2 == Qmin (inject_Z 0) (7 # 2))%Q ∧
  close_quantity (7 # 2) VNone (VInt 0) w0 = (inr (VFloat (7 # 2)), w0) ∧
  ¬ (7 # 2 == (7 # 2) * inject_Z 0 / 100)%Q ∧
  (∃ w',
     close_position env_tools (demo_broker Binance) (VStr "BTCUSDT")
       (VInt 0) VNone w0 =
     (inr (VDict [("order_id", VStr "42"); ("symbol", VStr "BTCUSDT");
                  ("status", VStr "NEW"); ("side", VStr "SELL");
                  ("qty", VFloat (7 # 2))]), w')) ∧
  close_quantity (7 # 2) VNone (VInt 7) w0 =
  (inr (VFloat (8827055269646173 # 36028797018963968)), w0) ∧
  ¬ (8827055269646173 # 36028797018963968 == (7 # 2) * inject_Z 7 / 100)%Q ∧
  ¬ (8827055269646173 # 36028797018963968
     == round_double ((7 # 2) * inject_Z 7 / 100))%Q.
Proof.
  split; [reflexivity |]. split; [by intros [=] |].
  split; [reflexivity |]. split; [by intros [=] |].
  split; [eexists; vm_compute; reflexivity |].
  split; [vm_compute; reflexivity |].
  split; vm_compute; by intros [=].
Qed.

End CloseQuantityFacts.

(** ** Request signing *)

Module SigningFacts.
Import Predicates DictFacts.
#[local] Open Scope list_scope.

#[local] Instance key_le_total : Total key_le.
Proof. intros x y. apply String.leb_total. Qed.

Lemma sorted_items_sorted params : Sorted key_le (sorted_items params).
Proof. apply Sorted_merge_sort, _. Qed.

Lemma sorted_items_perm params : sorted_items params ≡ₚ params.
Proof. apply merge_sort_Permutation. Qed.

Lemma bybit_request_events {A} E b (reply : list event → Exc A)
  method endpoint params signed w :
  events (bybit_make_request E b reply method endpoint params signed w).2 =
  events w ++
  [EHttp (if String.eqb method "GET" then "GET" else "POST")
     (bybit_base_url b +:+ endpoint)
     (if signed then bybit_sign_params E b (events w) params else params)].
Proof.
  unfold bybit_make_request, bind, get_events, emit, ask. reflexivity.
Qed.

Lemma binance_request_events {A} E b (reply : list event → Exc A)
  method endpoint params signed use_spot w :
  events
    (binance_make_request E b reply method endpoint params signed use_spot w).2
  = if String.eqb method "GET" || String.eqb method "POST"
       || String.eqb method "DELETE"
    then events w ++
         [EHttp method
            ((if use_spot then binance_spot_url b else binance_base_url b)
             +:+ endpoint)
            (if signed then binance_sign_params E b (events w) params
             else params)]
    else events w.
Proof.
  unfold binance_make_request, bind, get_events, emit, ask. simpl.
  by destruct (_ || _).
Qed.

(** C5, as the code has it.  A signed request carries, next to the
    caller's parameters, a timestamp and the receive window, and a
    signature that is the HMAC-SHA256 under the account's API secret of the
    [key=value] pairs joined by [&].  On Bybit the pairs (with the API key
    among them) are sorted by key.  On Binance they are in the order the
    dict holds them, which is the order they are sent in, not sorted. *)
Theorem signed_request_parameters (E : Env) (b : broker)
  (params : list (string * pyval)) (w : world) :
  (let payload :=
     dict_set "recv_window" (VInt recv_window)
       (dict_set "timestamp" (VInt (time_ms E (events w)))
          (dict_set "api_key" (VStr (api_key b)) params)) in
   (∀ A (reply : list event → Exc A) method endpoint,
      events (bybit_make_request E b reply method endpoint params true w).2 =
      events w ++
      [EHttp (if String.eqb method "GET" then "GET" else "POST")
         (bybit_base_url b +:+ endpoint)
         (bybit_sign_params E b (events w) params)]) ∧
   bybit_sign_params E b (events w) params =
   dict_set "sign"
     (VStr (hmac_sha256_hex E (api_secret b)
              (PyStr.join "&" (map (kv E) (sorted_items payload)))))
     payload ∧
   Sorted key_le (sorted_items payload) ∧
   sorted_items payload ≡ₚ payload ∧
   dict_get "timestamp" payload = Some (VInt (time_ms E (events w))) ∧
   dict_get "recv_window" payload = Some (VInt 5000)) ∧
  (let payload :=
     dict_set "recvWindow" (VInt recv_window)
       (dict_set "timestamp" (VInt (time_ms E (events w))) params) in
   (∀ A (reply : list event → Exc A) method endpoint use_spot,
      events
        (binance_make_request E b reply method endpoint params true use_spot
           w).2 =
      if String.eqb method "GET" || String.eqb method "POST"
         || String.eqb method "DELETE"
      then events w ++
           [EHttp method
              ((if use_spot then binance_spot_url b else binance_base_url b)
               +:+ endpoint)
              (binance_sign_params E b (events w) params)]
      else events w) ∧
   binance_sign_params E b (events w) params =
   dict_set "signature"
     (VStr (hmac_sha256_hex E (api_secret b)
              (PyStr.join "&" (map (kv E) payload))))
     payload ∧
   dict_get "timestamp" payload = Some (VInt (time_ms E (events w))) ∧
   dict_get "recvWindow" payload = Some (VInt 5000)).
Proof.
  split; cbv zeta.
  - split; [intros; apply bybit_request_events |].
    split; [reflexivity |].
    split; [apply sorted_items_sorted |].
    split; [apply sorted_items_perm |].
    split; [| apply dict_get_set_eq].
    rewrite dict_get_set_ne by done. apply dict_get_set_eq.
  - split; [intros; apply binance_request_events |].
    split; [reflexivity |].
    split; [| apply dict_get_set_eq].
    rewrite dict_get_set_ne by done. apply dict_get_set_eq.
Qed.

(** C5 as stated fails on Binance: the string that is signed for a request
    with a [symbol] parameter is not the serialisation sorted by key. *)
Lemma binance_signature_unsorted_counterexample :
  let params := [("symbol", VStr "BTCUSDT")] in
  let signed := binance_sign_params env_tools (demo_broker Binance) [] params in
  let payload := [("symbol", VStr "BTCUSDT");
                  ("timestamp", VInt 1700000000000);
                  ("recvWindow", VInt 5000)] in
  dict_get "signature" signed =
  Some (VStr (demo_hmac "secret"
                "symbol=BTCUSDT&timestamp=1700000000000&recvWindow=5000")) ∧
  PyStr.join "&" (map (kv env_tools) (sorted_items payload)) =
  "recvWindow=5000&symbol=BTCUSDT&timestamp=1700000000000" ∧
  dict_get "signature" signed ≠
  Some (VStr (demo_hmac "secret"
                (PyStr.join "&" (map (kv env_tools) (sorted_items payload))))).
Proof. repeat split; vm_compute; congruence. Qed.

End SigningFacts.

(** ** The conversation orchestrator *)

Module OrchestratorFacts.
Import Predicates FrameFacts ExecutorFacts.
#[local] Open Scope nat_scope.
#[local] Open Scope list_scope.

Lemma llm_calls_app l1 l2 : llm_calls (l1 ++ l2) = llm_calls l1 + llm_calls l2.
Proof. unfold llm_calls. by rewrite filter_app, length_app. Qed.

Lemma llm_calls_none new :
  Forall (λ ev, is_llm ev = false) new → llm_calls new = 0.
Proof.
  unfold llm_calls. induction 1 as [|ev new Hev _ IH]; [done |].
  rewrite filter_cons_False; [done | congruence].
Qed.

Lemma quiet_frame {A} (m : M A) : tool_frame m → quiet m.
Proof.
  intros H w. destruct (H w) as (new & -> & Hnew & _).
  rewrite llm_calls_app, (llm_calls_none _ Hnew). lia.
Qed.

Lemma quiet_bind {A B} (m : M A) (k : A → M B) :
  quiet m → (∀ a, quiet (k a)) → quiet (bind m k).
Proof.
  intros Hm Hk w. unfold bind. specialize (Hm w).
  destruct (m w) as [[e|a] w1]; simpl in *; [done |].
  by rewrite Hk.
Qed.

Lemma quiet_append_message m : quiet (append_message m).
Proof. by intros w. Qed.

Lemma at_most_quiet {A} (m : M A) k : quiet m → at_most k m.
Proof. intros H w. rewrite H. lia. Qed.

Lemma at_most_bind_quiet {A B} (m : M A) (f : A → M B) k :
  quiet m → (∀ a, at_most k (f a)) → at_most k (bind m f).
Proof.
  intros Hm Hf w. unfold bind. specialize (Hm w).
  destruct (m w) as [[e|a] w1]; simpl in *; [lia |].
  specialize (Hf a w1). lia.
Qed.

Lemma llm_calls_snoc_llm l backend history :
  llm_calls (l ++ [ELlm backend history]) = S (llm_calls l).
Proof.
  rewrite llm_calls_app.
  change (llm_calls [ELlm backend history]) with 1. lia.
Qed.

Lemma at_most_emit_llm {A} backend history (m : M A) k :
  at_most k m → at_most (S k) (bind (emit (ELlm backend history)) (λ _, m)).
Proof.
  intros Hm w. unfold bind, emit.
  specialize (Hm (with_events (events w ++ [ELlm backend history]) w)).
  change (events (with_events ?l w)) with l in Hm.
  rewrite llm_calls_snoc_llm in Hm. cbv beta iota. lia.
Qed.

Lemma frame_claude_run_tools E broker blocks :
  tool_frame (claude_run_tools E broker blocks).
Proof.
  induction blocks as [|[text|id name input] rest IH]; simpl.
  - apply frame_ret.
  - exact IH.
  - apply frame_bind; [apply frame_execute_tool | intros result].
    apply frame_bind; [apply frame_lift_exc | intros text].
    apply frame_bind; [exact IH | intros results]. apply frame_ret.
Qed.

Lemma quiet_claude_tool_turn E broker response :
  quiet (claude_tool_turn E broker response).
Proof.
  unfold claude_tool_turn.
  apply quiet_bind; [apply quiet_append_message | intros _].
  apply quiet_bind; [apply quiet_frame, frame_claude_run_tools | intros ?].
  apply quiet_append_message.
Qed.

Lemma quiet_deepseek_run_tools E broker calls :
  quiet (deepseek_run_tools E broker calls).
Proof.
  induction calls as [|call rest IH]; simpl; [by intros w |].
  apply quiet_bind; [apply quiet_frame, frame_lift_exc | intros args].
  apply quiet_bind; [apply quiet_frame, frame_execute_tool | intros result].
  apply quiet_bind; [apply quiet_frame, frame_lift_exc | intros text].
  apply quiet_bind; [apply quiet_append_message | intros _]. exact IH.
Qed.

Lemma quiet_deepseek_tool_turn E broker message :
  quiet (deepseek_tool_turn E broker message).
Proof.
  unfold deepseek_tool_turn.
  apply quiet_bind; [apply quiet_append_message | intros _].
  apply quiet_deepseek_run_tools.
Qed.

Lemma claude_turns_at_most E broker turns :
  at_most turns (claude_turns E broker turns).
Proof.
  induction turns as [|turns IH]; simpl.
  - by apply at_most_quiet.
  - apply at_most_bind_quiet; [by intros w | intros history].
    apply at_most_emit_llm.
    apply at_most_bind_quiet; [by intros w | intros response].
    destruct (String.eqb (stop_reason response) "end_turn");
      [by apply at_most_quiet |].
    destruct (String.eqb (stop_reason response) "tool_use"); [| exact IH].
    apply at_most_bind_quiet; [apply quiet_claude_tool_turn | by intros _].
Qed.

Lemma deepseek_turns_at_most E broker turns :
  at_most turns (deepseek_turns E broker turns).
Proof.
  induction turns as [|turns IH]; simpl.
  - by apply at_most_quiet.
  - apply at_most_bind_quiet; [by intros w | intros history].
    apply at_most_emit_llm.
    apply at_most_bind_quiet; [by intros w | intros message].
    destruct (dm_tool_calls message) eqn:Hc; [by apply at_most_quiet |].
    apply at_most_bind_quiet; [apply quiet_deepseek_tool_turn | by intros _].
Qed.

(** *** What one assistant turn with tool calls leaves in the messages *)

Lemma claude_run_tools_answers E broker blocks w :
  (∀ v, ∃ s, json_dumps E v = inr s) →
  ∃ results w',
    claude_run_tools E broker blocks w = (inr results, w') ∧
    claude_answers E broker w blocks results w' ∧
    map tool_use_id results = tool_use_ids blocks.
Proof.
  intros Hdumps. revert w.
  induction blocks as [|[text|id name input] rest IH]; intros w; simpl.
  - exists [], w. repeat split. constructor.
  - destruct (IH w) as (results & w' & Hrun & Hans & Hids).
    exists results, w'. repeat split; [done | by constructor | done].
  - destruct (execute_tool_total E broker name input w) as [result Hres].
    destruct (execute_tool E broker name input w) as [r w1] eqn:Hexec.
    simpl in Hres. subst r.
    destruct (Hdumps result) as [text Htext].
    destruct (IH w1) as (results & w' & Hrun & Hans & Hids).
    exists ({| tool_use_id := id; tr_content := text |} :: results), w'.
    split; [| split].
    + unfold bind at 1. rewrite Hexec. unfold bind at 1, lift_exc.
      rewrite Htext. unfold bind. by rewrite Hrun.
    + by econstructor.
    + simpl. by rewrite Hids.
Qed.

Lemma deepseek_run_tools_answers E broker calls w :
  (∀ v, ∃ s, json_dumps E v = inr s) →
  Forall (λ call, ∃ args, json_loads E (tc_arguments call) = inr args) calls →
  ∃ outs w',
    deepseek_run_tools E broker calls w = (inr tt, w') ∧
    deepseek_answers E broker w calls outs w' ∧
    messages w' = messages w ++ outs ∧
    Forall2 (λ call out, ∃ text, out = MTool (tc_id call) text) calls outs.
Proof.
  intros Hdumps Hloads. revert w.
  induction Hloads as [|call rest [args Hargs] _ IH]; intros w; simpl.
  - exists [], w. rewrite app_nil_r. repeat split; constructor.
  - destruct (execute_tool_total E broker (tc_name call) args w)
      as [result Hres].
    destruct (frame_execute_tool E broker (tc_name call) args w)
      as (new & _ & _ & Hmsg & _).
    destruct (execute_tool E broker (tc_name call) args w) as [r w1] eqn:Hexec.
    simpl in Hres, Hmsg. subst r.
    destruct (Hdumps result) as [text Htext].
    destruct (IH (with_messages (messages w1 ++ [MTool (tc_id call) text]) w1))
      as (outs & w' & Hrun & Hans & Hmsgs & Hall).
    exists (MTool (tc_id call) text :: outs), w'.
    split; [| split; [| split]].
    + unfold bind at 1, lift_exc. rewrite Hargs.
      unfold bind at 1. rewrite Hexec. unfold bind at 1. rewrite Htext.
      unfold bind at 1, append_message. exact Hrun.
    + by econstructor.
    + rewrite Hmsgs. simpl. rewrite Hmsg, <- app_assoc. done.
    + constructor; [by eexists | done].
Qed.

Lemma claude_answers_messages E broker w blocks results w' :
  claude_answers E broker w blocks results w' → messages w' = messages w.
Proof.
  induction 1 as [| |w id name input rest result w1 text outs w2 Hexec _ _ IH];
    [done | done |].
  destruct (frame_execute_tool E broker name input w) as (new & _ & _ & Hm & _).
  rewrite Hexec in Hm. simpl in Hm. congruence.
Qed.

(** A run of the tool-use blocks that returns has answered every block;
    one that raises was stopped by [json.dumps]. *)
Lemma claude_run_tools_returned E broker blocks w results w' :
  claude_run_tools E broker blocks w = (inr results, w') →
  claude_answers E broker w blocks results w' ∧
  map tool_use_id results = tool_use_ids blocks.
Proof.
  revert w results w'.
  induction blocks as [|[text|id name input] rest IH]; intros w results w';
    simpl.
  - intros [= <- <-]. split; [constructor | done].
  - intros H. destruct (IH _ _ _ H) as [Hans Hids].
    split; [by constructor | done].
  - unfold bind at 1.
    destruct (execute_tool E broker name input w) as [[e|result] w1] eqn:Hexec;
      [done |].
    unfold bind at 1, lift_exc.
    destruct (json_dumps E result) as [e|text] eqn:Htext; [done |].
    unfold bind at 1.
    destruct (claude_run_tools E broker rest w1) as [[e|outs] w2] eqn:Hrun;
      [done |].
    intros [= <- <-]. destruct (IH _ _ _ Hrun) as [Hans Hids].
    split; [by econstructor | simpl; by rewrite Hids].
Qed.

Lemma claude_run_tools_raised E broker blocks w e w' :
  claude_run_tools E broker blocks w = (inl e, w') →
  ∃ v, json_dumps E v = inl e.
Proof.
  revert w.
  induction blocks as [|[text|id name input] rest IH]; intros w; simpl.
  - done.
  - apply IH.
  - unfold bind at 1.
    destruct (execute_tool_total E broker name input w) as [result Hres].
    destruct (execute_tool E broker name input w) as [r w1]. simpl in Hres.
    subst r. unfold bind at 1, lift_exc.
    destruct (json_dumps E result) as [e'|text] eqn:Htext.
    + intros [= <- <-]. by exists result.
    + unfold bind at 1.
      destruct (claude_run_tools E broker rest w1) as [[e'|outs] w2] eqn:Hrun;
        [| done].
      intros [= <- <-]. by apply (IH w1).
Qed.

(** The same for the tool calls of a DeepSeek message, where a run that
    raises has answered the calls before the one it stopped at. *)
Lemma deepseek_run_tools_returned E broker calls w w' :
  deepseek_run_tools E broker calls w = (inr tt, w') →
  ∃ outs,
    deepseek_answers E broker w calls outs w' ∧
    messages w' = messages w ++ outs ∧
    Forall2 (λ call out, ∃ text, out = MTool (tc_id call) text) calls outs.
Proof.
  revert w. induction calls as [|call rest IH]; intros w; simpl.
  - intros [= <-]. exists []. rewrite app_nil_r. repeat split; constructor.
  - unfold bind at 1, lift_exc.
    destruct (json_loads E (tc_arguments call)) as [e|args] eqn:Hargs; [done |].
    unfold bind at 1.
    destruct (frame_execute_tool E broker (tc_name call) args w)
      as (new & _ & _ & Hmsg & _).
    destruct (execute_tool E broker (tc_name call) args w)
      as [[e|result] w1] eqn:Hexec; [done |].
    simpl in Hmsg. unfold bind at 1.
    destruct (json_dumps E result) as [e|text] eqn:Htext; [done |].
    unfold bind at 1, append_message. intros Hrun.
    destruct (IH _ Hrun) as (outs & Hans & Hmsgs & Hall).
    exists (MTool (tc_id call) text :: outs). split; [by econstructor |].
    split; [| constructor; [by eexists | done]].
    rewrite Hmsgs. simpl. rewrite Hmsg, <- app_assoc. done.
Qed.

Lemma deepseek_run_tools_raised E broker calls w e w' :
  deepseek_run_tools E broker calls w = (inl e, w') →
  ∃ answered call rest outs w1,
    calls = answered ++ call :: rest ∧
    deepseek_answers E broker w answered outs w1 ∧
    Forall2 (λ call out, ∃ text, out = MTool (tc_id call) text) answered outs ∧
    messages w' = messages w ++ outs ∧
    (json_loads E (tc_arguments call) = inl e ∨ ∃ v, json_dumps E v = inl e).
Proof.
  revert w. induction calls as [|call rest IH]; intros w; simpl; [done |].
  unfold bind at 1, lift_exc.
  destruct (json_loads E (tc_arguments call)) as [e'|args] eqn:Hargs.
  { intros [= <- <-]. exists [], call, rest, [], w.
    split; [done |]. split; [constructor |]. split; [constructor |].
    split; [by rewrite app_nil_r | by left]. }
  unfold bind at 1.
  destruct (execute_tool_total E broker (tc_name call) args w)
    as [result Hres].
  destruct (frame_execute_tool E broker (tc_name call) args w)
    as (new & _ & _ & Hmsg & _).
  destruct (execute_tool E broker (tc_name call) args w) as [r w1] eqn:Hexec.
  simpl in Hres, Hmsg. subst r. unfold bind at 1.
  destruct (json_dumps E result) as [e'|text] eqn:Htext.
  { intros [= <- <-]. exists [], call, rest, [], w.
    split; [done |]. split; [constructor |]. split; [constructor |].
    split; [by rewrite app_nil_r, Hmsg |]. right. by exists result. }
  unfold bind at 1, append_message. intros Hrun.
  destruct (IH _ Hrun)
    as (answered & call' & rest' & outs & w2 & -> & Hans & Hall & Hmsgs & Hwhy).
  exists (call :: answered), call', rest', (MTool (tc_id call) text :: outs), w2.
  split; [done |]. split; [by econstructor |].
  split; [constructor; [by eexists | done] |]. split; [| done].
  rewrite Hmsgs. simpl. rewrite Hmsg, <- app_assoc. done.
Qed.

(** C7, as the code has it.  A turn with several tool calls that runs to
    its end has run the executor on every call, in the order of the calls,
    and has appended one result per call, carrying the call's id, in that
    same order: under Protocol A one [tool_result] block per [tool_use]
    block, the blocks together in one user message after the assistant
    turn; under Protocol B one [role: tool] message per entry of
    [tool_calls], after the assistant message.  The turn runs to its end
    when every result serialises and, under Protocol B, every argument
    string decodes.  Otherwise [json.dumps] or [json.loads] raises, outside
    any handler, and the calls are not all answered: under Protocol A the
    message list ends with the assistant turn and holds no result at all;
    under Protocol B it holds the results of the calls before the one that
    failed, and nothing for that one and the ones after it. *)
Theorem tool_calls_answered_in_order (E : Env) (broker : option broker)
  (w : world) :
  (∀ response,
     let w1 := with_messages
                 (messages w ++ [MAssistantBlocks (content response)]) w in
     let turn := claude_tool_turn E broker response w in
     (∀ w3, turn = (inr tt, w3) →
        ∃ results w2,
          claude_answers E broker w1 (content response) results w2 ∧
          map tool_use_id results = tool_use_ids (content response) ∧
          w3 = with_messages
                 (messages w ++ [MAssistantBlocks (content response);
                                 MToolResults results]) w2) ∧
     (∀ e w3, turn = (inl e, w3) →
        (∃ v, json_dumps E v = inl e) ∧
        messages w3 = messages w ++ [MAssistantBlocks (content response)]) ∧
     ((∀ v, ∃ s, json_dumps E v = inr s) → ∃ w3, turn = (inr tt, w3))) ∧
  (∀ message,
     let w1 := with_messages (messages w ++ [MAssistantCalls message]) w in
     let turn := deepseek_tool_turn E broker message w in
     (∀ w3, turn = (inr tt, w3) →
        ∃ outs,
          deepseek_answers E broker w1 (dm_tool_calls message) outs w3 ∧
          Forall2 (λ call out, ∃ text, out = MTool (tc_id call) text)
            (dm_tool_calls message) outs ∧
          messages w3 = messages w ++ MAssistantCalls message :: outs) ∧
     (∀ e w3, turn = (inl e, w3) →
        ∃ answered call rest outs w2,
          dm_tool_calls message = answered ++ call :: rest ∧
          deepseek_answers E broker w1 answered outs w2 ∧
          Forall2 (λ call out, ∃ text, out = MTool (tc_id call) text)
            answered outs ∧
          messages w3 = messages w ++ MAssistantCalls message :: outs ∧
          (json_loads E (tc_arguments call) = inl e ∨
           ∃ v, json_dumps E v = inl e)) ∧
     ((∀ v, ∃ s, json_dumps E v = inr s) →
      Forall (λ call, ∃ args, json_loads E (tc_arguments call) = inr args)
        (dm_tool_calls message) →
      ∃ w3, turn = (inr tt, w3))).
Proof.
  split.
  - intros response w1 turn. subst turn w1.
    unfold claude_tool_turn, bind, append_message.
    set (w1 := with_messages _ w).
    destruct (frame_claude_run_tools E broker (content response) w1)
      as (new & _ & _ & Hmsg & _).
    split; [| split].
    + intros w3.
      destruct (claude_run_tools E broker (content response) w1)
        as [[e|results] w2] eqn:Hrun; [done |].
      intros [= <-].
      destruct (claude_run_tools_returned _ _ _ _ _ _ Hrun) as [Hans Hids].
      exists results, w2. split; [done |]. split; [done |].
      simpl in Hmsg. rewrite Hmsg. subst w1. simpl.
      by rewrite <- app_assoc.
    + intros e w3.
      destruct (claude_run_tools E broker (content response) w1)
        as [[e'|results] w2] eqn:Hrun; [| done].
      intros [= <- <-]. split; [| exact Hmsg].
      by apply (claude_run_tools_raised _ _ _ _ _ _ Hrun).
    + intros Hdumps.
      destruct (claude_run_tools_answers E broker (content response) w1
                  Hdumps) as (results & w2 & Hrun & _).
      rewrite Hrun. by eexists.
  - intros message w1 turn. subst turn w1.
    unfold deepseek_tool_turn, bind at 1, append_message.
    set (w1 := with_messages _ w).
    split; [| split].
    + intros w3 Hrun.
      destruct (deepseek_run_tools_returned _ _ _ _ _ Hrun)
        as (outs & Hans & Hmsgs & Hall).
      exists outs. split; [done |]. split; [done |].
      rewrite Hmsgs. subst w1. simpl. by rewrite <- app_assoc.
    + intros e w3 Hrun.
      destruct (deepseek_run_tools_raised _ _ _ _ _ _ Hrun)
        as (answered & call & rest & outs & w2 & Hc & Hans & Hall & Hmsgs
            & Hwhy).
      exists answered, call, rest, outs, w2.
      split; [done |]. split; [done |]. split; [done |]. split; [| done].
      rewrite Hmsgs. subst w1. simpl. by rewrite <- app_assoc.
    + intros Hdumps Hloads.
      destruct (deepseek_run_tools_answers E broker (dm_tool_calls message)
                  w1 Hdumps Hloads) as (outs & w2 & Hrun & _).
      by exists w2.
Qed.

(** On Binance, a turn of three calls whose second asks for the market
    clock.  The dictionary [get_market_status] returns holds [datetime]
    objects and [json.dumps] raises [TypeError] on it: under Protocol A no
    result is recorded, under Protocol B only that of the first call; the
    third call is not run (two adapter calls were made, not three).  With
    results that serialise (the Bybit environment) a turn of two calls
    runs to its end. *)
Lemma tool_calls_answered_in_order_witness :
  ((∃ v, json_dumps env_clock v = inl not_serializable) ∧
   messages (claude_tool_turn env_clock (Some (demo_broker Binance))
               clock_response w0).2
   = [MAssistantBlocks clock_blocks]) ∧
  (∃ answered call rest outs w2,
     clock_calls = answered ++ call :: rest ∧
     deepseek_answers env_clock (Some (demo_broker Binance))
       (with_messages [MAssistantCalls clock_message] w0) answered outs w2 ∧
     Forall2 (λ call out, ∃ text, out = MTool (tc_id call) text)
       answered outs ∧
     messages (deepseek_tool_turn env_clock (Some (demo_broker Binance))
                 clock_message w0).2
     = MAssistantCalls clock_message :: outs ∧
     (json_loads env_clock (tc_arguments call) = inl not_serializable ∨
      ∃ v, json_dumps env_clock v = inl not_serializable)) ∧
  (claude_tool_turn env_clock (Some (demo_broker Binance)) clock_response
     w0).1 = inl not_serializable ∧
  (deepseek_tool_turn env_clock (Some (demo_broker Binance)) clock_message
     w0).1 = inl not_serializable ∧
  messages (deepseek_tool_turn env_clock (Some (demo_broker Binance))
              clock_message w0).2
  = [MAssistantCalls clock_message; MTool "call_1" "[...]"] ∧
  List.length (events (claude_tool_turn env_clock (Some (demo_broker Binance))
                         clock_response w0).2) = 2 ∧
  List.length (events (deepseek_tool_turn env_clock
                         (Some (demo_broker Binance)) clock_message w0).2)
  = 2 ∧
  (∃ w3, claude_tool_turn env_tools (Some (demo_broker Bybit))
           {| stop_reason := "tool_use";
              content := [TextBlock "Checking.";
                          ToolUseBlock "toolu_1" "get_all_positions" ∅;
                          ToolUseBlock "toolu_2" "no_such_tool" ∅] |} w0
         = (inr tt, w3)) ∧
  (∃ w3, deepseek_tool_turn env_tools (Some (demo_broker Bybit))
           {| dm_content := VNone; dm_tool_calls := two_calls |} w0
         = (inr tt, w3)).
Proof.
  destruct (tool_calls_answered_in_order env_clock (Some (demo_broker Binance))
              w0) as [HA HB].
  destruct (tool_calls_answered_in_order env_tools (Some (demo_broker Bybit))
              w0) as [HA' HB'].
  split; [| split; [| split; [| split; [| split; [| split; [| split;
    [| split]]]]]]].
  - destruct (HA clock_response) as (_ & Hraise & _).
    apply (Hraise not_serializable). vm_compute. reflexivity.
  - destruct (HB clock_message) as (_ & Hraise & _).
    apply (Hraise not_serializable). vm_compute. reflexivity.
  - vm_compute. reflexivity.
  - vm_compute. reflexivity.
  - vm_compute. reflexivity.
  - vm_compute. reflexivity.
  - vm_compute. reflexivity.
  - destruct (HA' {| stop_reason := "tool_use";
                     content := [TextBlock "Checking.";
                                 ToolUseBlock "toolu_1" "get_all_positions" ∅;
                                 ToolUseBlock "toolu_2" "no_such_tool" ∅] |})
      as (_ & _ & Hret).
    apply Hret. intros v. eexists. reflexivity.
  - destruct (HB' {| dm_content := VNone; dm_tool_calls := two_calls |})
      as (_ & _ & Hret).
    apply Hret; [intros v; eexists; reflexivity |].
    repeat constructor; by eexists.
Defined.

(** *** The turn bound *)

Lemma claude_turns_exhaust E broker turns w :
  (∀ v, ∃ s, json_dumps E v = inr s) →
  (∀ evs, ∃ r, claude_create E evs = inr r ∧ stop_reason r ≠ "end_turn") →
  ∃ w', claude_turns E broker turns w = (inr (VStr "Max turns reached."), w') ∧
        llm_calls (events w') = llm_calls (events w) + turns.
Proof.
  intros Hdumps Hresp. revert w.
  induction turns as [|turns IH]; intros w.
  - exists w. split; [done | lia].
  - cbn [claude_turns]. unfold bind at 1, get_messages.
    unfold bind at 1, emit. unfold bind at 1, ask.
    set (w1 := with_events _ w).
    assert (llm_calls (events w1) = S (llm_calls (events w))) as Hw1
      by apply llm_calls_snoc_llm.
    destruct (Hresp (events w1)) as (r & -> & Hne).
    rewrite (proj2 (String.eqb_neq (stop_reason r) "end_turn") Hne).
    destruct (String.eqb (stop_reason r) "tool_use").
    + destruct (claude_run_tools_answers E broker (content r)
                  (with_messages (messages w1 ++ [MAssistantBlocks (content r)])
                     w1) Hdumps) as (results & w2 & Hrun & _).
      pose proof (quiet_claude_tool_turn E broker r w1) as Hq.
      unfold bind at 1.
      assert (claude_tool_turn E broker r w1 =
              (inr tt, with_messages (messages w2 ++ [MToolResults results])
                         w2)) as Hturn.
      { unfold claude_tool_turn, bind, append_message. by rewrite Hrun. }
      rewrite Hturn in Hq |- *. simpl in Hq.
      destruct (IH (with_messages (messages w2 ++ [MToolResults results]) w2))
        as (w' & -> & Hn).
      rewrite llm_calls_snoc_llm in Hq.
      exists w'. split; [done |]. simpl in Hn. lia.
    + destruct (IH w1) as (w' & -> & Hn). exists w'. split; [done | lia].
Qed.

Lemma deepseek_turns_exhaust E broker turns w :
  (∀ v, ∃ s, json_dumps E v = inr s) →
  (∀ evs, ∃ m, deepseek_create E evs = inr m ∧ dm_tool_calls m ≠ [] ∧
     Forall (λ call, ∃ args, json_loads E (tc_arguments call) = inr args)
       (dm_tool_calls m)) →
  ∃ w', deepseek_turns E broker turns w
        = (inr (VStr "Max turns reached."), w') ∧
        llm_calls (events w') = llm_calls (events w) + turns.
Proof.
  intros Hdumps Hresp. revert w.
  induction turns as [|turns IH]; intros w.
  - exists w. split; [done | lia].
  - cbn [deepseek_turns]. unfold bind at 1, get_messages.
    unfold bind at 1, emit. unfold bind at 1, ask.
    set (w1 := with_events _ w).
    assert (llm_calls (events w1) = S (llm_calls (events w))) as Hw1
      by apply llm_calls_snoc_llm.
    destruct (Hresp (events w1)) as (m & -> & Hne & Hloads).
    destruct (dm_tool_calls m) as [|call rest] eqn:Hcalls; [done |].
    destruct (deepseek_run_tools_answers E broker (dm_tool_calls m)
                (with_messages (messages w1 ++ [MAssistantCalls m]) w1)
                Hdumps) as (outs & w2 & Hrun & _); [by rewrite Hcalls |].
    pose proof (quiet_deepseek_tool_turn E broker m w1) as Hq.
    unfold bind at 1.
    assert (deepseek_tool_turn E broker m w1 = (inr tt, w2)) as Hturn.
    { unfold deepseek_tool_turn, bind, append_message. exact Hrun. }
    rewrite Hturn in Hq |- *. simpl in Hq.
    rewrite llm_calls_snoc_llm in Hq.
    destruct (IH w2) as (w' & -> & Hn).
    exists w'. split; [done | lia].
Qed.

(** What a run of the Claude loop returns or raises. *)
Lemma claude_turns_outcome E broker turns w :
  match claude_turns E broker turns w with
  | (inr v, w') =>
      (v = VStr "Max turns reached." ∧
       llm_calls (events w') = llm_calls (events w) + turns) ∨
      (∃ evs r, claude_create E evs = inr r ∧ stop_reason r = "end_turn" ∧
                v = VStr (first_text (content r)))
  | (inl e, w') =>
      (∃ evs, claude_create E evs = inl e) ∨ (∃ v, json_dumps E v = inl e)
  end.
Proof.
  revert w. induction turns as [|turns IH]; intros w.
  - left. split; [done | simpl; lia].
  - cbn [claude_turns]. unfold bind at 1, get_messages.
    unfold bind at 1, emit. unfold bind at 1, ask.
    set (w1 := with_events _ w).
    assert (llm_calls (events w1) = S (llm_calls (events w))) as Hw1
      by apply llm_calls_snoc_llm.
    destruct (claude_create E (events w1)) as [e|r] eqn:Hr.
    { left. by exists (events w1). }
    destruct (String.eqb_spec (stop_reason r) "end_turn") as [Hend|_].
    { right. by exists (events w1), r. }
    destruct (String.eqb (stop_reason r) "tool_use").
    + pose proof (quiet_claude_tool_turn E broker r w1) as Hq.
      unfold bind at 1.
      destruct (claude_tool_turn E broker r w1) as [[e|[]] w2] eqn:Hturn.
      * right. unfold claude_tool_turn, bind, append_message in Hturn.
        destruct (claude_run_tools E broker (content r) _)
          as [[e'|results] w3] eqn:Hrun; [| done].
        injection Hturn as <- <-.
        by apply (claude_run_tools_raised _ _ _ _ _ _ Hrun).
      * specialize (IH w2). cbn [snd] in Hq.
        destruct (claude_turns E broker turns w2) as [[e|v] w3]; [done |].
        destruct IH as [[-> Hn] | IH]; [left | by right].
        split; [done | lia].
    + specialize (IH w1).
      destruct (claude_turns E broker turns w1) as [[e|v] w3]; [done |].
      destruct IH as [[-> Hn] | IH]; [left | by right].
      split; [done | lia].
Qed.

(** What a run of the DeepSeek loop returns or raises. *)
Lemma deepseek_turns_outcome E broker turns w :
  match deepseek_turns E broker turns w with
  | (inr v, w') =>
      (v = VStr "Max turns reached." ∧
       llm_calls (events w') = llm_calls (events w) + turns) ∨
      (∃ evs m, deepseek_create E evs = inr m ∧ dm_tool_calls m = [] ∧
                v = dm_content m)
  | (inl e, w') =>
      (∃ evs, deepseek_create E evs = inl e) ∨
      (∃ text, json_loads E text = inl e) ∨ (∃ v, json_dumps E v = inl e)
  end.
Proof.
  revert w. induction turns as [|turns IH]; intros w.
  - left. split; [done | simpl; lia].
  - cbn [deepseek_turns]. unfold bind at 1, get_messages.
    unfold bind at 1, emit. unfold bind at 1, ask.
    set (w1 := with_events _ w).
    assert (llm_calls (events w1) = S (llm_calls (events w))) as Hw1
      by apply llm_calls_snoc_llm.
    destruct (deepseek_create E (events w1)) as [e|m] eqn:Hm.
    { left. by exists (events w1). }
    destruct (dm_tool_calls m) as [|call rest] eqn:Hcalls.
    { right. by exists (events w1), m. }
    pose proof (quiet_deepseek_tool_turn E broker m w1) as Hq.
    unfold bind at 1.
    destruct (deepseek_tool_turn E broker m w1) as [[e|[]] w2] eqn:Hturn.
    + right. unfold deepseek_tool_turn, bind at 1, append_message in Hturn.
      destruct (deepseek_run_tools_raised _ _ _ _ _ _ Hturn)
        as (_ & bad & _ & _ & _ & _ & _ & _ & _ & [Hl | Hd]);
        [left; by eexists | by right].
    + specialize (IH w2). cbn [snd] in Hq.
      destruct (deepseek_turns E broker turns w2) as [[e|v] w3]; [done |].
      destruct IH as [[-> Hn] | IH]; [left | by right].
      split; [done | lia].
Qed.

(** C6, as the code has it.  Each backend loop makes at most [max_turns]
    model round-trips whatever the model answers, and being a loop over
    [range(max_turns)] it always ends.  It ends in one of three ways: with
    the text of a final answer; with the fixed string
    [Max turns reached.], after exactly [max_turns] round-trips; or with an
    exception, raised by the backend, by [json.dumps] on a tool result or
    (DeepSeek) by [json.loads] on an argument string, none of which is
    inside a handler.  When no answer is final, every result serialises
    and every argument string decodes, the loop returns the fixed string.
    When the tools of the first answer cannot all be answered, the loop
    raises there instead, one round-trip made: with [max_turns = 1] the
    bound is reached and the outcome is an exception, not the fixed
    string. *)
Theorem orchestrator_turn_bound (E : Env) (broker : option broker)
  (max_turns : Z) (w : world) :
  let claude := _call_claude_with_tools E broker max_turns w in
  let deepseek := _call_deepseek_with_tools E broker max_turns w in
  llm_calls (events claude.2) ≤ llm_calls (events w) + Z.to_nat max_turns ∧
  llm_calls (events deepseek.2) ≤ llm_calls (events w) + Z.to_nat max_turns ∧
  match claude.1 with
  | inr v =>
      (v = VStr "Max turns reached." ∧
       llm_calls (events claude.2)
       = llm_calls (events w) + Z.to_nat max_turns) ∨
      (∃ evs r, claude_create E evs = inr r ∧ stop_reason r = "end_turn" ∧
                v = VStr (first_text (content r)))
  | inl e =>
      (∃ evs, claude_create E evs = inl e) ∨ (∃ v, json_dumps E v = inl e)
  end ∧
  match deepseek.1 with
  | inr v =>
      (v = VStr "Max turns reached." ∧
       llm_calls (events deepseek.2)
       = llm_calls (events w) + Z.to_nat max_turns) ∨
      (∃ evs m, deepseek_create E evs = inr m ∧ dm_tool_calls m = [] ∧
                v = dm_content m)
  | inl e =>
      (∃ evs, deepseek_create E evs = inl e) ∨
      (∃ text, json_loads E text = inl e) ∨ (∃ v, json_dumps E v = inl e)
  end ∧
  ((∀ v, ∃ s, json_dumps E v = inr s) →
   ((∀ evs, ∃ r, claude_create E evs = inr r ∧ stop_reason r ≠ "end_turn") →
    claude.1 = inr (VStr "Max turns reached.") ∧
    llm_calls (events claude.2) = llm_calls (events w) + Z.to_nat max_turns) ∧
   ((∀ evs, ∃ m, deepseek_create E evs = inr m ∧ dm_tool_calls m ≠ [] ∧
       Forall (λ call, ∃ args, json_loads E (tc_arguments call) = inr args)
         (dm_tool_calls m)) →
    deepseek.1 = inr (VStr "Max turns reached.") ∧
    llm_calls (events deepseek.2)
    = llm_calls (events w) + Z.to_nat max_turns)) ∧
  ((0 < max_turns)%Z →
   let asked backend :=
     with_events (events w ++ [ELlm backend (messages w)]) w in
   (∀ r e w',
      claude_create E (events (asked "claude")) = inr r →
      stop_reason r = "tool_use" →
      claude_tool_turn E broker r (asked "claude") = (inl e, w') →
      claude = (inl e, w') ∧
      llm_calls (events w') = llm_calls (events w) + 1) ∧
   (∀ m e w',
      deepseek_create E (events (asked "deepseek")) = inr m →
      dm_tool_calls m ≠ [] →
      deepseek_tool_turn E broker m (asked "deepseek") = (inl e, w') →
      deepseek = (inl e, w') ∧
      llm_calls (events w') = llm_calls (events w) + 1)).
Proof.
  cbv zeta. unfold _call_claude_with_tools, _call_deepseek_with_tools.
  split; [apply claude_turns_at_most |].
  split; [apply deepseek_turns_at_most |].
  split; [| split; [| split]].
  - pose proof (claude_turns_outcome E broker (Z.to_nat max_turns) w) as H.
    by destruct (claude_turns E broker (Z.to_nat max_turns) w) as [[e|v] w'].
  - pose proof (deepseek_turns_outcome E broker (Z.to_nat max_turns) w) as H.
    by destruct (deepseek_turns E broker (Z.to_nat max_turns) w)
      as [[e|v] w'].
  - intros Hdumps. split; intros Hresp.
    + destruct (claude_turns_exhaust E broker (Z.to_nat max_turns) w Hdumps
                  Hresp) as (w' & -> & Hn). by split.
    + destruct (deepseek_turns_exhaust E broker (Z.to_nat max_turns) w Hdumps
                  Hresp) as (w' & -> & Hn). by split.
  - intros Hpos.
    destruct (Z.to_nat max_turns) as [|turns] eqn:Hturns; [lia |].
    split.
    + intros r e w' Hr Hstop Hturn.
      pose proof (quiet_claude_tool_turn E broker r
                    (with_events (events w ++ [ELlm "claude" (messages w)]) w))
        as Hq.
      rewrite Hturn in Hq. simpl in Hq.
      rewrite llm_calls_snoc_llm in Hq. split; [| lia].
      cbn [claude_turns]. unfold bind at 1, get_messages.
      unfold bind at 1, emit. unfold bind at 1, ask.
      rewrite Hr, Hstop.
      change (String.eqb "tool_use" "end_turn") with false.
      change (String.eqb "tool_use" "tool_use") with true. cbv iota.
      unfold bind at 1. by rewrite Hturn.
    + intros m e w' Hm Hcalls Hturn.
      pose proof (quiet_deepseek_tool_turn E broker m
                    (with_events (events w ++ [ELlm "deepseek" (messages w)])
                       w)) as Hq.
      rewrite Hturn in Hq. simpl in Hq.
      rewrite llm_calls_snoc_llm in Hq. split; [| lia].
      cbn [deepseek_turns]. unfold bind at 1, get_messages.
      unfold bind at 1, emit. unfold bind at 1, ask.
      rewrite Hm.
      destruct (dm_tool_calls m) as [|call rest]; [done |].
      unfold bind at 1. by rewrite Hturn.
Qed.

(** On Binance with a budget of one turn, the model asks for the market
    clock: the round-trip is made, [json.dumps] raises [TypeError] on the
    result, and the loop ends with that exception instead of the fixed
    string.  With results that serialise (the Bybit environment) and a
    budget of three turns: three round-trips each, then the fixed
    string. *)
Lemma orchestrator_turn_bound_witness :
  (_call_claude_with_tools env_clock (Some (demo_broker Binance)) 1 w0).1
  = inl not_serializable ∧
  llm_calls
    (events (_call_claude_with_tools env_clock (Some (demo_broker Binance)) 1
               w0).2) = 1 ∧
  (_call_deepseek_with_tools env_clock (Some (demo_broker Binance)) 1 w0).1
  = inl not_serializable ∧
  llm_calls
    (events (_call_deepseek_with_tools env_clock (Some (demo_broker Binance))
               1 w0).2) = 1 ∧
  (_call_claude_with_tools env_tools (Some (demo_broker Bybit)) 3 w0).1
  = inr (VStr "Max turns reached.") ∧
  llm_calls
    (events (_call_claude_with_tools env_tools (Some (demo_broker Bybit)) 3
               w0).2) = 3 ∧
  (_call_deepseek_with_tools env_tools (Some (demo_broker Bybit)) 3 w0).1
  = inr (VStr "Max turns reached.") ∧
  llm_calls
    (events (_call_deepseek_with_tools env_tools (Some (demo_broker Bybit)) 3
               w0).2) = 3.
Proof.
  destruct (orchestrator_turn_bound env_clock (Some (demo_broker Binance)) 1
              w0) as (_ & _ & _ & _ & _ & Hbug).
  destruct (Hbug eq_refl) as [HbugC HbugD].
  destruct (HbugC clock_response not_serializable
              (claude_tool_turn env_clock (Some (demo_broker Binance))
                 clock_response
                 (with_events [ELlm "claude" []] w0)).2)
    as [HC1 HC2]; [reflexivity | reflexivity | vm_compute; reflexivity |].
  destruct (HbugD clock_message not_serializable
              (deepseek_tool_turn env_clock (Some (demo_broker Binance))
                 clock_message
                 (with_events [ELlm "deepseek" []] w0)).2)
    as [HD1 HD2]; [reflexivity | discriminate | vm_compute; reflexivity |].
  destruct (orchestrator_turn_bound env_tools (Some (demo_broker Bybit)) 3 w0)
    as (_ & _ & _ & _ & H & _).
  destruct H as [HC HD]; [intros v; eexists; reflexivity |].
  destruct HC as [HC3 HC4].
  { intros evs. eexists. split; [reflexivity | discriminate]. }
  destruct HD as [HD3 HD4].
  { intros evs. eexists. split; [reflexivity |]. split; [discriminate |].
    repeat constructor; by eexists. }
  rewrite HC1, HD1.
  repeat split; try assumption.
Defined.

End OrchestratorFacts.

(** ** The autotrading loop *)

Module SchedulerFacts.
Import Predicates.
#[local] Open Scope list_scope.

Lemma sleep_sixty w :
  py_sleep (VInt 60) w = (inr tt, with_events (events w ++ [ESleep 60]) w).
Proof. reflexivity. Qed.

Lemma iteration_raised E srv w e w1 :
  iteration_body E srv w = (inl e, w1) →
  iteration E srv w =
  (inr tt,
   {| events := events w1 ++ [ESleep 60];
      logs := append_log
                {| timestamp := now_iso E w1;
                   log_message := "Auto-trading error: " +:+ exn_str e;
                   log_type := "error" |} (logs w1);
      memory_file := memory_file w1;
      messages := messages w1 |}).
Proof. intros H. unfold iteration, try_except. rewrite H. reflexivity. Qed.

Lemma iteration_returned E srv w w1 :
  iteration_body E srv w = (inr tt, w1) → iteration E srv w = (inr tt, w1).
Proof. intros H. unfold iteration, try_except. by rewrite H. Qed.

Lemma iteration_total E srv : never_raises (iteration E srv).
Proof.
  intros w. destruct (iteration_body E srv w) as [[e|[]] w1] eqn:H.
  - rewrite (iteration_raised _ _ _ _ _ H). by eexists.
  - rewrite (iteration_returned _ _ _ _ H). by eexists.
Qed.

Lemma loop_step_status E srv w :
  (loop_step E srv w).1 = if autotrading_active E w then Running else Ended.
Proof.
  unfold loop_step. destruct (iteration_total E srv w) as [[] Hit].
  destruct (autotrading_active E w); [| done].
  by destruct (iteration E srv w) as [[?|[]] ?].
Qed.

Lemma loop_run_not_died E srv fuel w e : (loop_run E srv fuel w).1 ≠ Died e.
Proof.
  revert w. induction fuel as [|fuel IH]; intros w; [done |].
  cbn [loop_run]. pose proof (loop_step_status E srv w) as Hs.
  destruct (loop_step E srv w) as [[| |e'] w']; simpl in Hs; [apply IH | done |].
  by destruct (autotrading_active E w).
Qed.

Lemma loop_run_ended E srv fuel w w' :
  loop_run E srv fuel w = (Ended, w') →
  ∃ passes w1,
    (passes < fuel)%nat ∧ loop_run E srv passes w = (Running, w1) ∧
    autotrading_active E w1 = false ∧
    w' = (add_autotrading_log E "Auto-trading loop ended" "info" w1).2.
Proof.
  revert w. induction fuel as [|fuel IH]; intros w; [done |].
  cbn [loop_run]. pose proof (loop_step_status E srv w) as Hs.
  destruct (loop_step E srv w) as [[| |e'] w1] eqn:Hstep; simpl in Hs.
  - intros H. destruct (IH _ H) as (passes & w2 & Hlt & Hrun & Hflag & ->).
    exists (S passes), w2. split; [lia |]. split; [| done].
    cbn [loop_run]. by rewrite Hstep.
  - intros [= <-]. exists 0%nat, w. split; [lia |]. split; [done |].
    unfold loop_step in Hstep.
    destruct (autotrading_active E w); [done |].
    by injection Hstep as <-.
  - by destruct (autotrading_active E w).
Qed.

(** C9, as the code has it.  An iteration of the autotrading loop never
    lets an exception out: when its body raises, the error is appended to
    the audit log, the worker sleeps, and the iteration ends normally, so
    the loop goes on; the loop is left only when the flag is found cleared
    at the top of a pass, never through an exception.  The sleep after an
    exception is a fixed 60 seconds, not 30, and is independent of the
    configured interval. *)
Theorem autotrading_exception_fallback (E : Env) (srv : server) (w : world) :
  (∃ w', iteration E srv w = (inr tt, w')) ∧
  (∀ e w1, iteration_body E srv w = (inl e, w1) →
     iteration E srv w =
     (inr tt,
      {| events := events w1 ++ [ESleep 60];
         logs := append_log
                   {| timestamp := now_iso E w1;
                      log_message := "Auto-trading error: " +:+ exn_str e;
                      log_type := "error" |} (logs w1);
         memory_file := memory_file w1;
         messages := messages w1 |})) ∧
  (loop_step E srv w).1 =
    (if autotrading_active E w then Running else Ended) ∧
  (∀ fuel e, (loop_run E srv fuel w).1 ≠ Died e) ∧
  (∀ fuel w', loop_run E srv fuel w = (Ended, w') →
     ∃ passes w1,
       (passes < fuel)%nat ∧ loop_run E srv passes w = (Running, w1) ∧
       autotrading_active E w1 = false ∧
       w' = (add_autotrading_log E "Auto-trading loop ended" "info" w1).2).
Proof.
  destruct (iteration_total E srv w) as [[] Hit].
  split; [| split; [| split; [| split]]].
  - exists (iteration E srv w).2. by destruct (iteration E srv w) as [[?|[]] ?].
  - intros e w1. apply iteration_raised.
  - apply loop_step_status.
  - intros fuel e. apply loop_run_not_died.
  - intros fuel w'. apply loop_run_ended.
Qed.

(** With a venue that is down, the account query raises: the error is
    logged, the worker sleeps 60 seconds and keeps running. *)
Lemma autotrading_exception_fallback_witness :
  iteration env_down (demo_server Bybit "claude") w0 =
  (inr tt,
   {| events := [EOpaque "Bybit.get_account" []; ESleep 60];
      logs := [{| timestamp := "2025-01-01T00:00:00";
                  log_message :=
                    "Auto-trading error: 503 Server Error: Service Unavailable";
                  log_type := "error" |}];
      memory_file := None;
      messages := [] |}) ∧
  (loop_step env_down (demo_server Bybit "claude") w0).1 = Running.
Proof.
  destruct (autotrading_exception_fallback env_down
              (demo_server Bybit "claude") w0) as (_ & H & Hrun & _).
  split.
  - apply (H (mk_exn HTTPError "503 Server Error: Service Unavailable")
             (with_events [EOpaque "Bybit.get_account" []] w0)).
    vm_compute. reflexivity.
  - exact Hrun.
Defined.

End SchedulerFacts.

(** ** Positions and the orders that close them *)

Module PositionFacts.
Import Requests FrameFacts DictFacts CloseFacts CloseQuantityFacts
  SigningFacts.
#[local] Open Scope list_scope.

Lemma Qlt_bool_true (x y : Q) : Qlt_bool x y = true → (x < y)%Q.
Proof.
  unfold Qlt_bool. intros H. apply Qnot_le_lt. intros Hle%Qle_bool_iff.
  rewrite Hle in H. discriminate.
Qed.

Lemma Qlt_bool_false (x y : Q) : Qlt_bool x y = false → (y <= x)%Q.
Proof.
  unfold Qlt_bool. intros H. apply Qle_bool_iff.
  by destruct (Qle_bool y x).
Qed.

Lemma bybit_build_positions_sides l ps :
  bybit_build_positions l = inr ps →
  Forall (λ p, side_agrees p ∧ asset_class p = "crypto_futures") ps.
Proof.
  revert ps. induction l as [|pos rest IH]; intros ps; simpl.
  - intros [= <-]. constructor.
  - destruct (Qlt_bool 0 (bp_size pos)) eqn:Hsz; [| by apply IH].
    destruct (bp_symbol pos); [| done].
    destruct (Qeq_bool _ 0); [done |].
    destruct (bybit_build_positions rest) as [e|ps'] eqn:Hrest; [done |].
    intros [= <-]. constructor; [| by apply IH].
    apply Qlt_bool_true in Hsz. split; [| done].
    unfold side_agrees. simpl.
    destruct (String.eqb (bp_side pos) "Buy"); simpl.
    + by left.
    + right. split; [done |].
      apply (Qopp_lt_compat 0 (bp_size pos)) in Hsz. exact Hsz.
Qed.

Lemma binance_build_positions_sides l ps :
  binance_build_positions l = inr ps →
  Forall (λ p, side_agrees p ∧ asset_class p = "crypto_futures") ps.
Proof.
  revert ps. induction l as [|pos rest IH]; intros ps; simpl.
  - intros [= <-]. constructor.
  - destruct (Qeq_bool (np_positionAmt pos) 0) eqn:Hz; simpl; [by apply IH |].
    destruct (np_symbol pos); [| done].
    destruct (_ && _); [done |].
    destruct (binance_build_positions rest) as [e|ps'] eqn:Hrest; [done |].
    intros [= <-]. constructor; [| by apply IH].
    split; [| done]. unfold side_agrees. simpl.
    destruct (Qlt_bool 0 (np_positionAmt pos)) eqn:Hs.
    + left. split; [done |]. by apply Qlt_bool_true.
    + right. split; [done |]. apply Qlt_bool_false in Hs.
      apply Qle_lt_or_eq in Hs as [Hs|Hs]; [done |].
      apply Qeq_bool_neq in Hz. by destruct Hz.
Qed.

Lemma get_positions_sides E b w ps w' :
  kind b ≠ Alpaca →
  get_positions E b w = (inr ps, w') →
  Forall (λ p, side_agrees p ∧ asset_class p = "crypto_futures") ps.
Proof.
  intros Hk. unfold get_positions.
  destruct (kind b); [done | |].
  - unfold bind.
    destruct (bybit_make_request _ _ _ _ _ _ _ w) as [[e|l] w1]; [done |].
    unfold lift_exc. intros [= H _]. by eapply bybit_build_positions_sides.
  - unfold bind.
    destruct (binance_make_request _ _ _ _ _ _ _ _ w) as [[e|l] w1]; [done |].
    unfold lift_exc. intros [= H _]. by eapply binance_build_positions_sides.
Qed.

(** A position query on Bybit or Binance is one signed GET, whatever the
    venue answers. *)
Lemma get_positions_request E b w :
  kind b ≠ Alpaca →
  events (get_positions E b w).2 =
  events w ++ [EHttp "GET" (venue_url b (positions_endpoint (kind b)))
                 (sign_params E b (events w) [])].
Proof.
  intros Hk. unfold get_positions, venue_url, sign_params.
  destruct (kind b); [done | |];
    unfold bind, bybit_make_request, binance_make_request, bind, get_events,
      emit, ask, lift_exc; simpl.
  - destruct (bybit_positions_reply E _); reflexivity.
  - destruct (binance_positions_reply E _); reflexivity.
Qed.

(** X1.  Every position the Bybit and the Binance adapters report is an
    open one whose side and signed quantity agree: a long position has a
    positive quantity, a short one a negative quantity, none is flat; and
    each one is tagged as a crypto futures position. *)
Theorem positions_side_matches_sign (E : Env) (b : broker) (w w' : world)
  (ps : list position) :
  kind b ≠ Alpaca →
  get_positions E b w = (inr ps, w') →
  Forall (λ p, side_agrees p ∧ ¬ (qty p == 0)%Q ∧
               asset_class p = "crypto_futures") ps.
Proof.
  intros Hk Hps. eapply Forall_impl; [by eapply get_positions_sides |].
  intros p [Hs Hc]. repeat split; try done.
  intros Hz. destruct Hs as [[_ H]|[_ H]]; rewrite Hz in H;
    by apply Qlt_irrefl in H.
Qed.

Lemma positions_side_matches_sign_witness :
  Forall (λ p, side_agrees p ∧ ¬ (qty p == 0)%Q ∧
               asset_class p = "crypto_futures") btc_positions.
Proof.
  apply (positions_side_matches_sign env_tools (demo_broker Binance) w0
           (get_positions env_tools (demo_broker Binance) w0).2).
  - done.
  - vm_compute. reflexivity.
Defined.

(** X2.  Closing a symbol for which the Bybit or Binance account holds no
    position: the executor answers with the error
    [No position found for <symbol>], and the positions query is the only
    request that was made, so no order was sent. *)
Theorem close_without_position (E : Env) (b : broker)
  (arguments : gmap string pyval) (sym : pyval) (w w1 : world)
  (ps : list position) :
  kind b ≠ Alpaca →
  arguments !! "symbol" = Some sym →
  get_positions E b w = (inr ps, w1) →
  find_position ps sym = None →
  execute_tool E (Some b) "close_position" arguments w =
  (inr (error_result ("No position found for " +:+ py_str E sym)), w1) ∧
  events w1 =
  events w ++ [EHttp "GET" (venue_url b (positions_endpoint (kind b)))
                 (sign_params E b (events w) [])].
Proof.
  intros Hk Hsym Hps Hfind. split.
  - unfold execute_tool, try_except, dispatch.
    cbv beta iota delta [String.eqb Ascii.eqb Bool.eqb].
    unfold getitem. rewrite Hsym. unfold bind at 1, ret at 1.
    unfold close_position.
    destruct (kind b); [done | |].
    + unfold bybit_close_position, bind. by rewrite Hps, Hfind.
    + unfold binance_close_position, bind. by rewrite Hps, Hfind.
  - pose proof (get_positions_request E b w Hk) as H.
    by rewrite Hps in H.
Qed.

Lemma close_without_position_witness :
  execute_tool env_tools (Some (demo_broker Bybit)) "close_position"
    (<["symbol" := VStr "ETHUSDT"]> ∅) w0 =
  (inr (error_result "No position found for ETHUSDT"),
   (get_positions env_tools (demo_broker Bybit) w0).2) ∧
  events (get_positions env_tools (demo_broker Bybit) w0).2 =
  events w0 ++ [EHttp "GET" (venue_url (demo_broker Bybit)
                               (positions_endpoint Bybit))
                  (sign_params env_tools (demo_broker Bybit) (events w0) [])].
Proof.
  apply (close_without_position env_tools (demo_broker Bybit)
           (<["symbol" := VStr "ETHUSDT"]> ∅) (VStr "ETHUSDT") w0 _
           (match bybit_build_positions [btc_on_bybit] with
            | inr ps => ps | inl _ => [] end)).
  - done.
  - vm_compute. reflexivity.
  - vm_compute. reflexivity.
  - vm_compute. reflexivity.
Defined.

(** X3.  A close on Bybit or Binance is an order against the position:
    once the position is found and the quantity computed, the one order
    request names the symbol that was asked for and sells a long position
    (positive quantity) and buys back a short one (negative quantity). *)
Theorem close_order_opposes_position (E : Env) (b : broker)
  (sym qty percentage : pyval) (w w1 : world) (ps : list position)
  (p : position) (v : pyval) :
  kind b ≠ Alpaca →
  get_positions E b w = (inr ps, w1) →
  find_position ps sym = Some p →
  close_quantity (Qabs (Adapters.qty p)) qty percentage w1 = (inr v, w1) →
  ∃ params,
    events (close_position E b sym qty percentage w).2 =
    events w1 ++ [EHttp "POST" (venue_url b (order_endpoint (kind b))) params]
    ∧ dict_get "symbol" params = Some sym
    ∧ dict_get "side" params
      = Some (VStr (side_word (kind b) (Qlt_bool (Adapters.qty p) 0)))
    ∧ ((0 < Adapters.qty p)%Q ∨ (Adapters.qty p < 0)%Q).
Proof.
  intros Hk Hpos Hfind Hq.
  assert (side_agrees p) as Hside.
  { pose proof (get_positions_sides E b w ps w1 Hk Hpos) as Hall.
    rewrite Forall_forall in Hall.
    destruct sym as [| | | |s| |]; try done. simpl in Hfind.
    apply find_some in Hfind as [Hin _].
    apply list_elem_of_In in Hin. by destruct (Hall p Hin). }
  assert (String.eqb (side p) "long" = negb (Qlt_bool (Adapters.qty p) 0)
          ∧ ((0 < Adapters.qty p)%Q ∨ (Adapters.qty p < 0)%Q)) as [Hw Hsign].
  { destruct Hside as [[-> H]|[-> H]]; (split; [| tauto]); simpl.
    - unfold Qlt_bool. apply Qlt_le_weak, Qle_bool_iff in H. by rewrite H.
    - unfold Qlt_bool. destruct (Qle_bool 0 (Adapters.qty p)) eqn:Hle; [| done].
      apply Qle_bool_iff in Hle. by apply Qle_not_lt in Hle. }
  unfold close_position, venue_url, side_word.
  destruct (kind b) eqn:K; [done | |].
  - unfold bybit_close_position, bind at 1. rewrite Hpos, Hfind.
    unfold bind at 1. rewrite Hq.
    unfold bybit_make_request, bind, get_events, emit, ask. simpl.
    eexists. split; [| split; [| split]].
    + by destruct (bybit_order_reply E _).
    + rewrite bybit_sign_params_get by done. reflexivity.
    + rewrite bybit_sign_params_get by done. simpl. rewrite Hw.
      by destruct (Qlt_bool _ _).
    + done.
  - unfold binance_close_position, bind at 1. rewrite Hpos, Hfind.
    unfold bind at 1. rewrite Hq.
    unfold binance_make_request, bind, get_events, emit, ask. simpl.
    eexists. split; [| split; [| split]].
    + by destruct (binance_order_reply E _).
    + rewrite binance_sign_params_get by done. reflexivity.
    + rewrite binance_sign_params_get by done. simpl. rewrite Hw.
      by destruct (Qlt_bool _ _).
    + done.
Qed.

Lemma close_order_opposes_position_witness :
  ∃ params,
    events (close_position env_tools (demo_broker Binance) (VStr "BTCUSDT")
              VNone VNone w0).2 =
    events (get_positions env_tools (demo_broker Binance) w0).2
    ++ [EHttp "POST" (venue_url (demo_broker Binance) (order_endpoint Binance))
          params]
    ∧ dict_get "symbol" params = Some (VStr "BTCUSDT")
    ∧ dict_get "side" params
      = Some (VStr (side_word Binance (Qlt_bool (Adapters.qty btc_position) 0)))
    ∧ ((0 < Adapters.qty btc_position)%Q ∨ (Adapters.qty btc_position < 0)%Q).
Proof.
  apply (close_order_opposes_position env_tools (demo_broker Binance)
           (VStr "BTCUSDT") VNone VNone w0
           (get_positions env_tools (demo_broker Binance) w0).2
           btc_positions btc_position (VFloat (7 # 2))).
  - done.
  - vm_compute. reflexivity.
  - vm_compute. reflexivity.
  - vm_compute. reflexivity.
Defined.

End PositionFacts.

(** ** Market orders on the derivatives venues *)

Module OrderFacts.
Import Requests FrameFacts DictFacts FloatFacts CloseFacts CloseQuantityFacts
  SigningFacts LeverageFacts SymbolsFacts PositionFacts.
#[local] Open Scope list_scope.

Lemma sign_params_get E b evs params k :
  k ≠ "api_key" → k ≠ "timestamp" → k ≠ "recv_window" → k ≠ "sign" →
  k ≠ "recvWindow" → k ≠ "signature" →
  dict_get k (sign_params E b evs params) = dict_get k params.
Proof.
  intros. unfold sign_params.
  destruct (kind b);
    [apply bybit_sign_params_get | apply bybit_sign_params_get
    | apply binance_sign_params_get]; done.
Qed.

Lemma wants_leverage_int (L : Z) :
  wants_leverage (VInt L) = ret (1 <? L)%Z.
Proof.
  unfold wants_leverage. simpl. change 1%Q with (inject_Z 1).
  rewrite py_gt_num_int.
  destruct (L =? 0)%Z eqn:H; simpl; [| done].
  apply Z.eqb_eq in H. by subst.
Qed.


Lemma bind_ret {A B} (a : A) (k : A → M B) : bind (ret a) k = k a.
Proof. reflexivity. Qed.

(** What a computation sends first stays first when more follows. *)
Lemma first_event_bind {A B} (m : M A) (k : A → M B) w ev r :
  events (m w).2 = events w ++ ev :: r →
  (∀ a, tool_frame (k a)) →
  ∃ rest, events (bind m k w).2 = events w ++ ev :: rest.
Proof.
  intros Hm Hk. unfold bind.
  destruct (m w) as [[e|a] w1]; simpl in *; [by exists r |].
  destruct (Hk a w1) as (new & Hev & _).
  exists (r ++ new). rewrite Hev, Hm, <- app_assoc. done.
Qed.

(** [place_crypto_order] on a symbol string with an integer leverage, up
    to the leverage request. *)
Lemma place_crypto_order_head E b s side qty notional L :
  kind b ≠ Alpaca →
  ∃ k : unit → M pyval,
    (∀ a, tool_frame (k a)) ∧
    place_crypto_order E b (VStr s) side qty notional (VInt L) =
    bind (if (1 <? L)%Z then
            set_leverage E b (VStr (normalize_symbol (kind b) s "crypto"))
              (VInt L)
          else ret tt) k.
Proof.
  intros Hk. unfold place_crypto_order, set_leverage.
  destruct (kind b) eqn:K; [done | |].
  - unfold bybit_place_crypto_order, normalize_crypto. rewrite K.
    unfold as_str at 1. rewrite !bind_ret, wants_leverage_int, bind_ret.
    eexists. split; [| reflexivity]. intros a. cbv beta. frame.
  - unfold binance_place_crypto_order, normalize_crypto. rewrite K.
    unfold as_str at 1. rewrite !bind_ret, wants_leverage_int, bind_ret.
    eexists. split; [| reflexivity]. intros a. cbv beta. frame.
Qed.

Lemma leverage_request_events E b s L w :
  kind b ≠ Alpaca →
  let w1 :=
    with_events
      (events w ++
       [EHttp "POST" (venue_url b (leverage_endpoint (kind b)))
          (sign_params E b (events w)
             [("symbol", VStr (normalize_symbol (kind b) s "crypto"));
              ("leverage", VInt L)])]) w in
  set_leverage E b (VStr (normalize_symbol (kind b) s "crypto")) (VInt L) w
  = (leverage_reply E (kind b) (events w1), w1).
Proof.
  intros Hk. unfold set_leverage, venue_url, sign_params, leverage_reply.
  destruct (kind b); done.
Qed.

(** X4.  An order with a leverage above one on Bybit or Binance starts
    with the signed leverage request: it is the first call the adapter
    makes, it carries the normalised symbol and the requested leverage
    unchanged, and whatever else the order sends comes after it. *)
Theorem leverage_request_precedes_order (E : Env) (b : broker) (s : string)
  (side qty notional : pyval) (L : Z) (w : world) :
  kind b ≠ Alpaca → (1 < L)%Z →
  ∃ params rest,
    events (place_crypto_order E b (VStr s) side qty notional (VInt L) w).2 =
    events w ++
    EHttp "POST" (venue_url b (leverage_endpoint (kind b))) params :: rest ∧
    dict_get "symbol" params
    = Some (VStr (normalize_symbol (kind b) s "crypto")) ∧
    dict_get "leverage" params = Some (VInt L).
Proof.
  intros Hk HL.
  destruct (place_crypto_order_head E b s side qty notional L Hk)
    as (k & Hframe & ->).
  apply Z.ltb_lt in HL. rewrite HL.
  eexists _.
  edestruct (first_event_bind
               (set_leverage E b
                  (VStr (normalize_symbol (kind b) s "crypto")) (VInt L))
               k w) as (rest & Hrest);
    [| exact Hframe |].
  { rewrite (leverage_request_events E b s L w Hk). simpl. reflexivity. }
  exists rest. split; [exact Hrest |].
  by rewrite !sign_params_get.
Qed.

Lemma leverage_request_precedes_order_witness :
  ∃ params rest,
    events (place_crypto_order env_tools (demo_broker Bybit) (VStr "BTC/USD")
              (VStr "buy") (VFloat (1 # 2)) VNone (VInt 10) w0).2 =
    events w0 ++
    EHttp "POST" (venue_url (demo_broker Bybit) (leverage_endpoint Bybit))
      params :: rest ∧
    dict_get "symbol" params = Some (VStr "BTCUSDT") ∧
    dict_get "leverage" params = Some (VInt 10).
Proof.
  apply (leverage_request_precedes_order env_tools (demo_broker Bybit)
           "BTC/USD" (VStr "buy") (VFloat (1 # 2)) VNone 10 w0).
  - done.
  - lia.
Defined.

(** X5.  When the venue refuses the leverage setting, the order stops
    there: the adapter raises what the request raised, and the leverage
    request is the only call that was made, so no order was sent. *)
Theorem refused_leverage_stops_order (E : Env) (b : broker) (s : string)
  (side qty notional : pyval) (L : Z) (w : world) (e : pyexn) :
  kind b ≠ Alpaca → (1 < L)%Z →
  (∀ evs, leverage_reply E (kind b) evs = inl e) →
  ∃ params w',
    place_crypto_order E b (VStr s) side qty notional (VInt L) w
    = (inl e, w') ∧
    events w' =
    events w ++
    [EHttp "POST" (venue_url b (leverage_endpoint (kind b))) params].
Proof.
  intros Hk HL Hrefused.
  destruct (place_crypto_order_head E b s side qty notional L Hk)
    as (k & Hframe & ->).
  apply Z.ltb_lt in HL. rewrite HL.
  unfold bind. rewrite (leverage_request_events E b s L w Hk), Hrefused.
  eexists _, _. split; reflexivity.
Qed.

Lemma refused_leverage_stops_order_witness :
  ∃ params w',
    place_crypto_order
      (refuse_leverage (mk_exn HTTPError "400 Client Error") env_tools)
      (demo_broker Binance) (VStr "BTC/USD") (VStr "buy") (VFloat (1 # 2))
      VNone (VInt 10) w0
    = (inl (mk_exn HTTPError "400 Client Error"), w') ∧
    events w' =
    events w0 ++
    [EHttp "POST" (venue_url (demo_broker Binance) (leverage_endpoint Binance))
       params].
Proof.
  apply (refused_leverage_stops_order
           (refuse_leverage (mk_exn HTTPError "400 Client Error") env_tools)
           (demo_broker Binance) "BTC/USD" (VStr "buy") (VFloat (1 # 2))
           VNone 10 w0).
  - done.
  - lia.
  - reflexivity.
Defined.

(** [place_crypto_order] with a leverage of at most one: no leverage
    request. *)
Lemma place_crypto_order_unleveraged E b s side qty notional L :
  (L ≤ 1)%Z →
  place_crypto_order E b (VStr s) side qty notional (VInt L) =
  match kind b with
  | Alpaca => alpaca_place_crypto_order E b (VStr s) side qty notional (VInt L)
  | Bybit =>
      let sym := VStr (normalize_symbol (kind b) s "crypto") in
      let! qty := quantity_from_notional E b sym qty notional in
      let! side_s := as_str "lower" side in
      let! order_id :=
        bybit_make_request E b (bybit_order_reply E)
          "POST" "/v2/private/order/create"
          [("symbol", sym);
           ("side", VStr (if String.eqb (PyStr.lower side_s) "buy"
                          then "Buy" else "Sell"));
           ("order_type", VStr "Market"); ("qty", qty);
           ("time_in_force", VStr "GoodTillCancel");
           ("reduce_only", VBool false); ("close_on_trigger", VBool false)]
          true in
      ret (VDict [("order_id", order_id); ("symbol", sym); ("side", side);
                  ("qty", qty); ("notional", py_or notional (VInt 0));
                  ("status", VStr "submitted"); ("filled_avg_price", VInt 0);
                  ("leverage", py_or (VInt L) (VInt 1))])
  | Binance =>
      let sym := VStr (normalize_symbol (kind b) s "crypto") in
      let! qty := quantity_from_notional E b sym qty notional in
      let! side_s := as_str "lower" side in
      let! result :=
        binance_make_request E b (binance_order_reply E)
          "POST" "/fapi/v1/order"
          [("symbol", sym);
           ("side", VStr (if String.eqb (PyStr.lower side_s) "buy"
                          then "BUY" else "SELL"));
           ("type", VStr "MARKET"); ("quantity", qty)] true false in
      ret (VDict [("order_id", VStr (py_str E (no_orderId result)));
                  ("symbol", sym); ("side", side);
                  ("qty", VFloat (no_origQty result));
                  ("notional", py_or notional (VInt 0));
                  ("status", no_status result);
                  ("filled_avg_price", VFloat (no_avgPrice result));
                  ("leverage", py_or (VInt L) (VInt 1))])
  end.
Proof.
  intros HL. apply Z.ltb_ge in HL. unfold place_crypto_order.
  destruct (kind b) eqn:K; [done | |].
  - unfold bybit_place_crypto_order, normalize_crypto. rewrite K.
    unfold as_str at 1. by rewrite !bind_ret, wants_leverage_int, bind_ret, HL.
  - unfold binance_place_crypto_order, normalize_crypto. rewrite K.
    unfold as_str at 1. by rewrite !bind_ret, wants_leverage_int, bind_ret, HL.
Qed.

(** X6.  An order on Bybit or Binance with a quantity and a leverage of
    at most one is exactly one request, the order itself: no leverage is
    set and no price is fetched.  The order carries the normalised symbol
    and the quantity as given, and it is a buy only when the lower-cased
    side is [buy]: every other side string makes it a sell. *)
Theorem plain_order_is_one_request (E : Env) (b : broker) (s sd : string)
  (qty notional : pyval) (L : Z) (w : world) :
  kind b ≠ Alpaca → (L ≤ 1)%Z → truthy qty = true →
  ∃ params,
    events (place_crypto_order E b (VStr s) (VStr sd) qty notional (VInt L)
              w).2 =
    events w ++ [EHttp "POST" (venue_url b (order_endpoint (kind b))) params]
    ∧ dict_get "symbol" params
      = Some (VStr (normalize_symbol (kind b) s "crypto"))
    ∧ dict_get (close_qty_key (kind b)) params = Some qty
    ∧ dict_get "side" params
      = Some (VStr (side_word (kind b) (String.eqb (PyStr.lower sd) "buy"))).
Proof.
  intros Hk HL Hq.
  rewrite (place_crypto_order_unleveraged E b s (VStr sd) qty notional L HL).
  unfold venue_url.
  destruct (kind b) eqn:K; [done | |]; cbv zeta;
    unfold quantity_from_notional; rewrite Hq, andb_false_r;
    rewrite bind_ret; unfold as_str; rewrite bind_ret.
  - unfold bybit_make_request, bind, get_events, emit, ask. simpl.
    eexists. split; [by destruct (bybit_order_reply E _) |].
    rewrite !bybit_sign_params_get by done. simpl.
    repeat split.
  - unfold binance_make_request, bind, get_events, emit, ask. simpl.
    eexists. split; [by destruct (binance_order_reply E _) |].
    rewrite !binance_sign_params_get by done. simpl.
    repeat split.
Qed.

Lemma plain_order_is_one_request_witness :
  ∃ params,
    events (place_crypto_order env_tools (demo_broker Bybit) (VStr "ETH-USD")
              (VStr "hold") (VInt 2) VNone (VInt 1) w0).2 =
    events w0 ++ [EHttp "POST" (venue_url (demo_broker Bybit)
                                  (order_endpoint Bybit)) params]
    ∧ dict_get "symbol" params = Some (VStr "ETHUSDT")
    ∧ dict_get "qty" params = Some (VInt 2)
    ∧ dict_get "side" params = Some (VStr "Sell").
Proof.
  apply (plain_order_is_one_request env_tools (demo_broker Bybit) "ETH-USD"
           "hold" (VInt 2) VNone 1 w0).
  - done.
  - lia.
  - reflexivity.
Defined.




End OrderFacts.

(** ** The catalogue and the executor *)

Module CatalogueFacts.
Import Invariants FrameFacts ExecutorFacts LeverageFacts.
#[local] Open Scope list_scope.

Lemma catalogue_names : omap tool_name_of TOOLS = tool_names.
Proof. vm_compute. reflexivity. Qed.

(** X8.  The catalogue and the executor agree.  The tools offered to the
    Claude backend have distinct names; the DeepSeek backend is offered
    the same names in the same order; a name outside the catalogue is
    answered [Unknown tool: <name>] with nothing done, whatever the broker
    and the arguments; and every name of the catalogue reaches a branch
    of the executor. *)
Theorem catalogue_matches_executor (name : string) :
  let offered := omap tool_name_of TOOLS in
  NoDup offered ∧ List.length offered = List.length TOOLS ∧
  (∃ ts, convert_tools_to_openai_format = inr ts ∧
         omap openai_name_of ts = offered) ∧
  (name ∉ offered →
   ∀ E b arguments w,
     execute_tool E (Some b) name arguments w =
     (inr (error_result ("Unknown tool: " +:+ name)), w)) ∧
  (name ∈ offered →
   ∃ E b arguments w,
     (execute_tool E (Some b) name arguments w).1 ≠
     inr (error_result ("Unknown tool: " +:+ name))).
Proof.
  cbv zeta. rewrite catalogue_names.
  split; [| split; [| split; [| split]]].
  - unfold tool_names. apply NoDup_ListNoDup.
    repeat (constructor; [simpl; intros H; repeat destruct H as [H|H];
                          discriminate || done |]).
    constructor.
  - reflexivity.
  - eexists. split; [vm_compute; reflexivity | vm_compute; reflexivity].
  - intros Hn E b arguments w.
    apply execute_tool_returned. by rewrite dispatch_unknown.
  - intros Hin. exists env_tools, (demo_broker Binance), ∅, w0.
    unfold tool_names in Hin.
    repeat (apply elem_of_cons in Hin as [-> | Hin]);
      [.. | by apply elem_of_nil in Hin];
      vm_compute; discriminate.
Qed.

(** X9.  A call that lacks a key its schema requires is answered with the
    name of the first such key, in quotes, and nothing is done: no request
    leaves and the state is the one before the call.  This holds for every
    tool of the catalogue but the two that write the note file (which open
    the file first); for [place_crypto_order] the leverage is taken absent,
    since its bounds are checked before the keys are read. *)
Theorem missing_required_key (E : Env) (b : broker) (tool : pyval)
  (name key : string) (present rest : list string)
  (arguments : gmap string pyval) (w : world) :
  tool ∈ TOOLS →
  tool_name_of tool = Some name →
  name ≠ "write_trading_memory" → name ≠ "append_trading_memory" →
  (name = "place_crypto_order" → arguments !! "leverage" = None) →
  required_keys tool = present ++ key :: rest →
  (∀ k, k ∈ present → is_Some (arguments !! k)) →
  arguments !! key = None →
  execute_tool E (Some b) name arguments w =
  (inr (error_result ("'" +:+ key +:+ "'")), w).
Proof.
  intros Hin Hname Hw Ha Hlev Hreq Hpresent Hmissing.
  assert (dispatch E b name arguments w
          = (inl (mk_exn KeyError ("'" +:+ key +:+ "'")), w)) as Hd;
    [| by rewrite (execute_tool_raised _ _ _ _ _ _ _ Hd)].
  unfold TOOLS in Hin.
  repeat (apply elem_of_cons in Hin as [-> | Hin]);
    [.. | by apply elem_of_nil in Hin];
    cbv in Hname; injection Hname as <-;
    (set (r := required_keys _) in Hreq; vm_compute in r; subst r);
    (destruct present as [|p1 [|p2 [|p3 present]]];
     simpl in Hreq; simplify_eq);
    try done;
    try (destruct (Hpresent "symbol") as [v Hv]; [set_solver |]);
    try (rewrite (dispatch_place_crypto_order E b arguments 1)
           by (unfold get_default; by rewrite (Hlev eq_refl));
         pose proof (max_leverage_crypto_pos b) as Hmax;
         apply Z.ltb_ge in Hmax; rewrite Hmax; simpl);
    try unfold dispatch;
    cbv beta iota delta [String.eqb Ascii.eqb Bool.eqb];
    unfold getitem; rewrite ?Hv, Hmissing; reflexivity.
Qed.

Lemma missing_required_key_witness :
  execute_tool env_tools (Some (demo_broker Alpaca)) "place_stock_order"
    (<["symbol" := VStr "AAPL"]> ∅) w0 =
  (inr (error_result "'side'"), w0).
Proof.
  apply (missing_required_key env_tools (demo_broker Alpaca)
           (nth 5 TOOLS VNone) "place_stock_order" "side" ["symbol"] []
           (<["symbol" := VStr "AAPL"]> ∅) w0).
  - apply list_elem_of_In. simpl. tauto.
  - reflexivity.
  - done.
  - done.
  - done.
  - reflexivity.
  - intros k ->%list_elem_of_singleton. by eexists.
  - reflexivity.
Defined.

(** X10.  The stock tools on the crypto venues.  On Bybit and Binance
    [get_stock_quote] and [place_stock_order], called with the keys they
    require, are answered with the error
    [<broker> doesn't support this feature: <broker> does not support
    stock trading] and no call is made: the state is untouched. *)
Theorem stock_tools_unsupported (E : Env) (b : broker)
  (arguments : gmap string pyval) (sym : pyval) (w : world) :
  kind b ≠ Alpaca →
  arguments !! "symbol" = Some sym →
  execute_tool E (Some b) "get_stock_quote" arguments w =
  (inr (error_result
          (get_broker_name b +:+ " doesn't support this feature: " +:+
           get_broker_name b +:+ " does not support stock trading")), w) ∧
  (∀ side, arguments !! "side" = Some side →
     execute_tool E (Some b) "place_stock_order" arguments w =
     (inr (error_result
             (get_broker_name b +:+ " doesn't support this feature: " +:+
              get_broker_name b +:+
              " does not support stock trading. Please use crypto symbols.")),
      w)).
Proof.
  intros Hk Hsym. split; [| intros side Hside];
    unfold execute_tool, try_except, dispatch;
    cbv beta iota delta [String.eqb Ascii.eqb Bool.eqb];
    unfold getitem, bind, get_stock_quote, place_stock_order, get_broker_name;
    rewrite Hsym, ?Hside; simpl; by destruct (kind b).
Qed.

Lemma stock_tools_unsupported_witness :
  execute_tool env_tools (Some (demo_broker Bybit)) "get_stock_quote"
    (<["symbol" := VStr "AAPL"]> (<["side" := VStr "buy"]> ∅)) w0 =
  (inr (error_result
          "Bybit doesn't support this feature: Bybit does not support stock trading"),
   w0) ∧
  (∀ side,
     (<["symbol" := VStr "AAPL"]> (<["side" := VStr "buy"]> ∅)
        : gmap string pyval) !! "side" = Some side →
     execute_tool env_tools (Some (demo_broker Bybit)) "place_stock_order"
       (<["symbol" := VStr "AAPL"]> (<["side" := VStr "buy"]> ∅)) w0 =
     (inr (error_result
             "Bybit doesn't support this feature: Bybit does not support stock trading. Please use crypto symbols."),
      w0)).
Proof.
  apply (stock_tools_unsupported env_tools (demo_broker Bybit)
           (<["symbol" := VStr "AAPL"]> (<["side" := VStr "buy"]> ∅))
           (VStr "AAPL") w0).
  - done.
  - vm_compute. reflexivity.
Defined.

End CatalogueFacts.

(** ** The note file *)

Module MemoryFacts.
Import Invariants PyStr FrameFacts ExecutorFacts.
#[local] Open Scope nat_scope.
#[local] Open Scope list_scope.

Lemma split_lines_cons (s : string) :
  ∃ line rest, split_lines s = line :: rest.
Proof.
  induction s as [|a s (line & rest & IH)]; simpl; [by eexists _, _ |].
  destruct (Ascii.eqb a _); [by eexists _, _ |].
  rewrite IH. by eexists _, _.
Qed.

Lemma join_cons (sep p q : string) (rest : list string) :
  join sep (p :: q :: rest) = p +:+ sep +:+ join sep (q :: rest).
Proof. reflexivity. Qed.

(** Splitting at the newlines and joining with newlines gives the text
    back. *)
Lemma join_split_lines (s : string) : join newline (split_lines s) = s.
Proof.
  induction s as [|a s IH]; [done |]. simpl.
  destruct (Ascii.eqb_spec a (ascii_of_nat 10)) as [->|Hne].
  - destruct (split_lines_cons s) as (line & rest & Hs).
    rewrite Hs, join_cons, <- Hs, IH. reflexivity.
  - destruct (split_lines_cons s) as (line & rest & Hs).
    rewrite Hs in IH |- *. rewrite <- IH.
    destruct rest as [|q rest]; [done |]. by rewrite !join_cons.
Qed.

Lemma split_lines_length (s : string) :
  List.length (split_lines s) = S (count_char (ascii_of_nat 10) s).
Proof.
  induction s as [|a s IH]; [done |]. simpl.
  destruct (Ascii.eqb a (ascii_of_nat 10)); simpl; [by rewrite IH |].
  destruct (split_lines_cons s) as (line & rest & Hs).
  rewrite Hs in IH |- *. exact IH.
Qed.

(** The lines of [a + "\n" + b] are the lines of [a], then those of [b]. *)
Lemma split_lines_app (a b : string) :
  split_lines (a +:+ newline +:+ b) = split_lines a ++ split_lines b.
Proof.
  induction a as [|c a IH]; [done |]. simpl.
  destruct (Ascii.eqb c (ascii_of_nat 10)); [by rewrite IH |].
  rewrite IH. destruct (split_lines_cons a) as (line & rest & ->). done.
Qed.

Lemma number_lines_lookup (lines : list string) (i : Z) (k : nat) line :
  lines !! k = Some line →
  number_lines i lines !! k
  = Some (pretty (i + Z.of_nat k + 1)%Z +:+ ": " +:+ line).
Proof.
  revert i k. induction lines as [|l lines IH]; intros i k; [done |].
  destruct k as [|k]; simpl.
  - intros [= ->]. by rewrite Z.add_0_r.
  - intros H. rewrite (IH _ _ H). do 3 f_equal. lia.
Qed.

Lemma number_lines_length (lines : list string) (i : Z) :
  List.length (number_lines i lines) = List.length lines.
Proof. revert i. induction lines; intros i; simpl; [done | by rewrite IHlines]. Qed.

Ltac run_tool :=
  unfold execute_tool, try_except, dispatch;
  cbv beta iota delta [String.eqb Ascii.eqb Bool.eqb].

(** X11.  A write to the note file without [content] loses the notes: the
    file is opened for writing, which empties it, before the missing key
    is found, and the call answers with the error ['content'].  An append
    without [content] gives the same error and leaves the text as it was
    (creating the file when there was none). *)
Theorem missing_content_and_the_note_file (E : Env) (b : broker)
  (arguments : gmap string pyval) (w : world) :
  fs_fault E w = None → arguments !! "content" = None →
  execute_tool E (Some b) "write_trading_memory" arguments w =
  (inr (error_result "'content'"), with_file (Some "") w) ∧
  execute_tool E (Some b) "append_trading_memory" arguments w =
  (inr (error_result "'content'"),
   with_file (Some (default "" (memory_file w))) w).
Proof.
  intros Hfs Hc. split; run_tool;
    unfold bind, fs_open, Executor.read_file, write_file, getitem; simpl;
    by rewrite Hfs, Hc.
Qed.

Lemma missing_content_and_the_note_file_witness :
  let w := with_file (Some "bought BTC") w0 in
  execute_tool env_tools (Some (demo_broker Alpaca)) "write_trading_memory"
    ∅ w =
  (inr (error_result "'content'"), with_file (Some "") w) ∧
  execute_tool env_tools (Some (demo_broker Alpaca)) "append_trading_memory"
    ∅ w =
  (inr (error_result "'content'"), with_file (Some "bought BTC") w).
Proof.
  apply (missing_content_and_the_note_file env_tools (demo_broker Alpaca) ∅
           (with_file (Some "bought BTC") w0)); reflexivity.
Defined.

Lemma universal_newlines_unfold a rest :
  universal_newlines (String a rest) =
  if Ascii.eqb a (ascii_of_nat 13) then
    match rest with
    | EmptyString => newline
    | String b rest' =>
        if Ascii.eqb b (ascii_of_nat 10)
        then String b (universal_newlines rest')
        else String (ascii_of_nat 10) (universal_newlines rest)
    end
  else String a (universal_newlines rest).
Proof. reflexivity. Qed.

(** No carriage return is left in what is read. *)
Lemma universal_newlines_no_cr (s : string) :
  count_char (ascii_of_nat 13) (universal_newlines s) = 0.
Proof.
  assert (∀ n s, String.length s ≤ n →
            count_char (ascii_of_nat 13) (universal_newlines s) = 0) as H.
  { clear s. induction n as [|n IH]; intros [|a rest] Hlen; simpl in Hlen;
      try done; try lia.
    rewrite universal_newlines_unfold.
    destruct (Ascii.eqb_spec a (ascii_of_nat 13)) as [->|Ha].
    - destruct rest as [|b rest']; [done |].
      destruct (Ascii.eqb_spec b (ascii_of_nat 10)) as [->|Hb].
      + simpl in Hlen. cbn [count_char]. rewrite IH by lia. done.
      + cbn [count_char]. rewrite IH by lia. done.
    - cbn [count_char]. rewrite IH by lia.
      by destruct (Ascii.eqb_spec a (ascii_of_nat 13)). }
  by apply (H (String.length s)).
Qed.

(** A text without carriage returns is read as it is. *)
Lemma universal_newlines_plain (s : string) :
  count_char (ascii_of_nat 13) s = 0 → universal_newlines s = s.
Proof.
  induction s as [|a rest IH]; [done |].
  rewrite universal_newlines_unfold. cbn [count_char].
  destruct (Ascii.eqb a (ascii_of_nat 13)); [done |].
  intros H. by rewrite IH.
Qed.

(** X12.  What is written to the note file is read back with its line
    ends translated: after a write of [text] the file holds [text], and a
    read sees it with every [\r\n] and every lone [\r] turned into [\n],
    so a text without carriage returns is seen as it is.  The read returns
    the lines of what it sees, split at the newlines (joining them with
    newlines gives that text again), each line prefixed with its number
    counted from 1, together with the number of lines, which is one more
    than the number of newlines seen. *)
Theorem memory_write_then_read (E : Env) (b : broker)
  (arguments arguments' : gmap string pyval) (text : string) (w : world) :
  arguments !! "content" = Some (VStr text) →
  fs_fault E w = None → fs_fault E (with_file (Some text) w) = None →
  let seen := universal_newlines text in
  let lines := split_lines seen in
  let w1 := with_file (Some text) w in
  execute_tool E (Some b) "write_trading_memory" arguments w =
  (inr (success_result "Memory updated"), w1) ∧
  execute_tool E (Some b) "read_trading_memory" arguments' w1 =
  (inr (VDict [("content", VStr (join newline (number_lines 0 lines)));
               ("line_count", VInt (Z.of_nat (List.length lines)))]), w1) ∧
  count_char (ascii_of_nat 13) seen = 0 ∧
  (count_char (ascii_of_nat 13) text = 0 → seen = text) ∧
  join newline lines = seen ∧
  List.length lines = S (count_char (ascii_of_nat 10) seen) ∧
  List.length (number_lines 0 lines) = List.length lines ∧
  ∀ k line, lines !! k = Some line →
    number_lines 0 lines !! k
    = Some (pretty (Z.of_nat k + 1)%Z +:+ ": " +:+ line).
Proof.
  intros Hc Hfs Hfs1 seen lines w1. subst lines seen w1.
  split; [| split; [| split; [| split; [| split; [| split; [| split]]]]]].
  - run_tool.
    unfold bind, fs_open, write_file, getitem, file_write; simpl.
    by rewrite Hfs, Hc.
  - run_tool. unfold bind, fs_open, Executor.read_file; simpl.
    by rewrite Hfs1.
  - apply universal_newlines_no_cr.
  - apply universal_newlines_plain.
  - apply join_split_lines.
  - apply split_lines_length.
  - apply number_lines_length.
  - intros k line H. by rewrite (number_lines_lookup _ 0 k line H).
Qed.

(** A note of two lines, the first one ended the Windows way: the read
    returns two lines, without the carriage return. *)
Lemma memory_write_then_read_witness :
  let text := "BTC long" +:+ String (ascii_of_nat 13) newline +:+ "stop 60k" in
  let seen := universal_newlines text in
  let w1 := with_file (Some text) w0 in
  (execute_tool env_tools (Some (demo_broker Bybit)) "write_trading_memory"
     (<["content" := VStr text]> ∅) w0 =
   (inr (success_result "Memory updated"), w1) ∧
   execute_tool env_tools (Some (demo_broker Bybit)) "read_trading_memory" ∅ w1
   = (inr (VDict [("content",
                   VStr (join newline (number_lines 0 (split_lines seen))));
                  ("line_count",
                   VInt (Z.of_nat (List.length (split_lines seen))))]), w1) ∧
   count_char (ascii_of_nat 13) seen = 0 ∧
   (count_char (ascii_of_nat 13) text = 0 → seen = text) ∧
   join newline (split_lines seen) = seen ∧
   List.length (split_lines seen) = S (count_char (ascii_of_nat 10) seen) ∧
   List.length (number_lines 0 (split_lines seen))
   = List.length (split_lines seen) ∧
   ∀ k line, split_lines seen !! k = Some line →
     number_lines 0 (split_lines seen) !! k
     = Some (pretty (Z.of_nat k + 1)%Z +:+ ": " +:+ line)) ∧
  split_lines seen = ["BTC long"; "stop 60k"].
Proof.
  split; [| reflexivity].
  apply (memory_write_then_read env_tools (demo_broker Bybit)
           (<["content" :=
                VStr ("BTC long" +:+ String (ascii_of_nat 13) newline
                      +:+ "stop 60k")]> ∅)
           ∅ ("BTC long" +:+ String (ascii_of_nat 13) newline +:+ "stop 60k")
           w0).
  - vm_compute. reflexivity.
  - reflexivity.
  - reflexivity.
Defined.

(** X13.  An append adds a newline and the text to what the note file
    holds, so the lines afterwards are the old lines followed by the lines
    of the text.  On a missing or empty file the old lines are one empty
    line: the first line of the file stays empty. *)
Theorem memory_append_adds_lines (E : Env) (b : broker)
  (arguments : gmap string pyval) (text : string) (w : world) :
  arguments !! "content" = Some (VStr text) →
  fs_fault E w = None →
  let before := default "" (memory_file w) in
  execute_tool E (Some b) "append_trading_memory" arguments w =
  (inr (success_result "Content appended"),
   with_file (Some (before +:+ newline +:+ text)) w) ∧
  split_lines (before +:+ newline +:+ text)
  = split_lines before ++ split_lines text ∧
  (memory_file w = None ∨ memory_file w = Some "" →
   split_lines (before +:+ newline +:+ text) = "" :: split_lines text).
Proof.
  intros Hc Hfs before. subst before. split; [| split].
  - run_tool.
    unfold bind, fs_open, Executor.read_file, write_file, getitem,
      newline_plus, file_write; simpl.
    by rewrite Hfs, Hc.
  - apply split_lines_app.
  - intros [-> | ->]; reflexivity.
Qed.

Lemma memory_append_adds_lines_witness :
  execute_tool env_tools (Some (demo_broker Bybit)) "append_trading_memory"
    (<["content" := VStr "sold ETH"]> ∅) w0 =
  (inr (success_result "Content appended"),
   with_file (Some ("" +:+ newline +:+ "sold ETH")) w0) ∧
  split_lines ("" +:+ newline +:+ "sold ETH")
  = split_lines "" ++ split_lines "sold ETH" ∧
  (memory_file w0 = None ∨ memory_file w0 = Some "" →
   split_lines ("" +:+ newline +:+ "sold ETH")
   = "" :: split_lines "sold ETH").
Proof.
  apply (memory_append_adds_lines env_tools (demo_broker Bybit)
           (<["content" := VStr "sold ETH"]> ∅) "sold ETH" w0).
  - vm_compute. reflexivity.
  - reflexivity.
Defined.

(** X14.  A cleared note file is not a missing one.  Reading right after a
    clear returns one numbered empty line, [1: ], and a line count of 1;
    reading when the file does not exist returns the empty text and a line
    count of 0. *)
Theorem cleared_memory_reads_one_line (E : Env) (b : broker)
  (arguments arguments' : gmap string pyval) (w : world) :
  fs_fault E w = None → fs_fault E (with_file (Some "") w) = None →
  execute_tool E (Some b) "clear_trading_memory" arguments w =
  (inr (success_result "Memory cleared"), with_file (Some "") w) ∧
  execute_tool E (Some b) "read_trading_memory" arguments'
    (with_file (Some "") w) =
  (inr (VDict [("content", VStr "1: "); ("line_count", VInt 1)]),
   with_file (Some "") w) ∧
  (memory_file w = None →
   execute_tool E (Some b) "read_trading_memory" arguments' w =
   (inr (VDict [("content", VStr ""); ("line_count", VInt 0)]), w)).
Proof.
  intros Hfs Hfs1. split; [| split].
  - run_tool. unfold bind, fs_open, write_file; simpl. by rewrite Hfs.
  - run_tool. unfold bind, fs_open, Executor.read_file; simpl.
    by rewrite Hfs1.
  - intros Hnone. run_tool. unfold bind, Executor.read_file; simpl.
    by rewrite Hnone.
Qed.

Lemma cleared_memory_reads_one_line_witness :
  execute_tool env_tools (Some (demo_broker Bybit)) "clear_trading_memory"
    ∅ w0 =
  (inr (success_result "Memory cleared"), with_file (Some "") w0) ∧
  execute_tool env_tools (Some (demo_broker Bybit)) "read_trading_memory" ∅
    (with_file (Some "") w0) =
  (inr (VDict [("content", VStr "1: "); ("line_count", VInt 1)]),
   with_file (Some "") w0) ∧
  (memory_file w0 = None →
   execute_tool env_tools (Some (demo_broker Bybit)) "read_trading_memory" ∅
     w0 =
   (inr (VDict [("content", VStr ""); ("line_count", VInt 0)]), w0)).
Proof.
  apply (cleared_memory_reads_one_line env_tools (demo_broker Bybit) ∅ ∅ w0);
    reflexivity.
Defined.

End MemoryFacts.

(** ** Signing: the order of the parameters *)

Module SignatureFacts.
Import Requests DictFacts SigningFacts.
#[local] Open Scope list_scope.

Lemma string_compare_trans (s1 s2 s3 : string) :
  String.compare s1 s2 ≠ Gt → String.compare s2 s3 ≠ Gt →
  String.compare s1 s3 ≠ Gt.
Proof.
  revert s2 s3. induction s1 as [|c1 s1 IH]; intros [|c2 s2] [|c3 s3];
    simpl; try done.
  unfold Ascii.compare.
  destruct (N.compare_spec (N_of_ascii c1) (N_of_ascii c2)) as [H12|H12|H12];
    destruct (N.compare_spec (N_of_ascii c2) (N_of_ascii c3)) as [H23|H23|H23];
    destruct (N.compare_spec (N_of_ascii c1) (N_of_ascii c3)) as [H13|H13|H13];
    try done; try lia.
  apply IH.
Qed.

#[local] Instance string_le_trans :
  Transitive (λ a b : string, String.leb a b = true).
Proof.
  intros s1 s2 s3. unfold String.leb. intros H12 H23.
  pose proof (string_compare_trans s1 s2 s3) as H.
  destruct (String.compare s1 s2), (String.compare s2 s3),
    (String.compare s1 s3); try done; by destruct H.
Qed.

#[local] Instance string_le_antisym :
  AntiSymm eq (λ a b : string, String.leb a b = true).
Proof. intros s1 s2. apply String.leb_antisym. Qed.

(** Two dicts with the same keys in the same order that hold the same
    pairs are the same list of pairs. *)
Lemma same_keys_same_items (l1 l2 : list (string * pyval)) :
  NoDup l1.*1 → l1.*1 = l2.*1 → l1 ≡ₚ l2 → l1 = l2.
Proof.
  revert l2. induction l1 as [|[k v] l1 IH]; intros [|[k' v'] l2];
    simpl; try done.
  intros Hnd [= <- Hkeys] Hperm.
  apply NoDup_cons in Hnd as [Hk Hnd].
  assert (v = v') as <-.
  { assert ((k, v) ∈ (k, v') :: l2) as Hin.
    { rewrite <- Hperm. by left. }
    apply elem_of_cons in Hin as [[=] | Hin]; [done |].
    destruct Hk. rewrite Hkeys.
    apply (list_elem_of_fmap_2 fst) in Hin. exact Hin. }
  f_equal. apply IH; [done | done |].
  by apply Permutation_cons_inv in Hperm.
Qed.

Lemma sorted_items_unique (p1 p2 : list (string * pyval)) :
  NoDup p1.*1 → p1 ≡ₚ p2 → sorted_items p1 = sorted_items p2.
Proof.
  intros Hnd Hperm.
  assert (sorted_items p1 ≡ₚ sorted_items p2) as Hsp.
  { by rewrite !sorted_items_perm. }
  apply same_keys_same_items.
  - by rewrite sorted_items_perm.
  - apply (Sorted_unique (λ a b : string, String.leb a b = true)).
    + apply (Sorted_fmap fst key_le); [done |]. apply sorted_items_sorted.
    + apply (Sorted_fmap fst key_le); [done |]. apply sorted_items_sorted.
    + by rewrite Hsp.
  - exact Hsp.
Qed.

(** X15.  The Bybit signature does not depend on the order in which the
    parameters were put in the dict: two parameter dicts with the same
    pairs (the keys of a dict are distinct) are signed alike. *)
Theorem bybit_signature_ignores_order (E : Env) (b : broker)
  (p1 p2 : list (string * pyval)) :
  NoDup p1.*1 → p1 ≡ₚ p2 →
  bybit_generate_signature E b p1 = bybit_generate_signature E b p2.
Proof.
  intros Hnd Hperm. unfold bybit_generate_signature.
  by rewrite (sorted_items_unique p1 p2 Hnd Hperm).
Qed.

Lemma bybit_signature_ignores_order_witness :
  bybit_generate_signature env_tools (demo_broker Bybit)
    [("symbol", VStr "BTCUSDT"); ("side", VStr "Buy"); ("qty", VInt 1)] =
  bybit_generate_signature env_tools (demo_broker Bybit)
    [("qty", VInt 1); ("symbol", VStr "BTCUSDT"); ("side", VStr "Buy")].
Proof.
  apply (bybit_signature_ignores_order env_tools (demo_broker Bybit)
           [("symbol", VStr "BTCUSDT"); ("side", VStr "Buy"); ("qty", VInt 1)]
           [("qty", VInt 1); ("symbol", VStr "BTCUSDT"); ("side", VStr "Buy")]).
  - apply NoDup_ListNoDup. simpl.
    repeat (constructor; [simpl; intros H; repeat destruct H as [H|H];
                          discriminate || done |]).
    constructor.
  - symmetry.
    apply (Permutation_cons_append
             [("symbol", VStr "BTCUSDT"); ("side", VStr "Buy")]
             ("qty", VInt 1)).
Defined.

End SignatureFacts.

(** ** The conversation history *)

Module HistoryFacts.
Import Invariants FrameFacts ExecutorFacts OrchestratorFacts AuditLogFacts.
#[local] Open Scope nat_scope.
#[local] Open Scope list_scope.

#[export] Instance history_extends_preorder : PreOrder history_extends.
Proof.
  split.
  - intros w. exists []. by rewrite app_nil_r.
  - intros w1 w2 w3 [a1 H1] [a2 H2]. exists (a1 ++ a2).
    by rewrite H2, H1, app_assoc.
Qed.

#[export] Instance log_within_capacity_preorder : PreOrder log_within_capacity.
Proof.
  split.
  - intros w H. exact H.
  - intros w1 w2 w3 H1 H2 H. by apply H2, H1.
Qed.

Section Steps.
Context (R : relation world) `{!PreOrder R}.
Context (R_frame : ∀ w w', messages w' = messages w → logs w' = logs w →
                           R w w').

Lemma steps_ret {A} (a : A) : steps R (ret a).
Proof. intros w. reflexivity. Qed.

Lemma steps_bind {A B} (m : M A) (k : A → M B) :
  steps R m → (∀ a, steps R (k a)) → steps R (bind m k).
Proof.
  intros Hm Hk w. unfold bind. specialize (Hm w).
  destruct (m w) as [[e|a] w1]; simpl in *; [done |].
  etrans; [exact Hm | apply Hk].
Qed.

Lemma steps_try_except {A} (body : M A) (handler : pyexn → M A) :
  steps R body → (∀ e, steps R (handler e)) →
  steps R (try_except body handler).
Proof.
  intros Hm Hk w. unfold try_except. specialize (Hm w).
  destruct (body w) as [[e|a] w1]; simpl in *; [| done].
  etrans; [exact Hm | apply Hk].
Qed.

Lemma steps_frame {A} (m : M A) : tool_frame m → steps R m.
Proof.
  intros H w. destruct (H w) as (new & _ & _ & Hm & Hl). by apply R_frame.
Qed.

Lemma steps_emit (ev : event) : steps R (emit ev).
Proof. intros w. by apply R_frame. Qed.

Lemma steps_ask {A} (oracle : list event → Exc A) : steps R (ask oracle).
Proof. intros w. reflexivity. Qed.

Lemma steps_get_messages : steps R get_messages.
Proof. intros w. reflexivity. Qed.

Lemma steps_claude_turns E broker turns :
  (∀ m, steps R (append_message m)) →
  steps R (claude_turns E broker turns).
Proof.
  intros Happ. induction turns as [|turns IH]; simpl; [apply steps_ret |].
  apply steps_bind; [apply steps_get_messages | intros history].
  apply steps_bind; [apply steps_emit | intros _].
  apply steps_bind; [apply steps_ask | intros response].
  destruct (String.eqb (stop_reason response) "end_turn"); [apply steps_ret |].
  destruct (String.eqb (stop_reason response) "tool_use"); [| exact IH].
  apply steps_bind; [| by intros _].
  unfold claude_tool_turn.
  apply steps_bind; [apply Happ | intros _].
  apply steps_bind; [apply steps_frame, frame_claude_run_tools | intros ?].
  apply Happ.
Qed.

Lemma steps_deepseek_run_tools E broker calls :
  (∀ m, steps R (append_message m)) →
  steps R (deepseek_run_tools E broker calls).
Proof.
  intros Happ. induction calls as [|call rest IH]; simpl; [apply steps_ret |].
  apply steps_bind; [apply steps_frame, frame_lift_exc | intros args].
  apply steps_bind; [apply steps_frame, frame_execute_tool | intros result].
  apply steps_bind; [apply steps_frame, frame_lift_exc | intros text].
  apply steps_bind; [apply Happ | by intros _].
Qed.

Lemma steps_deepseek_turns E broker turns :
  (∀ m, steps R (append_message m)) →
  steps R (deepseek_turns E broker turns).
Proof.
  intros Happ. induction turns as [|turns IH]; simpl; [apply steps_ret |].
  apply steps_bind; [apply steps_get_messages | intros history].
  apply steps_bind; [apply steps_emit | intros _].
  apply steps_bind; [apply steps_ask | intros message].
  destruct (dm_tool_calls message); [apply steps_ret |].
  apply steps_bind; [| by intros _].
  unfold deepseek_tool_turn.
  apply steps_bind; [apply Happ | intros _].
  by apply steps_deepseek_run_tools.
Qed.

Lemma steps_call_ai_with_tools E srv max_turns :
  (∀ m, steps R (append_message m)) →
  steps R (call_ai_with_tools E srv max_turns).
Proof.
  intros Happ. unfold call_ai_with_tools.
  destruct (_ && _); [by apply steps_claude_turns |].
  destruct (_ && _); [by apply steps_deepseek_turns | apply steps_ret].
Qed.

End Steps.

Lemma history_extends_frame w w' :
  messages w' = messages w → logs w' = logs w → history_extends w w'.
Proof. intros H _. exists []. by rewrite app_nil_r. Qed.

Lemma log_within_capacity_frame w w' :
  messages w' = messages w → logs w' = logs w → log_within_capacity w w'.
Proof. intros _ H Hle. by rewrite H. Qed.

(** X16.  The orchestrator only appends to the conversation: on either
    backend, for any number of turns and whatever the model, the tools and
    the venue do (an exception included), the message list afterwards is
    the list before followed by what the run added.  No message is
    dropped, changed or reordered. *)
Theorem history_is_append_only (E : Env) (srv : server) (max_turns : Z)
  (w : world) :
  ∃ added,
    messages (call_ai_with_tools E srv max_turns w).2 = messages w ++ added.
Proof.
  apply (steps_call_ai_with_tools history_extends history_extends_frame).
  intros m w'. by exists [m].
Qed.

End HistoryFacts.

(** ** The autotrading loop: sleeping and logging *)

Module LoopFacts.
Import Invariants FrameFacts ExecutorFacts FloatFacts OrchestratorFacts
  AuditLogFacts SchedulerFacts HistoryFacts PositionFacts.
#[local] Open Scope nat_scope.
#[local] Open Scope list_scope.

Lemma bind_inr {A B} (m : M A) (k : A → M B) w b w2 :
  bind m k w = (inr b, w2) →
  ∃ a w1, m w = (inr a, w1) ∧ k a w1 = (inr b, w2).
Proof.
  unfold bind. destruct (m w) as [[e|a] w1]; [done |]. by exists a, w1.
Qed.

(** A sleep that returns has slept: the last call is the sleep, for a
    length that is a number, not negative, and below the limit. *)
Lemma py_sleep_returned v w w1 :
  py_sleep v w = (inr tt, w1) →
  ∃ q, as_number v = Some q ∧ (0 <= q)%Q ∧ (q < sleep_limit)%Q ∧
       w1 = with_events (events w ++ [ESleep q]) w.
Proof.
  unfold py_sleep. destruct (as_number v) as [q|]; [| done].
  destruct (Qle_bool (pow2 63) (Qabs (nanoseconds v q))) eqn:Hl; [done |].
  destruct (Qlt_bool q 0) eqn:Hq; [done |].
  intros [= <-]. exists q. split; [done |].
  apply Qlt_bool_false in Hq. split; [done |]. split; [| done].
  apply Qnot_le_lt. intros H.
  assert (pow2 63 <= Qabs (q * inject_Z (10 ^ 9)))%Q as Hns.
  { rewrite Qabs_pos.
    - unfold sleep_limit in H.
      apply (Qmult_le_r _ _ (inject_Z (10 ^ 9))) in H; [| reflexivity].
      assert (pow2 63 / inject_Z (10 ^ 9) * inject_Z (10 ^ 9) == pow2 63)%Q
        as Hrw by (field; discriminate).
      by rewrite Hrw in H.
    - apply Qmult_le_0_compat; [exact Hq | discriminate]. }
  assert (pow2 63 <= Qabs (nanoseconds v q))%Q as Hover.
  { unfold nanoseconds. destruct v; try exact Hns.
    by apply round_double_reaches. }
  apply Qle_bool_iff in Hover. congruence.
Qed.

(** X17.  Every pass of the autotrading loop ends in a call of
    [time.sleep].  After a pass that raised, the length is 60 seconds.
    After a pass whose body ran to its end it is the [interval] of the
    configuration, 60 seconds when there is none.  The configuration is
    the request body as it was received, so that length is any number from
    zero up to what [time.sleep] can hold: an interval of zero is slept as
    it is, and the passes then follow one another without a pause. *)
Theorem every_pass_ends_asleep (E : Env) (srv : server) (w : world) :
  ∃ pre q,
    events (iteration E srv w).2 = pre ++ [ESleep q] ∧
    (∀ w1, iteration_body E srv w = (inr tt, w1) →
       ∃ d, autotrading_config srv = VDict d ∧
            as_number (default (VInt 60) (dict_get "interval" d)) = Some q ∧
            (0 <= q)%Q ∧ (q < sleep_limit)%Q) ∧
    (∀ e w1, iteration_body E srv w = (inl e, w1) → q = 60%Q).
Proof.
  destruct (iteration_body E srv w) as [[e|[]] w1] eqn:Hbody.
  - exists (events w1), 60%Q.
    rewrite (iteration_raised _ _ _ _ _ Hbody). simpl.
    split; [done |]. split; [done | by intros].
  - rewrite (iteration_returned _ _ _ _ Hbody). simpl.
    unfold iteration_body in Hbody.
    do 9 (apply bind_inr in Hbody as (? & ? & _ & Hbody)).
    apply bind_inr in Hbody as (interval & w2 & Hcfg & Hsleep).
    apply py_sleep_returned in Hsleep as (q & Hq & Hpos & Hlim & ->).
    exists (events w2), q. split; [done |]. split; [| done].
    intros w1' [= <-]. unfold config_interval in Hcfg.
    destruct (autotrading_config srv) as [| | | | | |d]; try done.
    injection Hcfg as <- <-. by exists d.
Qed.

(** With an interval of zero in the configuration, a pass that runs to
    its end sleeps zero seconds. *)
Lemma every_pass_ends_asleep_witness :
  let srv := {| srv_broker := Some (demo_broker Bybit); ai_model := "claude";
                anthropic_client := true; openai_client := true;
                autotrading_config := VDict [("interval", VInt 0)] |} in
  ∃ pre, events (iteration env_tools srv w0).2 = pre ++ [ESleep 0].
Proof.
  intros srv.
  destruct (every_pass_ends_asleep env_tools srv w0)
    as (pre & q & Hev & Hret & _).
  destruct (Hret (iteration_body env_tools srv w0).2) as (d & Hd & Hq & _).
  { vm_compute. reflexivity. }
  injection Hd as <-. injection Hq as <-. by exists pre.
Defined.

Lemma steps_add_autotrading_log E message log_type :
  steps log_within_capacity (add_autotrading_log E message log_type).
Proof.
  intros w _. unfold add_autotrading_log. simpl.
  destruct (append_log_spec
              {| timestamp := now_iso E w; log_message := message;
                 log_type := log_type |} (logs w)) as (_ & _ & _ & ->).
  lia.
Qed.

Lemma steps_py_sleep v : steps log_within_capacity (py_sleep v).
Proof.
  intros w. apply log_within_capacity_frame;
    unfold py_sleep; destruct (as_number v); try done;
    (destruct (Qle_bool _ _); [done |]); by destruct (Qlt_bool _ _).
Qed.

Lemma steps_pure {A} (m : M A) :
  (∀ w, (m w).2 = w) → steps log_within_capacity m.
Proof. intros H w. rewrite H. reflexivity. Qed.

Ltac log_step :=
  apply (steps_bind log_within_capacity); [| intros ?].

Ltac log_frame :=
  apply (steps_frame log_within_capacity log_within_capacity_frame).

Lemma steps_iteration E srv : steps log_within_capacity (iteration E srv).
Proof.
  unfold iteration. apply steps_try_except; [apply _ | |].
  - unfold iteration_body.
    log_step.
    { apply steps_pure. intros w'. unfold the_broker.
      by destruct (srv_broker srv). }
    log_step; [log_frame; apply frame_opaque_method |].
    log_step; [log_frame; apply frame_get_positions |].
    log_step; [log_frame; apply frame_lift_exc |].
    log_step; [apply steps_add_autotrading_log |].
    log_step; [intros w' H; exact H |].
    log_step.
    { apply steps_call_ai_with_tools;
        [apply _ | apply log_within_capacity_frame
        | intros m w' H; exact H]. }
    log_step.
    { apply steps_pure. intros w'. unfold first_200.
      by match goal with |- context [match ?r with _ => _ end] =>
           destruct r end. }
    log_step; [apply steps_add_autotrading_log |].
    log_step; [| apply steps_py_sleep].
    apply steps_pure. intros w'. unfold config_interval.
    by destruct (autotrading_config srv).
  - intros e. log_step; [apply steps_add_autotrading_log |].
    apply steps_py_sleep.
Qed.

Lemma loop_run_log_within_capacity E srv fuel w :
  log_within_capacity w (loop_run E srv fuel w).2.
Proof.
  revert w. induction fuel as [|fuel IH]; intros w; [reflexivity |].
  cbn [loop_run]. unfold loop_step.
  destruct (autotrading_active E w).
  - pose proof (steps_iteration E srv w) as Hit.
    destruct (iteration E srv w) as [[e|[]] w1]; simpl in *; [done |].
    etrans; [exact Hit | apply IH].
  - apply steps_add_autotrading_log.
Qed.

(** X18.  The audit log stays within its capacity for as long as the
    autotrading loop runs: started with at most 500 entries, it holds at
    most 500 after any number of passes, whatever the venue, the model and
    the tools do in between. *)
Theorem audit_log_bounded_through_loop (E : Env) (srv : server) (fuel : nat)
  (w : world) :
  List.length (logs w) ≤ 500 →
  List.length (logs (autotrading_loop E srv fuel w).2) ≤ 500.
Proof.
  intros Hw. unfold autotrading_loop, bind, the_broker.
  destruct (srv_broker srv) as [b|]; [| done].
  simpl. apply loop_run_log_within_capacity.
  by apply steps_add_autotrading_log.
Qed.

Lemma audit_log_bounded_through_loop_witness :
  List.length
    (logs (autotrading_loop env_down (demo_server Bybit "claude") 3 w0).2)
  ≤ 500.
Proof.
  apply (audit_log_bounded_through_loop env_down
           (demo_server Bybit "claude") 3 w0).
  simpl. lia.
Defined.

End LoopFacts.

(** ** Symbols across the venues *)

Module VenueSymbolFacts.
Import PyStr Symbols PyStrFacts SymbolsFacts Catalogue.

Lemma remove_char_app (c : ascii) (a b : string) :
  remove_char c (a +:+ b) = remove_char c a +:+ remove_char c b.
Proof.
  induction a as [|x a IH]; simpl; [done |].
  destruct (Ascii.eqb x c); simpl; by rewrite IH.
Qed.

(** A string that ends with [USD] does not end with [USDT]. *)
Lemma endswith_USD_not_USDT (p : string) : endswith (p +:+ "USD") "USDT" = false.
Proof.
  induction p as [|c p IH]; [reflexivity |].
  rewrite endswith_unfold, !app_String, IH, orb_false_r.
  destruct p as [|d p].
  - simpl. by destruct (Ascii.eqb c "U").
  - apply eqb_length_ne. simpl. rewrite length_app. simpl. lia.
Qed.

Lemma strip_pair (base : string) :
  contains_char "/" base = false → contains_char "-" base = false →
  remove_char "-" (remove_char "/" (base +:+ "/USD")) = base +:+ "USD".
Proof.
  intros H1 H2.
  rewrite remove_char_app, (remove_char_absent "/" base H1).
  change (remove_char "/" "/USD") with "USD".
  rewrite remove_char_app, (remove_char_absent "-" base H2). reflexivity.
Qed.

(** X19.  An Alpaca pair survives the trip through the derivatives form.
    For a base without separators, the pair [BASE/USD] becomes [BASEUSDT]
    on Bybit, and the Alpaca adapter turns that back into [BASE/USD]; on
    Binance, which upper-cases, the trip gives the pair of the upper-cased
    base. *)
Theorem alpaca_pair_round_trip (base : string) :
  contains_char "/" base = false → contains_char "-" base = false →
  bybit_normalize_symbol (base +:+ "/USD") "crypto" = base +:+ "USDT" ∧
  alpaca_normalize_symbol
    (bybit_normalize_symbol (base +:+ "/USD") "crypto") "crypto"
  = base +:+ "/USD" ∧
  binance_normalize_symbol (base +:+ "/USD") "crypto" = upper base +:+ "USDT" ∧
  alpaca_normalize_symbol
    (binance_normalize_symbol (base +:+ "/USD") "crypto") "crypto"
  = upper base +:+ "/USD".
Proof.
  intros H1 H2.
  assert (∀ p, contains_char "/" p = false →
               alpaca_normalize_symbol (p +:+ "USDT") "crypto" = p +:+ "/USD")
    as Hback.
  { intros p Hp. unfold alpaca_normalize_symbol. simpl String.eqb. cbv iota.
    rewrite contains_char_app, Hp. simpl.
    rewrite endswith_USDT_not_USD, endswith_app.
    by rewrite (drop_last_app 4 p "USDT"). }
  assert (bybit_normalize_symbol (base +:+ "/USD") "crypto" = base +:+ "USDT")
    as Hby.
  { unfold bybit_normalize_symbol. simpl is_crypto_class. cbv iota zeta.
    rewrite (strip_pair base H1 H2), endswith_USD_not_USDT, endswith_app.
    simpl. rewrite endswith_USD_not_USDT, endswith_app. simpl.
    by rewrite (drop_last_app 3 base "USD"). }
  assert (binance_normalize_symbol (base +:+ "/USD") "crypto"
          = upper base +:+ "USDT") as Hbn.
  { unfold binance_normalize_symbol. simpl is_crypto_class. cbv iota zeta.
    rewrite (strip_pair base H1 H2), upper_app.
    change (upper "USD") with "USD".
    rewrite endswith_USD_not_USDT, endswith_app. simpl.
    by rewrite (drop_last_app 3 (upper base) "USD"). }
  rewrite Hby, Hbn. repeat split.
  - by apply Hback.
  - apply Hback. apply contains_char_upper; [done | | done].
    intros [[] [] [] [] [] [] [] []]; cbv; congruence.
Qed.

Lemma alpaca_pair_round_trip_witness :
  bybit_normalize_symbol ("eth" +:+ "/USD") "crypto" = "eth" +:+ "USDT" ∧
  alpaca_normalize_symbol
    (bybit_normalize_symbol ("eth" +:+ "/USD") "crypto") "crypto"
  = "eth" +:+ "/USD" ∧
  binance_normalize_symbol ("eth" +:+ "/USD") "crypto"
  = upper "eth" +:+ "USDT" ∧
  alpaca_normalize_symbol
    (binance_normalize_symbol ("eth" +:+ "/USD") "crypto") "crypto"
  = upper "eth" +:+ "/USD".
Proof. apply (alpaca_pair_round_trip "eth"); reflexivity. Defined.

(** X20.  Whatever symbol string the caller gives, the symbol the Bybit
    and Binance adapters put in a price or order request is canonical: it
    ends in [USDT] and holds no [/] and no [-]; on Binance it is also in
    upper case.  Normalising never fails on a string and makes no call. *)
Theorem derivative_symbols_are_canonical (b : broker) (s : string)
  (w : world) :
  kind b ≠ Alpaca →
  ∃ t, normalize_crypto b (VStr s) w = (inr (VStr t), w) ∧
       t = normalize_symbol (kind b) s "crypto" ∧
       canonical_usdt t ∧ (kind b = Binance → upper t = t).
Proof.
  intros Hk. unfold normalize_crypto.
  destruct (kind b) eqn:K; [done | |]; eexists; (split; [reflexivity |]);
    (split; [reflexivity |]).
  - split; [apply bybit_normalize_canonical | done].
  - destruct (binance_normalize_canonical s) as (_ & Hc & Hu). by split.
Qed.

Lemma derivative_symbols_are_canonical_witness :
  ∃ t, normalize_crypto (demo_broker Binance) (VStr "sol-usd") w0
       = (inr (VStr t), w0) ∧
       t = normalize_symbol Binance "sol-usd" "crypto" ∧
       canonical_usdt t ∧ (Binance = Binance → upper t = t).
Proof.
  apply (derivative_symbols_are_canonical (demo_broker Binance) "sol-usd" w0).
  done.
Defined.

End VenueSymbolFacts.

(** ** The broker factory *)

Module FactoryFacts.
Import Endpoints PyStr PyStrFacts.

Lemma is_space_lower_char (a : ascii) : is_space (lower_char a) = is_space a.
Proof. destruct a as [[] [] [] [] [] [] [] []]; reflexivity. Qed.

Lemma lower_char_idem (a : ascii) : lower_char (lower_char a) = lower_char a.
Proof. destruct a as [[] [] [] [] [] [] [] []]; reflexivity. Qed.

Lemma lower_idem (s : string) : lower (lower s) = lower s.
Proof.
  induction s as [|a s IH]; simpl; [done |].
  by rewrite lower_char_idem, IH.
Qed.

Lemma lower_lstrip (s : string) : lower (lstrip s) = lstrip (lower s).
Proof.
  induction s as [|a s IH]; simpl; [done |].
  rewrite is_space_lower_char. by destruct (is_space a).
Qed.

Lemma lower_rstrip (s : string) : lower (rstrip s) = rstrip (lower s).
Proof.
  induction s as [|a s IH]; simpl; [done |].
  rewrite <- IH, is_space_lower_char.
  destruct (rstrip s); simpl; [by destruct (is_space a) | done].
Qed.

Lemma lower_strip (s : string) : lower (strip s) = strip (lower s).
Proof. unfold strip. by rewrite lower_rstrip, lower_lstrip. Qed.

Lemma rstrip_idem (s : string) : rstrip (rstrip s) = rstrip s.
Proof.
  induction s as [|a s IH]; simpl; [done |].
  destruct (rstrip s) as [|c r] eqn:Hr.
  - destruct (is_space a) eqn:Ha; simpl; [done | by rewrite Ha].
  - cbn [rstrip]. cbn [rstrip] in IH. by rewrite IH.
Qed.

(** What is left of a string stripped on the left starts with a character
    that is not white space, and stripping on the right keeps that
    character. *)
Lemma lstrip_rstrip_lstrip (s : string) :
  lstrip (rstrip (lstrip s)) = rstrip (lstrip s).
Proof.
  induction s as [|a s IH]; simpl; [done |].
  destruct (is_space a) eqn:Ha; [exact IH |].
  cbn [rstrip]. destruct (rstrip s); rewrite ?Ha; simpl; by rewrite Ha.
Qed.

Lemma strip_idem (s : string) : strip (strip s) = strip s.
Proof. unfold strip. by rewrite lstrip_rstrip_lstrip, rstrip_idem. Qed.

Lemma strip_lower_idem (t : string) :
  strip (lower (strip (lower t))) = strip (lower t).
Proof. by rewrite lower_strip, lower_idem, strip_idem. Qed.

Lemma supported_broker_name (id : string) (k : broker_kind) :
  supported_broker id SUPPORTED_BROKERS = Some k →
  id = lower (get_broker_name {| kind := k; api_key := ""; api_secret := "";
                                 paper_mode := true |}).
Proof.
  unfold SUPPORTED_BROKERS. cbn [supported_broker].
  destruct (String.eqb_spec "alpaca" id) as [<-|_]; [by intros [= <-] |].
  destruct (String.eqb_spec "bybit" id) as [<-|_]; [by intros [= <-] |].
  destruct (String.eqb_spec "binance" id) as [<-|_]; [by intros [= <-] |].
  done.
Qed.

Lemma supported_broker_none (id : string) :
  supported_broker id SUPPORTED_BROKERS = None ↔ id ∉ get_supported_brokers.
Proof.
  change get_supported_brokers with ["alpaca"; "bybit"; "binance"].
  unfold SUPPORTED_BROKERS. cbn [supported_broker].
  rewrite !not_elem_of_cons.
  destruct (String.eqb_spec "alpaca" id) as [<-|H1];
    [split; [done | by intros [H _]] |].
  destruct (String.eqb_spec "bybit" id) as [<-|H2];
    [split; [done | by intros (_ & H & _)] |].
  destruct (String.eqb_spec "binance" id) as [<-|H3];
    [split; [done | by intros (_ & _ & H & _)] |].
  split; [intros _ | done].
  repeat split; try congruence. apply not_elem_of_nil.
Qed.

(** X21.  The factory takes the broker id without regard to letter case
    and to white space around it: an id and its lower-cased, stripped form
    create the same broker.  It accepts exactly the ids whose normal form
    is [alpaca], [bybit] or [binance]; any other id raises the
    [ValueError] that names the normalised id and lists the three.  A
    broker that is created is of the venue named and holds the
    credentials and the paper flag as given, and creating a Bybit or
    Binance broker cannot fail. *)
Theorem create_broker_normalises_the_id (S : Sdk)
  (t key secret : string) (paper : bool) :
  let id := strip (lower t) in
  create_broker S id key secret paper = create_broker S t key secret paper ∧
  (id ∉ get_supported_brokers →
   create_broker S t key secret paper =
   inl (mk_exn ValueError
          ("Unsupported broker type: " +:+ id +:+
           ". Supported brokers: alpaca, bybit, binance"))) ∧
  (∀ b, create_broker S t key secret paper = inr b →
     lower (get_broker_name b) = id ∧ api_key b = key ∧
     api_secret b = secret ∧ paper_mode b = paper) ∧
  (id = "bybit" ∨ id = "binance" →
   ∃ b, create_broker S t key secret paper = inr b).
Proof.
  cbv zeta. split; [| split; [| split]].
  - unfold create_broker. cbv zeta. by rewrite strip_lower_idem.
  - intros Hid%supported_broker_none. unfold create_broker. cbv zeta.
    by rewrite Hid.
  - intros b. unfold create_broker. cbv zeta.
    destruct (supported_broker _ _) as [k|] eqn:Hk; [| done].
    apply supported_broker_name in Hk. rewrite Hk. unfold new_broker.
    destruct k; [destruct (alpaca_clients S key secret paper); [done |] | |];
      by intros [= <-].
  - unfold create_broker. cbv zeta. intros [-> | ->]; by eexists.
Qed.

Lemma create_broker_normalises_the_id_witness :
  create_broker sdk_ok (strip (lower "  ByBit ")) "key" "secret" true
  = create_broker sdk_ok "  ByBit " "key" "secret" true ∧
  ∃ b, create_broker sdk_ok "  ByBit " "key" "secret" true = inr b.
Proof.
  destruct (create_broker_normalises_the_id sdk_ok "  ByBit " "key" "secret"
              true) as (H1 & _ & _ & H4).
  split; [exact H1 |]. apply H4. by left.
Defined.

(** X22.  What the factory advertises about a broker is what its adapter
    does, where the two can be compared: for each supported id the entry
    of [get_broker_info] carries the adapter's name and, as
    [max_crypto_leverage], the ceiling the executor enforces on a crypto
    order, and it says [supports_stocks] exactly for the adapter whose
    stock orders are not refused.  The two disagree elsewhere: the entry
    says [supports_leverage] for every broker, Alpaca included, and gives
    the crypto venues a [max_stock_leverage] of 0 where their adapters
    answer 1. *)
Theorem broker_info_matches_adapters (id : string) (k : broker_kind)
  (key secret : string) (paper : bool) :
  (id, k) ∈ SUPPORTED_BROKERS →
  let b := {| kind := k; api_key := key; api_secret := secret;
              paper_mode := paper |} in
  ∃ entry,
    py_getitem get_broker_info id = inr entry ∧
    py_getitem entry "name" = inr (VStr (get_broker_name b)) ∧
    py_getitem entry "max_crypto_leverage"
    = inr (VInt (get_max_leverage b "crypto")) ∧
    (py_getitem entry "supports_stocks" = inr (VBool true) ↔ k = Alpaca) ∧
    py_getitem entry "supports_leverage" = inr (VBool true) ∧
    (supports_crypto_leverage b = true ↔ k ≠ Alpaca) ∧
    (py_getitem entry "max_stock_leverage"
     = inr (VInt (get_max_leverage b "stock")) ↔ k = Alpaca).
Proof.
  intros Hin b. subst b. unfold SUPPORTED_BROKERS in Hin.
  repeat (apply elem_of_cons in Hin as [[= -> ->] | Hin]);
    [.. | by apply elem_of_nil in Hin];
    eexists; (split; [reflexivity |]);
    repeat split; try done; try (intros [=]); try (by intros H; destruct H).
Qed.

Lemma broker_info_matches_adapters_witness :
  ∃ entry,
    py_getitem get_broker_info "binance" = inr entry ∧
    py_getitem entry "name" = inr (VStr "Binance") ∧
    py_getitem entry "max_crypto_leverage" = inr (VInt 125) ∧
    (py_getitem entry "supports_stocks" = inr (VBool true) ↔ Binance = Alpaca)
    ∧ py_getitem entry "supports_leverage" = inr (VBool true) ∧
    (true = true ↔ Binance ≠ Alpaca) ∧
    (py_getitem entry "max_stock_leverage" = inr (VInt 1)
     ↔ Binance = Alpaca).
Proof.
  apply (broker_info_matches_adapters "binance" Binance "key" "secret" true).
  apply list_elem_of_In. simpl. tauto.
Defined.

End FactoryFacts.

(** ** The initialisation endpoint *)

Module InitializeFacts.
Import Endpoints PyStr FactoryFacts.
#[local] Open Scope Z_scope.

Lemma broker_credentials_supported rq id :
  broker_credentials rq id = None ↔ id ∉ get_supported_brokers.
Proof.
  change get_supported_brokers with ["alpaca"; "bybit"; "binance"].
  unfold broker_credentials. rewrite !not_elem_of_cons.
  destruct (String.eqb_spec id "alpaca") as [->|H1];
    [split; [done | by intros [H _]] |].
  destruct (String.eqb_spec id "bybit") as [->|H2];
    [split; [done | by intros (_ & H & _)] |].
  destruct (String.eqb_spec id "binance") as [->|H3];
    [split; [done | by intros (_ & _ & H & _)] |].
  split; [intros _ | done].
  repeat split; try congruence. apply not_elem_of_nil.
Qed.

Lemma missing_false key : missing key = false → ∃ s, key = Some s ∧ s ≠ "".
Proof.
  destruct key as [s|]; [| done]. simpl.
  intros H%String.eqb_neq. by exists s.
Qed.

(** [create_broker] on one of the three exact ids. *)
Lemma create_broker_exact S rq id keys key secret paper :
  broker_credentials rq id = Some keys →
  ∃ k, supported_broker id SUPPORTED_BROKERS = Some k ∧
       create_broker S id key secret paper = new_broker S k key secret paper.
Proof.
  unfold broker_credentials.
  destruct (String.eqb_spec id "alpaca") as [->|H1]; [by eexists |].
  destruct (String.eqb_spec id "bybit") as [->|H2]; [by eexists |].
  destruct (String.eqb_spec id "binance") as [->|H3]; [by eexists |].
  done.
Qed.

(** X23.  [initialize] rejects before it changes anything.  It answers
    400 exactly when the broker id ([alpaca] when absent) is not literally
    one of [alpaca], [bybit], [binance], or when the key or the secret of
    that broker is absent or empty; the globals and the conversation are
    then as they were.  The id is matched as written, so an id the
    factory would accept after lower-casing is refused here. *)
Theorem initialize_rejects_untouched (S : Sdk) (rq : init_request)
  (srv : server) (w : world) :
  let id := default "alpaca" (rq_broker rq) in
  let r := initialize S rq srv w in
  (r.1.1.2 = 400 ↔
   id ∉ get_supported_brokers ∨
   ∃ key secret, broker_credentials rq id = Some (key, secret) ∧
                 (missing key = true ∨ missing secret = true)) ∧
  (r.1.1.2 = 400 → r.1.2 = srv ∧ r.2 = w) ∧
  (id ∉ get_supported_brokers →
   r.1.1.1 = error_result ("Unsupported broker: " +:+ id)).
Proof.
  cbv zeta. unfold initialize. cbv zeta.
  set (id := default "alpaca" (rq_broker rq)).
  pose proof (broker_credentials_supported rq id) as Hsup.
  destruct (broker_credentials rq id) as [[key secret]|] eqn:Hcred.
  - assert (id ∈ get_supported_brokers) as Hin.
    { destruct (decide (id ∈ get_supported_brokers)) as [|Hn]; [done |].
      by apply Hsup in Hn. }
    destruct (missing key || missing secret) eqn:Hm.
    + split; [| done]. simpl. split; [intros _ | done].
      right. exists key, secret. split; [done |].
      by apply orb_true_iff in Hm.
    + apply orb_false_iff in Hm as [Hk Hs].
      assert (∀ x : response * server * world,
                x.1.1.2 ≠ 400 →
                (x.1.1.2 = 400 ↔
                 id ∉ get_supported_brokers ∨
                 ∃ key0 secret0, Some (key, secret) = Some (key0, secret0) ∧
                   (missing key0 = true ∨ missing secret0 = true)) ∧
                (x.1.1.2 = 400 → x.1.2 = srv ∧ x.2 = w) ∧
                (id ∉ get_supported_brokers →
                 x.1.1.1 = error_result ("Unsupported broker: " +:+ id)))
        as Hgen.
      { intros x Hx. split; [| split]; [| done | done].
        split; [done |]. intros [Hn | (k0 & s0 & [= <- <-] & [H|H])];
          congruence. }
      destruct (create_broker S id _ _ _) as [e|b]; [by apply Hgen |].
      destruct (_ && _).
      { destruct (anthropic_init S _); by apply Hgen. }
      destruct (_ && _); [| by apply Hgen].
      destruct (openai_init S _); by apply Hgen.
  - simpl. split; [| split]; [| done | done].
    split; [intros _ | done]. left. by apply Hsup.
Qed.

Lemma initialize_rejects_untouched_witness :
  let rq := {| rq_broker := Some "Bybit";
               rq_alpaca_key := None; rq_alpaca_secret := None;
               rq_bybit_key := Some "k"; rq_bybit_secret := Some "s";
               rq_binance_key := None; rq_binance_secret := None;
               rq_claude_key := None; rq_deepseek_key := None;
               rq_ai_model := None; rq_paper_mode := None |} in
  initialize sdk_ok rq no_server w0
  = ((error_result "Unsupported broker: Bybit", 400), no_server, w0) ∧
  ∃ b, create_broker sdk_ok "Bybit" "k" "s" true = inr b.
Proof.
  cbv zeta. split; [| by eexists].
  set (rq := Build_init_request _ _ _ _ _ _ _ _ _ _ _).
  destruct (initialize_rejects_untouched sdk_ok rq no_server w0)
    as (Hiff & Hsame & Hmsg).
  destruct (initialize sdk_ok rq no_server w0) as [[[body status] srv'] w']
    eqn:Hr.
  assert ("Bybit" ∉ get_supported_brokers) as Hn
    by by apply supported_broker_none.
  simpl in Hiff, Hsame, Hmsg.
  destruct Hsame as [-> ->]; [apply Hiff; by left |].
  rewrite (Hmsg Hn). f_equal. f_equal. f_equal. apply Hiff. by left.
Defined.

(** X24.  A successful [initialize] installs the broker that was asked
    for with that broker's own credentials: the broker is of the venue
    named by the id, its key and secret are the pair the request carries
    for that venue (never another venue's), its paper flag is the one
    given ([True] when absent); the model is the one selected ([claude]
    when absent); the conversation is empty again; the response reports
    the adapter's crypto leverage ceiling; and a model client that was
    there before is still there. *)
Theorem initialize_installs_the_venue (S : Sdk) (rq : init_request)
  (srv srv' : server) (w w' : world) (body : pyval) :
  initialize S rq srv w = ((body, 200), srv', w') →
  let id := default "alpaca" (rq_broker rq) in
  ∃ b,
    srv_broker srv' = Some b ∧
    supported_broker id SUPPORTED_BROKERS = Some (kind b) ∧
    broker_credentials rq id = Some (Some (api_key b), Some (api_secret b)) ∧
    paper_mode b = default true (rq_paper_mode rq) ∧
    ai_model srv' = default "claude" (rq_ai_model rq) ∧
    w' = with_messages [] w ∧
    dict_get "max_crypto_leverage"
      (match body with VDict d => d | _ => [] end)
    = Some (VInt (get_max_leverage b "crypto")) ∧
    (anthropic_client srv = true → anthropic_client srv' = true) ∧
    (openai_client srv = true → openai_client srv' = true).
Proof.
  unfold initialize. cbv zeta.
  set (id := default "alpaca" (rq_broker rq)).
  destruct (broker_credentials rq id) as [[key secret]|] eqn:Hcred; [| done].
  destruct (missing key || missing secret) eqn:Hm; [done |].
  apply orb_false_iff in Hm as [Hk Hs].
  apply missing_false in Hk as (ks & -> & _).
  apply missing_false in Hs as (ss & -> & _). simpl default.
  destruct (create_broker_exact S rq id _ ks ss
              (default true (rq_paper_mode rq)) Hcred) as (k & Hk & ->).
  assert (∀ b, new_broker S k ks ss (default true (rq_paper_mode rq)) = inr b →
               kind b = k ∧ api_key b = ks ∧ api_secret b = ss ∧
               paper_mode b = default true (rq_paper_mode rq)) as Hnew.
  { intros b. unfold new_broker.
    destruct k; [destruct (alpaca_clients S _ _ _); [done |] | |];
      by intros [= <-]. }
  destruct (new_broker S k ks ss _) as [e|b] eqn:Hb; [done |].
  destruct (Hnew b eq_refl) as (Hkind & Hkey & Hsec & Hpaper).
  destruct (_ && _).
  { destruct (anthropic_init S _); [done |].
    intros [= <- <- <-]. exists b. rewrite Hkind, Hkey, Hsec.
    repeat split; done. }
  destruct (_ && _).
  { destruct (openai_init S _); [done |].
    intros [= <- <- <-]. exists b. rewrite Hkind, Hkey, Hsec.
    repeat split; done. }
  intros [= <- <- <-]. exists b. rewrite Hkind, Hkey, Hsec.
  repeat split; done.
Qed.

Lemma initialize_installs_the_venue_witness :
  ∃ b,
    srv_broker (initialize sdk_ok bybit_request no_server w0).1.2 = Some b ∧
    supported_broker "bybit" SUPPORTED_BROKERS = Some (kind b) ∧
    broker_credentials bybit_request "bybit"
    = Some (Some (api_key b), Some (api_secret b)) ∧
    api_key b = "bybit-key" ∧ paper_mode b = true.
Proof.
  destruct (initialize_installs_the_venue sdk_ok bybit_request no_server
              (initialize sdk_ok bybit_request no_server w0).1.2 w0
              (initialize sdk_ok bybit_request no_server w0).2
              (initialize sdk_ok bybit_request no_server w0).1.1.1)
    as (b & H1 & H2 & H3 & H4 & _); [reflexivity |].
  exists b. repeat split; try done.
  simpl in H3. by injection H3 as <- _.
Defined.

(** X25.  [initialize] answers 500 only with the error of a constructor
    outside the repository (the alpaca-py clients, the Anthropic client or
    the OpenAI client): the factory's own rejection of an unknown broker
    type is never reached from here.  When it is a model client that
    failed, the new broker and the selected model are already in place and
    the conversation is not reset. *)
Theorem initialize_fails_only_outside (S : Sdk) (rq : init_request)
  (srv srv' : server) (w w' : world) (body : pyval) :
  initialize S rq srv w = ((body, 500), srv', w') →
  w' = w ∧
  ∃ e, body = error_result (exn_str e) ∧
    ((∃ key secret paper, alpaca_clients S key secret paper = inl e ∧
                          srv' = srv) ∨
     (∃ key b, (anthropic_init S key = inl e ∨ openai_init S key = inl e) ∧
               srv' = with_broker b (default "claude" (rq_ai_model rq)) srv)).
Proof.
  unfold initialize. cbv zeta.
  set (id := default "alpaca" (rq_broker rq)).
  destruct (broker_credentials rq id) as [[key secret]|] eqn:Hcred; [| done].
  destruct (missing key || missing secret) eqn:Hm; [done |].
  destruct (create_broker_exact S rq id _ (default "" key) (default "" secret)
              (default true (rq_paper_mode rq)) Hcred) as (k & Hk & ->).
  destruct (new_broker S k _ _ _) as [e|b] eqn:Hb.
  { intros [= <- <- <-]. split; [done |]. exists e. split; [done |]. left.
    unfold new_broker in Hb. destruct k; try done.
    destruct (alpaca_clients S _ _ _) eqn:Ha; [| done].
    injection Hb as <-. by eexists _, _, _. }
  destruct (_ && _).
  { destruct (anthropic_init S _) eqn:Ha; [| done].
    intros [= <- <- <-]. split; [done |]. eexists. split; [done |].
    right. eexists _, b. split; [by left | done]. }
  destruct (_ && _); [| done].
  destruct (openai_init S _) eqn:Ha; [| done].
  intros [= <- <- <-]. split; [done |]. eexists. split; [done |].
  right. eexists _, b. split; [by right | done].
Qed.

Lemma initialize_fails_only_outside_witness :
  (initialize sdk_no_anthropic bybit_request no_server w0).2 = w0 ∧
  ∃ e, (initialize sdk_no_anthropic bybit_request no_server w0).1.1.1
       = error_result (exn_str e) ∧
    ((∃ key secret paper,
        alpaca_clients sdk_no_anthropic key secret paper = inl e ∧
        (initialize sdk_no_anthropic bybit_request no_server w0).1.2
        = no_server) ∨
     (∃ key b,
        (anthropic_init sdk_no_anthropic key = inl e ∨
         openai_init sdk_no_anthropic key = inl e) ∧
        (initialize sdk_no_anthropic bybit_request no_server w0).1.2
        = with_broker b (default "claude" (rq_ai_model bybit_request))
            no_server)).
Proof.
  apply (initialize_fails_only_outside sdk_no_anthropic bybit_request
           no_server _ w0 _
           (initialize sdk_no_anthropic bybit_request no_server w0).1.1.1).
  reflexivity.
Defined.

End InitializeFacts.

(** ** The chat endpoint *)

Module ChatFacts.
Import Endpoints FrameFacts ExecutorFacts OrchestratorFacts AuditLogFacts
  HistoryFacts LoopFacts.
#[local] Open Scope nat_scope.
#[local] Open Scope list_scope.

(** What trimming keeps: the first message and, when the history is over
    20 messages long, the last 19. *)
Lemma trim_history_spec (first : message) (rest : list message) :
  ∃ dropped kept,
    rest = dropped ++ kept ∧
    trim_history (first :: rest) = first :: kept ∧
    (dropped = [] ∨ List.length kept = 19) ∧
    List.length kept ≤ 19.
Proof.
  unfold trim_history.
  destruct (20 <? List.length (first :: rest)) eqn:Hlen.
  - apply Nat.ltb_lt in Hlen. simpl in Hlen.
    exists (firstn (List.length rest - 19) rest),
           (skipn (List.length rest - 19) rest).
    split; [by rewrite firstn_skipn |]. split; [| split].
    + unfold keep_last. simpl List.length.
      replace (S (List.length rest) - 19) with (S (List.length rest - 19))
        by lia.
      reflexivity.
    + right. rewrite length_skipn. lia.
    + rewrite length_skipn. lia.
  - apply Nat.ltb_ge in Hlen. simpl in Hlen.
    exists [], rest. repeat split; [by left | lia].
Qed.

(** The state the [try:] block of [chat] reaches before the model is
    called, and what the call makes of it. *)
Lemma chat_body_unfold E srv b msg w :
  chat_body E srv b msg w =
  let w2 := with_messages (messages w ++ opening b (messages w)
                           ++ [MUser msg]) w in
  match call_ai_with_tools E srv 10 w2 with
  | (inl e, w3) => (inl e, w3)
  | (inr r, w3) =>
      (inr r,
       with_messages (trim_history (messages w3 ++ [MAssistantText r])) w3)
  end.
Proof.
  unfold chat_body, bind at 1, get_messages at 1.
  destruct (messages w) as [|m ms] eqn:Hm; cbv zeta;
    unfold bind at 1 2, append_message at 1 2; simpl;
    rewrite ?Hm; simpl.
  - unfold bind at 1.
    destruct (call_ai_with_tools E srv 10 _) as [[e|r] w3]; reflexivity.
  - unfold ret at 1, bind at 1.
    destruct (call_ai_with_tools E srv 10 _) as [[e|r] w3]; reflexivity.
Qed.

Lemma call_ai_extends E srv max_turns w :
  ∃ added, messages (call_ai_with_tools E srv max_turns w).2
           = messages w ++ added.
Proof.
  apply (steps_call_ai_with_tools history_extends history_extends_frame).
  intros m w'. by exists [m].
Qed.

(** X26.  After a chat that is answered, the conversation is bounded and
    keeps its two ends.  It holds at most 20 messages; its first message
    is the one it started with (the system message when it was empty); its
    last message is the assistant's reply that was returned.  What is
    dropped is one block of messages right after the first, and then
    exactly 19 follow the first. *)
Theorem chat_keeps_history_bounded (E : Env) (srv : server) (b : broker)
  (msg : string) (w w' : world) (r : pyval) :
  srv_broker srv = Some b →
  chat E srv msg w = ((VDict [("response", r)], 200%Z), w') →
  List.length (messages w') ≤ 20 ∧
  head (messages w') = head (messages w ++ opening b (messages w)) ∧
  last (messages w') = Some (MAssistantText r) ∧
  ∃ first added dropped kept,
    messages w ++ opening b (messages w) ++ MUser msg :: added
    ++ [MAssistantText r] = first :: dropped ++ kept ∧
    messages w' = first :: kept ∧
    (dropped = [] ∨ List.length kept = 19).
Proof.
  intros Hb. unfold chat. rewrite Hb.
  destruct (String.eqb msg ""); [done |].
  rewrite chat_body_unfold. cbv zeta.
  set (w2 := with_messages _ w).
  destruct (call_ai_extends E srv 10 w2) as (added & Hext).
  destruct (call_ai_with_tools E srv 10 w2) as [[e|r'] w3]; [done |].
  intros [= -> <-]. simpl in Hext. simpl messages.
  assert (∃ first rest,
            messages w ++ opening b (messages w) = first :: rest) as
    (first & rest & Hfirst).
  { destruct (messages w); simpl; by eexists _, _. }
  assert (messages w3 ++ [MAssistantText r] =
          first :: rest ++ [MUser msg] ++ added ++ [MAssistantText r]) as ->.
  { rewrite Hext, (app_assoc (messages w)), Hfirst. simpl.
    by rewrite <- !app_assoc. }
  destruct (trim_history_spec first
              (rest ++ [MUser msg] ++ added ++ [MAssistantText r]))
    as (dropped & kept & Hsplit & -> & Hor & Hlen).
  split; [simpl; lia |]. split; [by rewrite Hfirst |]. split.
  - assert (last (rest ++ [MUser msg] ++ added ++ [MAssistantText r])
            = Some (MAssistantText r)) as Hlast.
    { by rewrite !app_assoc, last_snoc. }
    rewrite Hsplit in Hlast.
    destruct kept as [|k kept].
    + destruct Hor as [-> | Hk]; [| simpl in Hk; lia].
      simpl in Hsplit. by destruct rest.
    + rewrite last_app_cons in Hlast. by rewrite last_cons_cons.
  - exists first, added, dropped, kept.
    rewrite (app_assoc (messages w)), Hfirst, <- Hsplit. by simpl.
Qed.

Lemma chat_keeps_history_bounded_witness :
  let w' := (chat env_down (demo_server Bybit "claude") "Should I buy?" w0).2 in
  List.length (messages w') ≤ 20 ∧
  head (messages w') = head (messages w0 ++ opening (demo_broker Bybit)
                                              (messages w0)) ∧
  last (messages w') = Some (MAssistantText (VStr "Hold.")) ∧
  ∃ first added dropped kept,
    messages w0 ++ opening (demo_broker Bybit) (messages w0)
    ++ MUser "Should I buy?" :: added ++ [MAssistantText (VStr "Hold.")]
    = first :: dropped ++ kept ∧
    messages w' = first :: kept ∧
    (dropped = [] ∨ List.length kept = 19).
Proof.
  apply (chat_keeps_history_bounded env_down (demo_server Bybit "claude")
           (demo_broker Bybit) "Should I buy?" w0).
  - reflexivity.
  - vm_compute. reflexivity.
Defined.

(** X27.  A chat that fails is not rolled back.  When the orchestrator
    raises, the answer is a 500 carrying the error's text, and the
    conversation keeps what was appended before the failure: the system
    message if the conversation was empty, the user's message, and
    whatever the run had added.  It is not trimmed on this path, so each
    failed request leaves the conversation longer than it found it. *)
Theorem failed_chat_keeps_the_message (E : Env) (srv : server) (b : broker)
  (msg : string) (w w' : world) (body : pyval) :
  srv_broker srv = Some b →
  chat E srv msg w = ((body, 500%Z), w') →
  ∃ e added,
    body = error_result (exn_str e) ∧
    messages w' =
    messages w ++ opening b (messages w) ++ MUser msg :: added ∧
    List.length (messages w) < List.length (messages w').
Proof.
  intros Hb. unfold chat. rewrite Hb.
  destruct (String.eqb msg ""); [done |].
  rewrite chat_body_unfold. cbv zeta.
  set (w2 := with_messages _ w).
  destruct (call_ai_extends E srv 10 w2) as (added & Hext).
  destruct (call_ai_with_tools E srv 10 w2) as [[e|r'] w3]; [| done].
  intros [= <- <-]. simpl in Hext. exists e, added.
  split; [done |]. rewrite Hext, <- !app_assoc. split; [done |].
  rewrite !length_app. simpl. lia.
Qed.

Lemma failed_chat_keeps_the_message_witness :
  let r := chat env_overloaded (demo_server Bybit "claude") "Should I buy?"
             w0 in
  ∃ e added,
    r.1.1 = error_result (exn_str e) ∧
    messages r.2 =
    messages w0 ++ opening (demo_broker Bybit) (messages w0)
    ++ MUser "Should I buy?" :: added ∧
    List.length (messages w0) < List.length (messages r.2).
Proof.
  apply (failed_chat_keeps_the_message env_overloaded
           (demo_server Bybit "claude") (demo_broker Bybit) "Should I buy?"
           w0).
  - reflexivity.
  - vm_compute. reflexivity.
Defined.

End ChatFacts.

(** ** The relative strength index *)

Module IndicatorFacts.
Import Indicators PositionFacts.
#[local] Open Scope Q_scope.

Lemma gain_nonneg d : 0 <= gain d.
Proof.
  unfold gain. destruct (Qlt_bool 0 d) eqn:H; [| apply Qle_refl].
  by apply Qlt_le_weak, Qlt_bool_true.
Qed.

Lemma loss_nonneg d : 0 <= loss d.
Proof.
  unfold loss. destruct (Qlt_bool d 0) eqn:H; [| apply Qle_refl].
  apply Qlt_bool_true in H. apply (Qopp_le_compat d 0). by apply Qlt_le_weak.
Qed.

Lemma fold_sum_nonneg (l : list Q) (acc : Q) :
  Forall (λ x, 0 <= x) l → 0 <= acc → 0 <= fold_left Qplus l acc.
Proof.
  intros Hl. revert acc. induction Hl as [|x l Hx _ IH]; intros acc Hacc;
    simpl; [done |].
  apply IH. rewrite <- (Qplus_0_l 0). by apply Qplus_le_compat.
Qed.

Lemma smooth_nonneg (period : nat) (avg x : Q) :
  (1 ≤ period)%nat → 0 <= avg → 0 <= x → 0 <= smooth period avg x.
Proof.
  intros Hp Havg Hx. unfold smooth.
  assert (1 <= inject_Z (Z.of_nat period)) as H1.
  { change 1 with (inject_Z 1). rewrite <- Zle_Qle. lia. }
  apply Qle_shift_div_l.
  - apply Qlt_le_trans with 1; [done | exact H1].
  - rewrite Qmult_0_l. rewrite <- (Qplus_0_l 0).
    apply Qplus_le_compat; [| done].
    apply Qmult_le_0_compat; [done |].
    apply (Qplus_le_l _ _ 1). ring_simplify. exact H1.
Qed.

Lemma fold_smooth_nonneg (period : nat) (l : list Q) (avg : Q) :
  (1 ≤ period)%nat → Forall (λ x, 0 <= x) l → 0 <= avg →
  0 <= fold_left (smooth period) l avg.
Proof.
  intros Hp Hl. revert avg. induction Hl as [|x l Hx _ IH]; intros avg Havg;
    simpl; [done |].
  apply IH. by apply smooth_nonneg.
Qed.

Lemma round_half_even_range (x : Q) (n : Z) :
  0 <= x → x <= inject_Z n →
  (0 ≤ round_half_even x ≤ n)%Z.
Proof.
  intros H0 Hn. unfold round_half_even.
  assert (0 ≤ Qfloor x)%Z as Hf0.
  { change 0%Z with (Qfloor 0). by apply Qfloor_resp_le. }
  assert (Qfloor x ≤ n)%Z as Hfn.
  { rewrite <- (Qfloor_Z n). by apply Qfloor_resp_le. }
  destruct (Qlt_bool (x - inject_Z (Qfloor x)) (1 # 2)) eqn:Hd; [lia |].
  assert (Qfloor x ≠ n) as Hne.
  { intros Heq. apply Qlt_bool_false in Hd.
    assert (x - inject_Z (Qfloor x) <= 0) as Hle.
    { rewrite Heq. apply (Qplus_le_l _ _ (inject_Z n)). by ring_simplify. }
    assert ((1 # 2) <= 0) as Habs by (by apply Qle_trans with (2 := Hle)).
    by apply Qle_not_lt in Habs. }
  destruct (Qlt_bool (1 # 2) _); [lia |].
  destruct (Z.even _); lia.
Qed.

Lemma round2_range (q : Q) : 0 <= q → q <= 100 → 0 <= round2 q ∧ round2 q <= 100.
Proof.
  intros H0 H100. unfold round2.
  destruct (round_half_even_range (q * 100) 10000) as [Hl Hu].
  - apply Qmult_le_0_compat; [done | by apply Qlt_le_weak].
  - change (inject_Z 10000) with (100 * 100).
    apply Qmult_le_compat_r; [done | by apply Qlt_le_weak].
  - split.
    + apply Qle_shift_div_l; [done |]. rewrite Qmult_0_l.
      change 0 with (inject_Z 0). by rewrite <- Zle_Qle.
    + apply Qle_shift_div_r; [done |].
      change (100 * 100) with (inject_Z 10000). by rewrite <- Zle_Qle.
Qed.

(** The index before rounding lies between 0 and 100. *)
Lemma rsi_value_range (avg_gain avg_loss : Q) :
  0 <= avg_gain → 0 < avg_loss →
  let rsi := 100 - 100 / (1 + avg_gain / avg_loss) in
  0 <= rsi ∧ rsi <= 100.
Proof.
  intros Hg Hl. cbv zeta.
  assert (0 <= avg_gain / avg_loss) as Hrs.
  { apply Qle_shift_div_l; [done |]. by rewrite Qmult_0_l. }
  assert (1 <= 1 + avg_gain / avg_loss) as H1.
  { rewrite <- (Qplus_0_r 1) at 1. by apply Qplus_le_r. }
  assert (0 < 1 + avg_gain / avg_loss) as Hpos
    by (by apply Qlt_le_trans with 1).
  assert (0 <= 100 / (1 + avg_gain / avg_loss)) as Hq0.
  { apply Qle_shift_div_l; [done |]. by rewrite Qmult_0_l. }
  assert (100 / (1 + avg_gain / avg_loss) <= 100) as Hq1.
  { apply Qle_shift_div_r; [done |].
    rewrite <- (Qmult_1_r 100) at 1.
    apply Qmult_le_l; done. }
  split.
  - apply (Qplus_le_l _ _ (100 / (1 + avg_gain / avg_loss))).
    by ring_simplify.
  - apply (Qplus_le_l _ _ (100 / (1 + avg_gain / avg_loss))).
    ring_simplify. rewrite <- (Qplus_0_l 100) at 1.
    by apply Qplus_le_l.
Qed.

Lemma Forall_gains (ds : list Q) : Forall (λ x, 0 <= x) (map gain ds).
Proof. apply Forall_fmap, Forall_true. intros d. apply gain_nonneg. Qed.

Lemma Forall_losses (ds : list Q) : Forall (λ x, 0 <= x) (map loss ds).
Proof. apply Forall_fmap, Forall_true. intros d. apply loss_nonneg. Qed.

Lemma average_nonneg (period : nat) (l : list Q) :
  (1 ≤ period)%nat → Forall (λ x, 0 <= x) l →
  0 <= fold_left (smooth period) (skipn period l)
         (py_sum (firstn period l) / inject_Z (Z.of_nat period)).
Proof.
  intros Hp Hl. apply fold_smooth_nonneg; [done | |].
  - by apply Forall_drop.
  - apply Qle_shift_div_l.
    + change 0 with (inject_Z 0). rewrite <- Zlt_Qlt. lia.
    + rewrite Qmult_0_l. apply fold_sum_nonneg; [| done].
      by apply Forall_take.
Qed.

(** X28.  The relative strength index is a percentage.  For a positive
    period: with fewer than [period + 1] prices there is no index
    ([None]); otherwise [calculate_rsi] returns a number between 0 and
    100, both included, and never raises. *)
Theorem rsi_is_a_percentage (prices : list Q) (period : nat) :
  (1 ≤ period)%nat →
  ((List.length prices < period + 1)%nat →
   calculate_rsi prices period = inr VNone) ∧
  ((period + 1 ≤ List.length prices)%nat →
   ∃ v q, calculate_rsi prices period = inr v ∧
          as_number v = Some q ∧ 0 <= q ∧ q <= 100).
Proof.
  intros Hp. unfold calculate_rsi. split.
  - intros Hlen. apply Nat.ltb_lt in Hlen. by rewrite Hlen.
  - intros Hlen. apply Nat.ltb_ge in Hlen. rewrite Hlen. cbv zeta.
    destruct period as [|n]; [lia |].
    set (ag := fold_left _ (skipn (S n) (map gain _)) _).
    set (al := fold_left _ (skipn (S n) (map loss _)) _).
    assert (0 <= ag) as Hag
      by (apply average_nonneg; [lia | apply Forall_gains]).
    assert (0 <= al) as Hal
      by (apply average_nonneg; [lia | apply Forall_losses]).
    destruct (Qeq_bool al 0) eqn:Hz.
    + exists (VInt 100), (inject_Z 100). by repeat split.
    + apply Qeq_bool_neq in Hz.
      assert (0 < al) as Hpos.
      { apply Qle_lt_or_eq in Hal as [|Heq]; [done |].
        destruct Hz. by symmetry. }
      destruct (rsi_value_range ag al Hag Hpos) as [H0 H100].
      destruct (round2_range _ H0 H100) as [Hr0 Hr100].
      eexists _, _. by repeat split.
Qed.

Lemma rsi_is_a_percentage_witness :
  ((List.length [10; 11; 10; 12] < 2 + 1)%nat →
   calculate_rsi [10; 11; 10; 12] 2 = inr VNone) ∧
  ((2 + 1 ≤ List.length [10; 11; 10; 12])%nat →
   ∃ v q, calculate_rsi [10; 11; 10; 12] 2 = inr v ∧
          as_number v = Some q ∧ 0 <= q ∧ q <= 100).
Proof. apply (rsi_is_a_percentage [10; 11; 10; 12] 2). lia. Defined.

Lemma deltas_of_rising (prices : list Q) :
  Sorted Qle prices → Forall (λ d, 0 <= d) (deltas prices).
Proof.
  induction 1 as [|a rest Hs IH Hhd]; [constructor |].
  destruct rest as [|b rest]; [constructor |]. cbn [deltas].
  constructor; [| exact IH].
  inversion Hhd as [|? ? Hab]; subst.
  apply (Qplus_le_l _ _ a). by ring_simplify.
Qed.

Lemma losses_of_rising (ds : list Q) :
  Forall (λ d, 0 <= d) ds → Forall (λ x, x == 0) (map loss ds).
Proof.
  intros H. apply Forall_fmap. eapply Forall_impl; [exact H |].
  intros d Hd. simpl. unfold loss.
  destruct (Qlt_bool d 0) eqn:Hlt; [| reflexivity].
  apply Qlt_bool_true in Hlt. by apply Qle_not_lt in Hd.
Qed.

Lemma fold_sum_zero (l : list Q) (acc : Q) :
  Forall (λ x, x == 0) l → acc == 0 → fold_left Qplus l acc == 0.
Proof.
  intros Hl. revert acc. induction Hl as [|x l Hx _ IH]; intros acc Hacc;
    simpl; [done |].
  apply IH. rewrite Hacc, Hx. reflexivity.
Qed.

Lemma fold_smooth_zero (period : nat) (l : list Q) (avg : Q) :
  (1 ≤ period)%nat → Forall (λ x, x == 0) l → avg == 0 →
  fold_left (smooth period) l avg == 0.
Proof.
  intros Hp Hl. revert avg. induction Hl as [|x l Hx _ IH]; intros avg Havg;
    simpl; [done |].
  apply IH. unfold smooth. rewrite Havg, Hx. field.
  intros H. unfold Qeq in H. simpl in H. lia.
Qed.

(** X29.  A series in which no price is lower than the one before has an
    index of 100, a flat series included: with no loss in the window the
    average loss is zero and [calculate_rsi] answers the integer 100
    without dividing. *)
Theorem rsi_of_rising_prices (prices : list Q) (period : nat) :
  (1 ≤ period)%nat → (period + 1 ≤ List.length prices)%nat →
  Sorted Qle prices →
  calculate_rsi prices period = inr (VInt 100).
Proof.
  intros Hp Hlen Hs. unfold calculate_rsi.
  apply Nat.ltb_ge in Hlen. rewrite Hlen. cbv zeta.
  destruct period as [|n]; [lia |].
  pose proof (losses_of_rising _ (deltas_of_rising _ Hs)) as Hz.
  assert (fold_left (smooth (S n)) (skipn (S n) (map loss (deltas prices)))
            (py_sum (firstn (S n) (map loss (deltas prices)))
             / inject_Z (Z.of_nat (S n))) == 0) as Hal.
  { apply fold_smooth_zero; [lia | by apply Forall_drop |].
    unfold py_sum. rewrite fold_sum_zero; [| by apply Forall_take | done].
    field. intros H. unfold Qeq in H. simpl in H. lia. }
  apply Qeq_bool_iff in Hal. by rewrite Hal.
Qed.

Lemma rsi_of_rising_prices_witness :
  calculate_rsi [10; 10; 11; 12] 2 = inr (VInt 100).
Proof.
  apply (rsi_of_rising_prices [10; 10; 11; 12] 2); [lia | simpl; lia |].
  repeat constructor; by intros [=].
Defined.

End IndicatorFacts.

(** ** What a tool call leaves alone *)

Module ToolFrameFacts.
Import Invariants FrameFacts ExecutorFacts OrchestratorFacts HistoryFacts.
#[local] Open Scope list_scope.

#[export] Instance note_file_kept_preorder : PreOrder note_file_kept.
Proof.
  split.
  - by intros w.
  - intros w1 w2 w3 H1 H2. unfold note_file_kept in *. congruence.
Qed.

(** Decompose a computation that does not write the note file. *)
Ltac note_step :=
  first
    [ apply (steps_bind note_file_kept); [| intros ?]
    | apply (steps_try_except note_file_kept); [| intros ?]
    | solve [intros ?; reflexivity]
    | solve [intros ?;
             match goal with
             | |- context [match ?x with _ => _ end] => destruct x
             end; reflexivity]
    | match goal with
      | |- steps _ (if ?c then _ else _) => destruct c
      | |- steps _ (match ?x with _ => _ end) => destruct x
      | |- steps _ (let _ := _ in _) => cbv zeta
      end ].

Lemma note_bybit_make_request {A} E b (reply : list event → Exc A)
  method endpoint params signed :
  steps note_file_kept
    (bybit_make_request E b reply method endpoint params signed).
Proof. unfold bybit_make_request. repeat note_step. Qed.

Lemma note_binance_make_request {A} E b (reply : list event → Exc A)
  method endpoint params signed use_spot :
  steps note_file_kept
    (binance_make_request E b reply method endpoint params signed use_spot).
Proof. unfold binance_make_request. repeat note_step. Qed.

Lemma note_frame_pure {A} (m : M A) :
  (∀ w, (m w).2 = w) → steps note_file_kept m.
Proof. intros H w. by rewrite H. Qed.

Ltac note :=
  repeat first
    [ apply note_bybit_make_request
    | apply note_binance_make_request
    | note_step ].

Lemma note_get_positions E b : steps note_file_kept (get_positions E b).
Proof. unfold get_positions. note. Qed.

Lemma note_normalize_crypto b sym : steps note_file_kept (normalize_crypto b sym).
Proof. unfold normalize_crypto, as_str, py_contains_slash. note. Qed.

Lemma note_crypto_ticker E b sym : steps note_file_kept (crypto_ticker E b sym).
Proof.
  unfold crypto_ticker.
  apply (steps_bind note_file_kept); [apply note_normalize_crypto | intros ?].
  note.
Qed.

Lemma note_close_position E b sym qty percentage :
  steps note_file_kept (close_position E b sym qty percentage).
Proof.
  unfold close_position, bybit_close_position, binance_close_position,
    alpaca_close_position, close_quantity, percent_of, int_true_div.
  destruct (kind b).
  - note.
  - apply (steps_bind note_file_kept); [apply note_get_positions | intros ?].
    note.
  - apply (steps_bind note_file_kept); [apply note_get_positions | intros ?].
    note.
Qed.

Lemma note_quantity_from_notional E b sym qty notional :
  steps note_file_kept (quantity_from_notional E b sym qty notional).
Proof.
  unfold quantity_from_notional, dividend, float_of_int.
  destruct (_ && _); [| note].
  apply (steps_bind note_file_kept); [apply note_crypto_ticker | intros ?].
  note.
Qed.

Lemma note_place_crypto_order E b sym side qty notional leverage :
  steps note_file_kept (place_crypto_order E b sym side qty notional leverage).
Proof.
  unfold place_crypto_order, bybit_place_crypto_order,
    binance_place_crypto_order, alpaca_place_crypto_order.
  destruct (kind b);
    (apply (steps_bind note_file_kept);
       [apply note_normalize_crypto | intros ?]).
  - unfold as_str. note.
  - unfold wants_leverage, py_gt_num.
    apply (steps_bind note_file_kept); [note | intros ?].
    apply (steps_bind note_file_kept); [note | intros ?].
    apply (steps_bind note_file_kept);
      [apply note_quantity_from_notional | intros ?].
    unfold as_str. note.
  - unfold wants_leverage, py_gt_num.
    apply (steps_bind note_file_kept); [note | intros ?].
    apply (steps_bind note_file_kept); [note | intros ?].
    apply (steps_bind note_file_kept);
      [apply note_quantity_from_notional | intros ?].
    unfold as_str. note.
Qed.

Lemma note_dispatch E b name arguments :
  name ∉ note_writers →
  steps note_file_kept (dispatch E b name arguments).
Proof.
  intros Hn. unfold note_writers in Hn.
  apply not_elem_of_cons in Hn as [H1%String.eqb_neq Hn].
  apply not_elem_of_cons in Hn as [H2%String.eqb_neq Hn].
  apply not_elem_of_cons in Hn as [H3%String.eqb_neq _].
  unfold dispatch. rewrite H1, H2, H3.
  unfold opaque_method, get_crypto_price, place_stock_order, get_stock_quote,
    looks_crypto, py_endswith, getitem, py_gt_num, as_str, py_contains_slash,
    Executor.read_file, fs_open.
  repeat first
    [ apply note_get_positions
    | apply note_close_position
    | apply note_crypto_ticker
    | apply note_place_crypto_order
    | note_step ].
Qed.

(** X30.  What a tool call leaves alone.  Whatever the tool and its
    arguments, [execute_tool] makes no model round-trip and leaves the
    conversation and the audit log as they were; the calls it makes are
    added after those made before.  The note file is changed by the three
    tools that write it and by no other; and the four note tools make no
    outbound call. *)
Theorem tools_keep_to_their_own (E : Env) (broker : option broker)
  (name : string) (arguments : gmap string pyval) (w : world) :
  let w' := (execute_tool E broker name arguments w).2 in
  messages w' = messages w ∧ logs w' = logs w ∧
  llm_calls (events w') = llm_calls (events w) ∧
  (∃ new, events w' = events w ++ new) ∧
  (name ∉ note_writers → memory_file w' = memory_file w) ∧
  (name ∈ note_tools → events w' = events w).
Proof.
  cbv zeta.
  destruct (frame_execute_tool E broker name arguments w)
    as (new & Hev & Hnew & Hm & Hl).
  split; [done |]. split; [done |]. split; [| split; [| split]].
  - apply (quiet_frame _ (frame_execute_tool E broker name arguments)).
  - by exists new.
  - intros Hn. destruct broker as [b|]; [| done].
    unfold execute_tool.
    apply (steps_try_except note_file_kept).
    + by apply note_dispatch.
    + intros e. by destruct (is_NotImplementedError e).
  - intros Hin. destruct broker as [b|]; [| done].
    unfold note_tools, note_writers in Hin.
    repeat (apply elem_of_cons in Hin as [-> | Hin]);
      [.. | by apply elem_of_nil in Hin];
      unfold execute_tool, try_except, dispatch;
      cbv beta iota delta [String.eqb Ascii.eqb Bool.eqb];
      clear Hev Hnew Hm Hl;
      unfold bind, fs_open, Executor.read_file, write_file, getitem,
        newline_plus, file_write; simpl;
      destruct (memory_file w); simpl;
      destruct (fs_fault E w) as [e|]; simpl;
      try destruct (is_NotImplementedError e);
      destruct (arguments !! "content") as [[]|]; reflexivity.
Qed.

End ToolFrameFacts.
